(** * AIFarm sprite pipeline: a shallow embedding of the asset scripts.

    The five scripts under [scripts/] are batch transforms over a directory of
    PNG files.  Each script is embedded in a module of its own name; Python's
    floats are IEEE binary64 and are modelled by Rocq's primitive floats, so
    the arithmetic of the model is the arithmetic of the scripts bit for bit.
    Exceptions are explicit: a computation that can raise returns a [result]. *)

From Stdlib Require Import ZArith Lia Floats Uint63 String Ascii.
From stdpp Require Import base option list gmap strings pretty.

Set Warnings "-inexact-float".
Open Scope Z_scope.

(** ** Python values, exceptions and float arithmetic *)

Module Py.

(** The exception classes the scripts can meet. *)
Inductive exn : Type :=
| ZeroDivisionError
| ValueError
| OverflowError
| FileNotFoundError
| UnidentifiedImageError
| RuntimeError.

(** The class name of an exception.  The scripts print [str(e)], the
    message of the exception; in the output of the model the class name
    stands for it. *)
Definition exn_name (e : exn) : string :=
  match e with
  | ZeroDivisionError => "ZeroDivisionError"
  | ValueError => "ValueError"
  | OverflowError => "OverflowError"
  | FileNotFoundError => "FileNotFoundError"
  | UnidentifiedImageError => "UnidentifiedImageError"
  | RuntimeError => "RuntimeError"
  end.

(** A computation either returns or raises. *)
Inductive result (A : Type) : Type :=
| Ok (a : A)
| Raise (e : exn).
Arguments Ok {A} a.
Arguments Raise {A} e.

Definition bind {A B : Type} (m : result A) (k : A -> result B) : result B :=
  match m with
  | Ok a => k a
  | Raise e => Raise e
  end.

Definition returns {A : Type} (m : result A) : bool :=
  match m with
  | Ok _ => true
  | Raise _ => false
  end.

(** [for x in xs: s = body(s, x)], stopping at the first exception. *)
Fixpoint for_each {A S : Type} (xs : list A) (body : S -> A -> result S) (s : S)
  : result S :=
  match xs with
  | [] => Ok s
  | x :: rest => bind (body s x) (for_each rest body)
  end.

(** [range(n)] *)
Definition range (n : Z) : list Z := seqZ 0 n.

(** [enumerate(xs)] *)
Definition enumerate {A : Type} (xs : list A) : list (Z * A) :=
  zip (seqZ 0 (Z.of_nat (length xs))) xs.

(** [float(z)] for an int within 63 bits (every int the scripts convert is a
    channel value or an image dimension). *)
Definition float_of_int (z : Z) : float :=
  if z <? 0 then PrimFloat.opp (PrimFloat.of_uint63 (Uint63.of_Z (- z)))
  else PrimFloat.of_uint63 (Uint63.of_Z z).

(** [int(x)]: truncation toward zero; NaN and the infinities raise. *)
Definition int_of_float (x : float) : result Z :=
  match Prim2SF x with
  | S754_nan => Raise ValueError
  | S754_infinity _ => Raise OverflowError
  | S754_zero _ => Ok 0
  | S754_finite s m e =>
      let v := Z.shiftl (Z.pos m) e in
      Ok (if s then - v else v)
  end.

(** [x / y] on floats. *)
Definition truediv (x y : float) : result float :=
  if PrimFloat.eqb y 0 then Raise ZeroDivisionError else Ok (PrimFloat.div x y).

(** [a / b] on ints (true division). *)
Definition int_truediv (a b : Z) : result float :=
  truediv (float_of_int a) (float_of_int b).

(** [min(a, b)] and [max(a, b, c)] keep the first argument unless a later one
    compares strictly better. *)
Definition min2 (a b : float) : float :=
  if PrimFloat.ltb b a then b else a.

Definition max3 (a b c : float) : float :=
  let m := if PrimFloat.ltb a b then b else a in
  if PrimFloat.ltb m c then c else m.

Definition min3 (a b c : float) : float :=
  let m := if PrimFloat.ltb b a then b else a in
  if PrimFloat.ltb c m then c else m.

(** [x % 1.0]: C's [fmod], then the sign of the divisor. *)
Definition mod_one (x : float) : float :=
  match int_of_float x with
  | Raise _ => PrimFloat.nan
  | Ok t =>
      let m := PrimFloat.sub x (float_of_int t) in
      if PrimFloat.eqb m 0 then 0%float
      else if PrimFloat.ltb m 0 then PrimFloat.add m 1 else m
  end.

End Py.

Export Py.

#[export] Instance result_bind : MBind result := λ A B k m, bind m k.
#[export] Instance result_ret : MRet result := @Ok.

(** ** The standard library's [colorsys] *)

Module colorsys.

Definition rgb_to_hsv (r g b : float) : result (float * float * float) :=
  let maxc := max3 r g b in
  let minc := min3 r g b in
  let rangec := PrimFloat.sub maxc minc in
  let v := maxc in
  if PrimFloat.eqb minc maxc then Ok (0%float, 0%float, v) else
  s ← truediv rangec maxc;
  rc ← truediv (PrimFloat.sub maxc r) rangec;
  gc ← truediv (PrimFloat.sub maxc g) rangec;
  bc ← truediv (PrimFloat.sub maxc b) rangec;
  let h :=
    if PrimFloat.eqb r maxc then PrimFloat.sub bc gc
    else if PrimFloat.eqb g maxc then PrimFloat.sub (PrimFloat.add 2 rc) bc
    else PrimFloat.sub (PrimFloat.add 4 gc) rc in
  h6 ← truediv h 6;
  Ok (mod_one h6, s, v).

Definition hsv_to_rgb (h s v : float) : result (float * float * float) :=
  if PrimFloat.eqb s 0 then Ok (v, v, v) else
  i ← int_of_float (PrimFloat.mul h 6);
  let f := PrimFloat.sub (PrimFloat.mul h 6) (float_of_int i) in
  let p := PrimFloat.mul v (PrimFloat.sub 1 s) in
  let q := PrimFloat.mul v (PrimFloat.sub 1 (PrimFloat.mul s f)) in
  let t := PrimFloat.mul v (PrimFloat.sub 1 (PrimFloat.mul s (PrimFloat.sub 1 f))) in
  let i := i `mod` 6 in
  if i =? 0 then Ok (v, t, p) else
  if i =? 1 then Ok (q, v, p) else
  if i =? 2 then Ok (p, v, t) else
  if i =? 3 then Ok (p, q, v) else
  if i =? 4 then Ok (t, p, v) else
  Ok (v, p, q).

End colorsys.

(** ** Pillow images

    An image is its mode, its size and its pixel access function
    ([img.load()]); only the coordinates inside the size are meaningful.
    A pixel is the 4-tuple Pillow stores: an "L" image uses the first
    component, an "RGB" image the first three. *)

Module PIL.

Definition pixel : Type := Z * Z * Z * Z.

Inductive mode : Type := L | RGB | RGBA.

Inductive filter : Type := NEAREST | LANCZOS.

Record image : Type := Image {
  im_mode : mode;
  width : Z;
  height : Z;
  getpixel : Z -> Z -> pixel
}.

Definition size (img : image) : Z * Z := (width img, height img).

Definition red (p : pixel) : Z := p.1.1.1.
Definition green (p : pixel) : Z := p.1.1.2.
Definition blue (p : pixel) : Z := p.1.2.
Definition alpha (p : pixel) : Z := p.2.

Definition inside (img : image) (x y : Z) : bool :=
  (0 <=? x) && (x <? width img) && (0 <=? y) && (y <? height img).

#[export] Instance mode_eq_dec : EqDecision mode.
Proof. solve_decision. Defined.

(** A PNG file on disk: what [stat] reports and what decoding yields
    ([None]: the bytes are not a readable image). *)
Record file : Type := File {
  st_size : Z;
  decoded : option image
}.

(** The sprite directory, keyed by file name. *)
Abbreviation filesystem := (gmap string file).

(** What [Image.quantize] computes for an image: a palette and, for every
    pixel, the index of its palette entry. *)
Record quantization : Type := Quantization {
  palette : list (Z * Z * Z);
  index_at : Z -> Z -> nat
}.

(** What the scripts call and the repository does not contain: the resampling
    kernels behind [Image.resize], the median-cut quantizer, the PNG encoder's
    output length, rembg's [remove] and the directory listing of [Path.glob]. *)
Class Extern : Type := {
  resample : filter -> image -> Z -> Z -> Z -> Z -> pixel;
  median_cut : image -> Z -> result quantization;
  png_size : image -> Z;
  remove : file -> result file;
  sorted_glob : filesystem -> string -> list string
}.

(** [Image.new(mode, (w, h), color)] *)
Definition new (m : mode) (w h : Z) (color : pixel) : image :=
  Image m w h (fun _ _ => color).

(** Pillow's [CLIP8]. *)
Definition clip8 (v : Z) : Z := Z.max 0 (Z.min 255 v).

(** [pixels[x, y] = p] *)
Definition putpixel (img : image) (x y : Z) (p : pixel) : image :=
  let '(r, g, b, a) := p in
  let ink := (clip8 r, clip8 g, clip8 b, clip8 a) in
  Image (im_mode img) (width img) (height img)
    (fun x' y' => if (x' =? x) && (y' =? y) then ink else getpixel img x' y').

(** [img.convert('RGBA')]: grey and colour images become opaque. *)
Definition convert_RGBA (img : image) : image :=
  let px x y :=
    let '(r, g, b, a) := getpixel img x y in
    match im_mode img with
    | L => (r, r, r, 255)
    | RGB => (r, g, b, 255)
    | RGBA => (r, g, b, a)
    end in
  Image RGBA (width img) (height img) px.

(** One band of [img.split()], an "L" image. *)
Definition band (img : image) (channel : pixel -> Z) : image :=
  Image L (width img) (height img) (fun x y => (channel (getpixel img x y), 0, 0, 0)).

(** [r, g, b, a = img.split()] on an "RGBA" image. *)
Definition split (img : image) : image * image * image * image :=
  (band img red, band img green, band img blue, band img alpha).

Definition same_size (a b : image) : bool :=
  (width a =? width b) && (height a =? height b).

Definition is_L (a : image) : bool := bool_decide (im_mode a = L).

(** [Image.merge('RGB', (r, g, b))]: the bands must be "L" images of one size. *)
Definition merge_RGB (r g b : image) : result image :=
  if is_L r && is_L g && is_L b && same_size r g && same_size r b then
    Ok (Image RGB (width r) (height r)
          (fun x y => (red (getpixel r x y), red (getpixel g x y),
                       red (getpixel b x y), 255)))
  else Raise ValueError.

(** [Image.merge('RGBA', (r, g, b, a))] *)
Definition merge_RGBA (r g b a : image) : result image :=
  if is_L r && is_L g && is_L b && is_L a
     && same_size r g && same_size r b && same_size r a then
    Ok (Image RGBA (width r) (height r)
          (fun x y => (red (getpixel r x y), red (getpixel g x y),
                       red (getpixel b x y), red (getpixel a x y))))
  else Raise ValueError.

(** [img.resize((w, h), filter)]: a copy when the size is already (w, h);
    otherwise both sides must be positive and the kernel fills the pixels. *)
Definition resize `{Extern} (img : image) (w h : Z) (f : filter) : result image :=
  if (width img =? w) && (height img =? h) then Ok img
  else if (w <? 1) || (h <? 1) then Raise ValueError
  else Ok (Image (im_mode img) w h (resample f img w h)).

(** [img.quantize(...).convert('RGB')]: the palette image of [img]'s size
    read back through its palette; an index outside the palette reads as black. *)
Definition palette_to_RGB (img : image) (q : quantization) : image :=
  Image RGB (width img) (height img)
    (fun x y => let '(r, g, b) := nth (index_at q x y) (palette q) (0, 0, 0) in
                (r, g, b, 255)).

(** Pillow's [BLEND8] (ImagingUtils.h): [in1] seen through [255 - mask],
    [in2] through [mask], divided by 255 with rounding. *)
Definition blend8 (mask in1 in2 : Z) : Z :=
  let tmp := in1 * (255 - mask) + in2 * mask + 128 in
  Z.shiftr (Z.shiftr tmp 8 + tmp) 8.

Definition blend_pixel (mask : Z) (dst src : pixel) : pixel :=
  (blend8 mask (red dst) (red src), blend8 mask (green dst) (green src),
   blend8 mask (blue dst) (blue src), blend8 mask (alpha dst) (alpha src)).

(** [dst.paste(src, (x0, y0))] and [dst.paste(src, (x0, y0), mask)] with an
    "RGBA" mask of the size of [src]: the region of [src]'s size at (x0, y0),
    clipped to [dst]; the mask's alpha band weighs every band. *)
Definition paste (dst src : image) (x0 y0 : Z) (mask : option image) : image :=
  Image (im_mode dst) (width dst) (height dst)
    (fun x y =>
       if inside src (x - x0) (y - y0) then
         match mask with
         | None => getpixel src (x - x0) (y - y0)
         | Some m =>
             blend_pixel (alpha (getpixel m (x - x0) (y - y0)))
               (getpixel dst x y) (getpixel src (x - x0) (y - y0))
         end
       else getpixel dst x y).

(** The coordinates of an image, row by row. *)
Definition coordinates (img : image) : list (Z * Z) :=
  y ← range (height img); x ← range (width img); [(x, y)].

(** A pixel [getbbox] counts as content: alpha for "RGBA", any band else. *)
Definition is_content (m : mode) (p : pixel) : bool :=
  match m with
  | RGBA => negb (alpha p =? 0)
  | RGB => negb ((red p =? 0) && (green p =? 0) && (blue p =? 0))
  | L => negb (red p =? 0)
  end.

Definition minimum (d : Z) (l : list Z) : Z := foldr Z.min d l.
Definition maximum (d : Z) (l : list Z) : Z := foldr Z.max d l.

(** [img.getbbox()]: (left, upper, right, lower) around the content, [None]
    when there is none. *)
Definition getbbox (img : image) : option (Z * Z * Z * Z) :=
  let content :=
    List.filter (fun c => is_content (im_mode img) (getpixel img c.1 c.2))
      (coordinates img) in
  match content with
  | [] => None
  | c :: _ =>
      Some (minimum c.1 (content.*1), minimum c.2 (content.*2),
            maximum c.1 (content.*1) + 1, maximum c.2 (content.*2) + 1)
  end.

(** [img.crop((left, upper, right, lower))] *)
Definition crop (img : image) (box : Z * Z * Z * Z) : image :=
  let '(x0, y0, x1, y1) := box in
  Image (im_mode img) (x1 - x0) (y1 - y0)
    (fun x y => getpixel img (x + x0) (y + y0)).

(** [path.exists()] *)
Definition exists_ (fs : filesystem) (path : string) : bool :=
  bool_decide (is_Some (fs !! path)).

(** [Image.open(path)] *)
Definition open (fs : filesystem) (path : string) : result image :=
  match fs !! path with
  | None => Raise FileNotFoundError
  | Some f =>
      match decoded f with
      | Some img => Ok img
      | None => Raise UnidentifiedImageError
      end
  end.

(** [Image.open(BytesIO(data))] *)
Definition open_bytes (data : file) : result image :=
  match decoded data with
  | Some img => Ok img
  | None => Raise UnidentifiedImageError
  end.

(** [img.save(path)] *)
Definition save `{Extern} (img : image) (path : string) (fs : filesystem)
  : filesystem :=
  <[path := File (png_size img) (Some img)]> fs.

(** Two images a reader cannot tell apart. *)
Definition same_image (a b : image) : Prop :=
  im_mode a = im_mode b /\ size a = size b /\
  forall x y, inside a x y = true -> getpixel a x y = getpixel b x y.

(** Every stored channel is a byte. *)
Definition byte (v : Z) : Prop := 0 <= v <= 255.

Definition bytes_image (img : image) : Prop :=
  forall x y, inside img x y = true ->
    byte (red (getpixel img x y)) /\ byte (green (getpixel img x y)) /\
    byte (blue (getpixel img x y)) /\ byte (alpha (getpixel img x y)).

End PIL.

(** Standard output: the strings the [print] calls wrote, in order. *)
Abbreviation stdout := (list string).

Definition print (line : string) (out : stdout) : stdout := out ++ [line].

(** ** scripts/recolor_sprites.py *)

Module recolor_sprites.
Import PIL.

Definition DIRECTIONS : list string := ["front"; "left"; "right"; "back"]%string.
Definition FRAMES_PER_DIR : Z := 3.

Definition BLUE_HUE_MIN : Z := 170.
Definition BLUE_HUE_MAX : Z := 260.

Record config : Type := Config {
  target_hue : float;
  sat_boost : float;
  val_boost : float
}.

Definition RECOLOR_TARGETS : list (string * config) :=
  [ ("red"%string, Config 12 1.1 0.95);
    ("orange"%string, Config 30 1.15 1.05) ].

(** [BLUE_HUE_MIN <= hue_deg <= BLUE_HUE_MAX and s > 0.15] *)
Definition in_blue_range (hue_deg s : float) : bool :=
  PrimFloat.leb (float_of_int BLUE_HUE_MIN) hue_deg
  && PrimFloat.leb hue_deg (float_of_int BLUE_HUE_MAX)
  && PrimFloat.ltb 0.15 s.

(** [colorsys.rgb_to_hsv(r / 255.0, g / 255.0, b / 255.0)] *)
Definition pixel_hsv (r g b : Z) : result (float * float * float) :=
  fr ← truediv (float_of_int r) 255;
  fg ← truediv (float_of_int g) 255;
  fb ← truediv (float_of_int b) 255;
  colorsys.rgb_to_hsv fr fg fb.

Definition recolor_pixel (r g b a : Z) (target_hue sat_boost val_boost : float)
  : result pixel :=
  if a <? 10 then Ok (r, g, b, a) else
  '(h, s, v) ← pixel_hsv r g b;
  let hue_deg := PrimFloat.mul h 360 in
  if in_blue_range hue_deg s then
    new_h ← truediv target_hue 360;
    let new_s := min2 1 (PrimFloat.mul s sat_boost) in
    let new_v := min2 1 (PrimFloat.mul v val_boost) in
    '(nr, ng, nb) ← colorsys.hsv_to_rgb new_h new_s new_v;
    ir ← int_of_float (PrimFloat.mul nr 255);
    ig ← int_of_float (PrimFloat.mul ng 255);
    ib ← int_of_float (PrimFloat.mul nb 255);
    Ok (ir, ig, ib, a)
  else Ok (r, g, b, a).

Definition recolor_image (img : image) (target_hue sat_boost val_boost : float)
  : result image :=
  let img := convert_RGBA img in
  let '(w, h) := size img in
  for_each (range h) (fun img y =>
    for_each (range w) (fun img x =>
      let '(r, g, b, a) := getpixel img x y in
      p ← recolor_pixel r g b a target_hue sat_boost val_boost;
      Ok (putpixel img x y p)) img) img.

Definition frame_name (color direction : string) (frame : Z) : string :=
  "char_" +:+ color +:+ "_" +:+ direction +:+ "_" +:+ pretty frame +:+ ".png".

Definition process_color `{Extern} (color_name : string) (cfg : config)
    (st : filesystem * stdout) : result (filesystem * stdout * Z) :=
  let '(fs, out) := st in
  let out := print ("=== Recoloring blue -> " +:+ color_name +:+ " ===") out in
  '(fs, out, count, skipped) ←
    for_each DIRECTIONS (fun st direction =>
      for_each (range FRAMES_PER_DIR) (fun '(fs, out, count, skipped) frame =>
        let src_path := frame_name "blue" direction frame in
        let dst_path := frame_name color_name direction frame in
        match fs !! src_path with
        | None =>
            Ok (fs, print ("  [SKIP] Source not found: " +:+ src_path) out,
                count, skipped + 1)
        | Some src =>
            if st_size src <? 300 then
              Ok (fs, print ("  [WARN] Blue source too small: " +:+ src_path
                             +:+ " (" +:+ pretty (st_size src) +:+ "B)") out,
                  count, skipped + 1)
            else
              img ← open fs src_path;
              recolored ← recolor_image img (target_hue cfg) (sat_boost cfg)
                            (val_boost cfg);
              Ok (save recolored dst_path fs, out, count + 1, skipped)
        end) st) (fs, out, 0, 0);
  let out := print ("  Recolored " +:+ pretty count +:+ " frames, skipped "
                    +:+ pretty skipped) out in
  Ok (fs, out, count).

(** One round of the loop of [rebuild_sheets]: the sheet of one colour. *)
Definition rebuild_sheet `{Extern} (color_name : string)
    (st : filesystem * stdout) : result (filesystem * stdout) :=
  let '(fs, out) := st in
  let sheet_path := "char_" +:+ color_name +:+ "_sheet.png" in
  let '(frame_w, frame_h) := (48, 64) in
  let '(cols, rows) := (FRAMES_PER_DIR, Z.of_nat (length DIRECTIONS)) in
  let sheet := new RGBA (cols * frame_w) (rows * frame_h) (0, 0, 0, 0) in
  let direction_order := ["front"; "left"; "right"; "back"]%string in
  '(sheet, missing) ←
    for_each (enumerate direction_order) (fun st '(row_idx, direction) =>
      for_each (range cols) (fun '(sheet, missing) frame =>
        let frame_path := frame_name color_name direction frame in
        if negb (exists_ fs frame_path) then Ok (sheet, missing + 1)
        else
          opened ← open fs frame_path;
          let frame_img := convert_RGBA opened in
          frame_img ←
            (if bool_decide (size frame_img = (frame_w, frame_h)) then Ok frame_img
             else resize frame_img frame_w frame_h NEAREST);
          Ok (paste sheet frame_img (frame * frame_w) (row_idx * frame_h) None,
              missing)) st) (sheet, 0);
  let fs := save sheet sheet_path fs in
  Ok (fs, print ("  [OK] " +:+ sheet_path +:+ " - " +:+ pretty cols +:+ "x"
                 +:+ pretty rows +:+ " grid (" +:+ pretty missing
                 +:+ " frames missing)") out).

Definition rebuild_sheets `{Extern} (st : filesystem * stdout)
  : result (filesystem * stdout) :=
  let '(fs, out) := st in
  let out := print "=== Rebuilding sprite sheets ===" out in
  for_each (RECOLOR_TARGETS.*1) (fun st color_name => rebuild_sheet color_name st)
    (fs, out).

End recolor_sprites.

(** ** scripts/pixelate_sprites.py *)

Module pixelate_sprites.
Import PIL.

Definition PIXEL_FACTOR_CHAR : float := 0.5.
Definition PIXEL_FACTOR_ANIMAL : float := 0.5.
Definition PIXEL_FACTOR_BUILDING : float := 0.5.
Definition MAX_COLORS : Z := 32.

(** [r, g, b = img.split()] on an "RGB" image. *)
Definition split_RGB (img : image) : image * image * image :=
  (band img red, band img green, band img blue).

Definition pixelate `{Extern} (img : image) (factor : float) : result image :=
  let '(w, h) := size img in
  sw ← int_of_float (PrimFloat.mul (float_of_int w) factor);
  let small_w := Z.max 1 sw in
  sh ← int_of_float (PrimFloat.mul (float_of_int h) factor);
  let small_h := Z.max 1 sh in
  if bool_decide (im_mode img = RGBA) then
    let '(r, g, b, a) := split img in
    rgb ← merge_RGB r g b;
    small_rgb ← resize rgb small_w small_h NEAREST;
    pixel_rgb ← resize small_rgb w h NEAREST;
    small_a ← resize a small_w small_h NEAREST;
    pixel_a ← resize small_a w h NEAREST;
    let '(pr, pg, pb) := split_RGB pixel_rgb in
    merge_RGBA pr pg pb pixel_a
  else
    small ← resize img small_w small_h NEAREST;
    resize small w h NEAREST.

Definition quantize_colors `{Extern} (img : image) (max_colors : Z)
  : result image :=
  if negb (bool_decide (im_mode img = RGBA)) || (max_colors <=? 0) then Ok img
  else
    let '(r, g, b, a) := split img in
    rgb ← merge_RGB r g b;
    quantized ← median_cut rgb max_colors;
    let quantized_rgb := palette_to_RGB rgb quantized in
    let '(qr, qg, qb) := split_RGB quantized_rgb in
    merge_RGBA qr qg qb a.

Definition CHAR_COLORS : list string :=
  ["blue"; "red"; "green"; "purple"; "orange"; "teal"; "pink"; "yellow"]%string.
Definition ANIMALS : list string :=
  ["chicken"; "cow"; "pig"; "sheep"; "cat"; "dog"]%string.
Definition DIRECTIONS : list string := ["front"; "left"; "right"; "back"]%string.

Definition BUILDING_NAMES : list string :=
  [ "building_well"; "building_barn"; "building_windmill";
    "building_market"; "building_clock"; "building_townhall";
    "building_statue" ]%string.

(** What the three loops do with a file that exists:
    [img = Image.open(path).convert("RGBA")], [img = pixelate(img, factor)],
    [if MAX_COLORS > 0: img = quantize_colors(img, MAX_COLORS)],
    [img.save(path)]. *)
Definition pixelate_file `{Extern} (path : string) (factor : float)
    (fs : filesystem) : result filesystem :=
  opened ← open fs path;
  let img := convert_RGBA opened in
  img ← pixelate img factor;
  img ← (if 0 <? MAX_COLORS then quantize_colors img MAX_COLORS else Ok img);
  Ok (save img path fs).

(** The frame loops of [process_characters] and [process_animals] for one
    subject: a missing frame is passed over without a word. *)
Definition pixelate_frames `{Extern} (kind subject : string) (frames : Z)
    (factor : float) (st : filesystem * Z) : result (filesystem * Z) :=
  for_each DIRECTIONS (fun st direction =>
    for_each (range frames) (fun '(fs, count) frame =>
      let path := kind +:+ "_" +:+ subject +:+ "_" +:+ direction +:+ "_"
                  +:+ pretty frame +:+ ".png" in
      if negb (exists_ fs path) then Ok (fs, count)
      else
        fs ← pixelate_file path factor fs;
        Ok (fs, count + 1)) st) st.

(** In the messages "-" stands for the dash of the script. *)
Definition process_characters `{Extern} (st : filesystem * stdout)
  : result (filesystem * stdout) :=
  let '(fs, out) := st in
  let out := print "=== Pixelating Character Sprites ===" out in
  '(fs, out, count) ←
    for_each CHAR_COLORS (fun '(fs, out, count) color =>
      '(fs, count) ← pixelate_frames "char" color 3 PIXEL_FACTOR_CHAR (fs, count);
      Ok (fs, print ("  [OK] char_" +:+ color +:+ " - 12 frames pixelated") out,
          count))
      (fs, out, 0);
  Ok (fs, print ("  Pixelated " +:+ pretty count +:+ " character frames.") out).

Definition process_animals `{Extern} (st : filesystem * stdout)
  : result (filesystem * stdout) :=
  let '(fs, out) := st in
  let out := print "=== Pixelating Animal Sprites ===" out in
  '(fs, out, count) ←
    for_each ANIMALS (fun '(fs, out, count) animal =>
      '(fs, count) ← pixelate_frames "animal" animal 2 PIXEL_FACTOR_ANIMAL
                       (fs, count);
      Ok (fs, print ("  [OK] animal_" +:+ animal +:+ " - 8 frames pixelated") out,
          count))
      (fs, out, 0);
  Ok (fs, print ("  Pixelated " +:+ pretty count +:+ " animal frames.") out).

Definition process_buildings `{Extern} (st : filesystem * stdout)
  : result (filesystem * stdout) :=
  let '(fs, out) := st in
  let out := print "=== Pixelating Building Sprites ===" out in
  for_each BUILDING_NAMES (fun '(fs, out) name =>
    let path := name +:+ ".png" in
    if negb (exists_ fs path) then
      Ok (fs, print ("  [SKIP] " +:+ name +:+ ".png not found") out)
    else
      fs ← pixelate_file path PIXEL_FACTOR_BUILDING fs;
      Ok (fs, print ("  [OK] " +:+ name +:+ ".png pixelated") out))
    (fs, out).

(** ["=" * 50] *)
Definition rule : string := String.concat "" (replicate 50 "=")%string.

Definition main `{Extern} (st : filesystem * stdout)
  : result (filesystem * stdout) :=
  let '(fs, out) := st in
  let out := print rule out in
  let out := print "  Sprite Pixelation - SNES aesthetic pass" out in
  let out := print rule out in
  '(fs, out) ← process_characters (fs, out);
  '(fs, out) ← process_animals (fs, out);
  '(fs, out) ← process_buildings (fs, out);
  let out := print rule out in
  let out := print "  Done! Run build_sprite_sheets.py next to rebuild sheets." out in
  let out := print rule out in
  Ok (fs, out).

End pixelate_sprites.

(** ** scripts/build_sprite_sheets.py *)

Module build_sprite_sheets.
Import PIL.

Definition DIRECTIONS : list string := ["front"; "left"; "right"; "back"]%string.

Definition CHAR_COLORS : list string :=
  ["blue"; "red"; "green"; "purple"; "orange"; "teal"; "pink"; "yellow"]%string.
Definition ANIMALS : list string :=
  ["chicken"; "cow"; "pig"; "sheep"; "cat"; "dog"]%string.

(** [f"{kind}_{subject}_{direction}_{col}.png"] *)
Definition frame_name (kind subject direction : string) (col : Z) : string :=
  kind +:+ "_" +:+ subject +:+ "_" +:+ direction +:+ "_" +:+ pretty col +:+ ".png".

(** [f"{kind}_{subject}_sheet.png"] *)
Definition sheet_name (kind subject : string) : string :=
  kind +:+ "_" +:+ subject +:+ "_sheet.png".

(** The body both builders run for one subject; they differ in the file
    prefix ([kind]) and in [frames_per_dir] only. *)
Definition build_sheet `{Extern} (kind : string) (frames_per_dir : Z)
    (subject : string) (st : filesystem * stdout)
  : result (filesystem * stdout) :=
  let '(fs, out) := st in
  let test_frame := frame_name kind subject "front" 0 in
  if negb (exists_ fs test_frame) then
    Ok (fs, print ("  [SKIP] " +:+ kind +:+ "_" +:+ subject
                   +:+ " - no frames found") out)
  else
    sample ← open fs test_frame;
    let '(fw, fh) := size sample in
    let sheet_w := fw * frames_per_dir in
    let sheet_h := fh * Z.of_nat (length DIRECTIONS) in
    let sheet := new RGBA sheet_w sheet_h (0, 0, 0, 0) in
    '(sheet, missing) ←
      for_each (enumerate DIRECTIONS) (fun st '(row, direction) =>
        for_each (range frames_per_dir) (fun '(sheet, missing) col =>
          let frame_path := frame_name kind subject direction col in
          if exists_ fs frame_path then
            opened ← open fs frame_path;
            let frame := convert_RGBA opened in
            frame ←
              (if bool_decide (size frame = (fw, fh)) then Ok frame
               else resize frame fw fh NEAREST);
            Ok (paste sheet frame (col * fw) (row * fh) (Some frame), missing)
          else Ok (sheet, missing + 1)) st) (sheet, 0);
    let out_path := sheet_name kind subject in
    let fs := save sheet out_path fs in
    let status :=
      if 0 <? missing then "(" +:+ pretty missing +:+ " missing)" else "OK" in
    Ok (fs, print ("  [DONE] " +:+ out_path +:+ "  " +:+ pretty sheet_w +:+ "x"
                   +:+ pretty sheet_h +:+ "  " +:+ status) out).

Definition build_character_sheets `{Extern} (st : filesystem * stdout)
  : result (filesystem * stdout) :=
  let '(fs, out) := st in
  let out := print "=== Building Character Sprite Sheets ===" out in
  let frames_per_dir := 3 in
  for_each CHAR_COLORS (fun st color => build_sheet "char" frames_per_dir color st)
    (fs, out).

Definition build_animal_sheets `{Extern} (st : filesystem * stdout)
  : result (filesystem * stdout) :=
  let '(fs, out) := st in
  let out := print "=== Building Animal Sprite Sheets ===" out in
  let frames_per_dir := 2 in
  for_each ANIMALS (fun st animal => build_sheet "animal" frames_per_dir animal st)
    (fs, out).

(** ["=" * 50] *)
Definition rule : string := String.concat "" (replicate 50 "=")%string.

Definition main `{Extern} (st : filesystem * stdout)
  : result (filesystem * stdout) :=
  let '(fs, out) := st in
  let out := print rule out in
  let out := print "  Sprite Sheet Builder - from processed frames" out in
  let out := print rule out in
  st ← build_character_sheets (fs, out);
  '(fs, out) ← build_animal_sheets st;
  let out := print rule out in
  let out := print "  Done! Sheets ready for SpriteManager." out in
  let out := print rule out in
  Ok (fs, out).

End build_sprite_sheets.

(** ** scripts/process_all_sprites.py *)

Module process_all_sprites.
Import PIL.

Definition CHAR_SIZE : Z * Z := (48, 64).
Definition ANIMAL_SIZE : Z * Z := (48, 48).
Definition BUILDING_SIZES : list (string * (Z * Z)) :=
  [ ("building_well", (96, 96)); ("building_barn", (192, 160));
    ("building_windmill", (160, 192)); ("building_market", (192, 128));
    ("building_clock", (96, 192)); ("building_townhall", (192, 160));
    ("building_statue", (96, 128)) ]%string.

(** Position of the last "." of a file name, if any. *)
Fixpoint last_dot (s : string) (i : nat) (found : option nat) : option nat :=
  match s with
  | EmptyString => found
  | String c rest =>
      last_dot rest (S i) (if Ascii.eqb c "." then Some i else found)
  end.

(** [path.stem] and [path.suffix] of a file name: the name is split at its
    last dot [i] when [0 < i < len(name) - 1], and has no suffix otherwise. *)
Definition stem (name : string) : string :=
  match last_dot name 0 None with
  | Some (S i) =>
      if (S (S i) <? String.length name)%nat then String.substring 0 (S i) name
      else name
  | _ => name
  end.

Definition suffix (name : string) : string :=
  match last_dot name 0 None with
  | Some (S i) =>
      if (S (S i) <? String.length name)%nat
      then String.substring (S i) (String.length name - S i) name
      else ""
  | _ => ""
  end.

(** ["sheet" in s] *)
Definition mentions_sheet (s : string) : bool :=
  match String.index 0 "sheet" s with
  | Some _ => true
  | None => false
  end.

Definition backup_name (name : string) : string :=
  "originals_backup/" +:+ stem name +:+ "_original" +:+ suffix name.

(** [shutil.copy2(src, dst)] *)
Definition copy2 (src dst : string) (fs : filesystem) : result filesystem :=
  match fs !! src with
  | None => Raise FileNotFoundError
  | Some f => Ok (<[dst := f]> fs)
  end.

Definition backup_file (src : string) (fs : filesystem)
  : result (bool * filesystem) :=
  let backup := backup_name src in
  if negb (exists_ fs backup) then
    fs ← copy2 src backup fs;
    Ok (true, fs)
  else Ok (false, fs).

(** [open(src, "rb").read()] *)
Definition read (fs : filesystem) (src : string) : result file :=
  match fs !! src with
  | None => Raise FileNotFoundError
  | Some f => Ok f
  end.

Definition process_sprite `{Extern} (src : string) (target_w target_h : Z)
    (use_lanczos : bool) (fs : filesystem) : result (bool * filesystem) :=
  input_data ← read fs src;
  output_data ← remove input_data;
  opened ← open_bytes output_data;
  let img := convert_RGBA opened in
  let bbox := getbbox img in
  let img := match bbox with Some box => crop img box | None => img end in
  if (width img =? 0) || (height img =? 0) then Ok (false, fs) else
  rw ← int_truediv target_w (width img);
  rh ← int_truediv target_h (height img);
  let ratio := min2 rw rh in
  nw ← int_of_float (PrimFloat.mul (float_of_int (width img)) ratio);
  let new_w := Z.max 1 nw in
  nh ← int_of_float (PrimFloat.mul (float_of_int (height img)) ratio);
  let new_h := Z.max 1 nh in
  let resample := if use_lanczos then LANCZOS else NEAREST in
  img ← resize img new_w new_h resample;
  let canvas := new RGBA target_w target_h (0, 0, 0, 0) in
  let offset_x := (target_w - new_w) `div` 2 in
  let offset_y := target_h - new_h in
  let canvas := paste canvas img offset_x offset_y (Some img) in
  Ok (true, save canvas src fs).

(** [try: ... process_sprite(...) ... except Exception as e: print(...)],
    the guarded part of every loop of this script. *)
Definition try_process_sprite `{Extern} (src : string) (target_w target_h : Z)
    (use_lanczos : bool) (count_ok : bool) (st : filesystem * stdout * Z)
  : filesystem * stdout * Z :=
  let '(fs, out, count) := st in
  match process_sprite src target_w target_h use_lanczos fs with
  | Ok (true, fs) => (fs, print "OK" out, if count_ok then count + 1 else count)
  | Ok (false, fs) => (fs, print "EMPTY" out, count)
  | Raise e => (fs, print ("ERROR: " +:+ exn_name e) out, count)
  end.

Definition process_characters `{Extern} (st : filesystem * stdout)
  : result (filesystem * stdout * Z) :=
  let '(fs, out) := st in
  let out := print "=== Processing Character Sprites ===" out in
  let char_files := sorted_glob fs "char_*_*.png" in
  let char_files := List.filter (fun f => negb (mentions_sheet (stem f))) char_files in
  '(fs, out, count) ←
    for_each char_files (fun '(fs, out, count) src =>
      '(backed_up, fs) ← backup_file src fs;
      let status := if backed_up : bool then "NEW" else "UPDATE" in
      let out := print ("  [" +:+ status +:+ "] " +:+ src +:+ " ...") out in
      Ok (try_process_sprite src CHAR_SIZE.1 CHAR_SIZE.2 false true (fs, out, count)))
      (fs, out, 0);
  Ok (fs, print ("  Processed " +:+ pretty count +:+ " character sprites.") out,
      count).

Definition process_buildings `{Extern} (st : filesystem * stdout)
  : result (filesystem * stdout) :=
  let '(fs, out) := st in
  let out := print "=== Processing Building Sprites ===" out in
  '(fs, out, _) ←
    for_each BUILDING_SIZES (fun '(fs, out, count) '(name, (tw, th)) =>
      let src := name +:+ ".png" in
      if negb (exists_ fs src) then
        Ok (fs, print ("  [SKIP] " +:+ name +:+ ".png not found") out, count)
      else
        let orig := "originals_backup/" +:+ name +:+ "_original.png" in
        fs ← (if exists_ fs orig then copy2 orig src fs
              else '(_, fs) ← backup_file src fs; Ok fs);
        let out := print ("  [REMBG] " +:+ name +:+ ".png -> " +:+ pretty tw +:+ "x"
                          +:+ pretty th +:+ " ...") out in
        Ok (try_process_sprite src tw th true false (fs, out, count)))
      (fs, out, 0);
  Ok (fs, out).

Definition process_animals `{Extern} (st : filesystem * stdout)
  : result (filesystem * stdout * Z) :=
  let '(fs, out) := st in
  let out := print "=== Processing Animal Sprites ===" out in
  let animal_files := sorted_glob fs "animal_*.png" in
  let animal_files :=
    List.filter (fun f => negb (mentions_sheet (stem f))) animal_files in
  '(fs, out, count) ←
    for_each animal_files (fun '(fs, out, count) src =>
      '(backed_up, fs) ← backup_file src fs;
      let status := if backed_up : bool then "NEW" else "UPDATE" in
      let out := print ("  [" +:+ status +:+ "] " +:+ src +:+ " ...") out in
      Ok (try_process_sprite src ANIMAL_SIZE.1 ANIMAL_SIZE.2 false true
            (fs, out, count)))
      (fs, out, 0);
  Ok (fs, print ("  Processed " +:+ pretty count +:+ " animal sprites.") out, count).

(** ["=" * 50] *)
Definition rule : string := String.concat "" (replicate 50 "=")%string.

Definition main `{Extern} (st : filesystem * stdout)
  : result (filesystem * stdout) :=
  let '(fs, out) := st in
  let out := print rule out in
  let out := print "  AIFarm Sprite Processor - rembg + resize" out in
  let out := print rule out in
  '(fs, out) ← process_buildings (fs, out);
  '(fs, out, _) ← process_characters (fs, out);
  '(fs, out, _) ← process_animals (fs, out);
  let out := print rule out in
  let out := print "  All done! Check preview.html to verify." out in
  let out := print rule out in
  Ok (fs, out).

End process_all_sprites.

(** ** scripts/process_building_sprites.py *)

Module process_building_sprites.
Import PIL.

Definition BUILDING_SIZES : list (string * (Z * Z)) :=
  [ ("building_well", (96, 96)); ("building_barn", (192, 160));
    ("building_windmill", (160, 192)); ("building_market", (192, 128));
    ("building_clock", (96, 192)); ("building_townhall", (192, 160));
    ("building_statue", (96, 128)) ]%string.

(** [BUILDING_SIZES.get(name, (96, 96))] *)
Definition building_size (name : string) : Z * Z :=
  match List.find (fun entry => String.eqb entry.1 name) BUILDING_SIZES with
  | Some entry => entry.2
  | None => (96, 96)
  end.

(** The state a call leaves behind comes with its outcome: what
    [process_sprite] wrote and printed before an exception stays. *)
Definition process_sprite `{Extern} (name : string) (st : filesystem * stdout)
  : filesystem * stdout * result () :=
  let '(fs, out) := st in
  let src := name +:+ ".png" in
  match fs !! src with
  | None => (fs, print ("  [SKIP] " +:+ name +:+ ".png not found") out, Ok ())
  | Some source =>
      let backup := "originals_backup/" +:+ name +:+ "_original.png" in
      let '(fs, out) :=
        if negb (exists_ fs backup) then
          (<[backup := source]> fs,
           print ("  [BACKUP] " +:+ name +:+ "_original.png") out)
        else (fs, out) in
      let out := print ("  [REMBG] Processing " +:+ name +:+ ".png ...") out in
      let input_data := source in
      let '(target_w, target_h) := building_size name in
      let rendered :=
        output_data ← remove input_data;
        opened ← open_bytes output_data;
        let img := convert_RGBA opened in
        let bbox := getbbox img in
        let img := match bbox with Some box => crop img box | None => img end in
        rw ← int_truediv target_w (width img);
        rh ← int_truediv target_h (height img);
        let ratio := min2 rw rh in
        new_w ← int_of_float (PrimFloat.mul (float_of_int (width img)) ratio);
        new_h ← int_of_float (PrimFloat.mul (float_of_int (height img)) ratio);
        img ← resize img new_w new_h NEAREST;
        let canvas := new RGBA target_w target_h (0, 0, 0, 0) in
        let offset_x := (target_w - new_w) `div` 2 in
        let offset_y := target_h - new_h in
        Ok (paste canvas img offset_x offset_y (Some img), new_w, new_h) in
      match rendered with
      | Raise e => (fs, out, Raise e)
      | Ok (canvas, new_w, new_h) =>
          (save canvas src fs,
           print ("  [DONE] " +:+ name +:+ ".png -> " +:+ pretty target_w +:+ "x"
                  +:+ pretty target_h +:+ " (content: " +:+ pretty new_w +:+ "x"
                  +:+ pretty new_h +:+ ")") out,
           Ok ())
      end
  end.

(** The loop of [main]: [try: process_sprite(name) except Exception as e:
    print(...)]. *)
Definition main `{Extern} (st : filesystem * stdout) : filesystem * stdout :=
  let '(fs, out) := st in
  let out := print "=== Building Sprite Processor ===" out in
  let '(fs, out) :=
    foldl (fun '(fs, out) name =>
      let out := print ("Processing: " +:+ name) out in
      match process_sprite name (fs, out) with
      | (fs, out, Ok _) => (fs, out)
      | (fs, out, Raise e) => (fs, print ("  [ERROR] " +:+ exn_name e) out)
      end) (fs, out) (BUILDING_SIZES.*1) in
  (fs, print "=== Done! ===" out).

End process_building_sprites.

(** ** A concrete environment

    One instance of [Extern], to run the model on concrete inputs: a
    nearest-neighbour kernel, a quantizer that keeps one colour, a PNG length
    that grows with the image, a background stripper that finds nothing to
    strip, and a directory listing by wildcard. *)

Module Reference.
Import PIL.

(** The source pixel under the centre of output pixel (x, y). *)
Definition nearest (f : filter) (img : image) (w h x y : Z) : pixel :=
  getpixel img (((2 * x + 1) * width img) `div` (2 * w))
    (((2 * y + 1) * height img) `div` (2 * h)).

Definition one_colour (img : image) (colors : Z) : result quantization :=
  if (colors <? 1) || (256 <? colors) then Raise ValueError
  else
    let '(r, g, b, _) := getpixel img 0 0 in
    Ok (Quantization [(r, g, b)] (fun _ _ => 0%nat)).

(** [fnmatch]: "*" stands for any run of characters. *)
Fixpoint wildcard (pattern name : string) {struct pattern} : bool :=
  match pattern with
  | EmptyString => match name with EmptyString => true | _ => false end
  | String c pattern' =>
      if Ascii.eqb c "*" then
        (fix skip (name : string) : bool :=
           wildcard pattern' name
           || match name with
              | EmptyString => false
              | String _ name' => skip name'
              end) name
      else
        match name with
        | EmptyString => false
        | String c' name' => Ascii.eqb c c' && wildcard pattern' name'
        end
  end.

(** [sorted]: insertion into a list in ascending order. *)
Fixpoint insort (name : string) (names : list string) : list string :=
  match names with
  | [] => [name]
  | first :: rest =>
      if String.leb name first then name :: names
      else first :: insort name rest
  end.

Definition sorted (names : list string) : list string :=
  List.fold_right insort [] names.

Definition listing (fs : filesystem) (pattern : string) : list string :=
  sorted (List.filter (wildcard pattern) (map_to_list fs).*1).

#[export] Instance extern : Extern := {|
  resample := nearest;
  median_cut := one_colour;
  png_size := fun img => 64 + 4 * width img * height img;
  remove := fun data => Ok data;
  sorted_glob := listing
|}.

End Reference.

(** * Verification *)

(** ** The recolorizer *)

Section Recolor.
Import PIL recolor_sprites.

(** *** Channels as floats *)

(** [k / 255.0] *)
Definition byte_float (k : Z) : float := PrimFloat.div (float_of_int k) 255.

Definition byte_values : list Z := seqZ 0 256.

Definition all_bytes (p : Z -> bool) : bool := forallb p byte_values.

Lemma all_bytes_spec (p : Z -> bool) :
  all_bytes p = true -> forall k, byte k -> p k = true.
Proof.
  unfold all_bytes, byte_values, byte. intros Hall k Hk.
  rewrite forallb_forall in Hall. apply Hall.
  apply list_elem_of_In, elem_of_seqZ. lia.
Qed.

Definition ordered_pair (i j : Z) : bool :=
  Bool.eqb (PrimFloat.ltb (byte_float i) (byte_float j)) (i <? j)
  && Bool.eqb (PrimFloat.eqb (byte_float i) (byte_float j)) (i =? j)
  && implb (i <? j)
       (negb (PrimFloat.eqb (PrimFloat.sub (byte_float j) (byte_float i)) 0)
        && negb (PrimFloat.eqb (byte_float j) 0)).

Lemma byte_floats_ordered :
  all_bytes (fun i => all_bytes (fun j => ordered_pair i j)) = true.
Proof. vm_compute. reflexivity. Qed.

Lemma ordered_pair_spec i j :
  byte i -> byte j ->
  PrimFloat.ltb (byte_float i) (byte_float j) = (i <? j)
  /\ PrimFloat.eqb (byte_float i) (byte_float j) = (i =? j)
  /\ (i < j ->
      PrimFloat.eqb (PrimFloat.sub (byte_float j) (byte_float i)) 0 = false
      /\ PrimFloat.eqb (byte_float j) 0 = false).
Proof.
  intros Hi Hj.
  pose proof (all_bytes_spec _ (all_bytes_spec _ byte_floats_ordered i Hi) j Hj) as H.
  unfold ordered_pair in H.
  apply andb_prop in H as [H Himp]. apply andb_prop in H as [Hlt Heq].
  apply Bool.eqb_prop in Hlt, Heq.
  split; [assumption | split; [assumption |]].
  intros Hij. apply Z.ltb_lt in Hij. rewrite Hij in Himp. simpl in Himp.
  apply andb_prop in Himp as [Hn1 Hn2].
  apply negb_true_iff in Hn1, Hn2. now split.
Qed.

Lemma max3_bytes r g b :
  byte r -> byte g -> byte b ->
  max3 (byte_float r) (byte_float g) (byte_float b)
  = byte_float (Z.max (Z.max r g) b).
Proof.
  intros Hr Hg Hb. unfold max3.
  destruct (ordered_pair_spec r g Hr Hg) as (-> & _ & _).
  destruct (Z.ltb_spec r g).
  - destruct (ordered_pair_spec g b Hg Hb) as (-> & _ & _).
    destruct (Z.ltb_spec g b); f_equal; lia.
  - destruct (ordered_pair_spec r b Hr Hb) as (-> & _ & _).
    destruct (Z.ltb_spec r b); f_equal; lia.
Qed.

Lemma min3_bytes r g b :
  byte r -> byte g -> byte b ->
  min3 (byte_float r) (byte_float g) (byte_float b)
  = byte_float (Z.min (Z.min r g) b).
Proof.
  intros Hr Hg Hb. unfold min3.
  destruct (ordered_pair_spec g r Hg Hr) as (-> & _ & _).
  destruct (Z.ltb_spec g r).
  - destruct (ordered_pair_spec b g Hb Hg) as (-> & _ & _).
    destruct (Z.ltb_spec b g); f_equal; lia.
  - destruct (ordered_pair_spec b r Hb Hr) as (-> & _ & _).
    destruct (Z.ltb_spec b r); f_equal; lia.
Qed.

(** Saturation and value of a byte pixel depend on its largest and smallest
    channel only. *)
Definition saturation (hi lo : Z) : float :=
  if hi =? lo then 0%float
  else PrimFloat.div (PrimFloat.sub (byte_float hi) (byte_float lo)) (byte_float hi).

Lemma pixel_hsv_bytes r g b :
  byte r -> byte g -> byte b ->
  exists h,
    pixel_hsv r g b
    = Ok (h, saturation (Z.max (Z.max r g) b) (Z.min (Z.min r g) b),
          byte_float (Z.max (Z.max r g) b)).
Proof.
  intros Hr Hg Hb. unfold pixel_hsv.
  change (truediv (float_of_int r) 255) with (Ok (byte_float r)).
  change (truediv (float_of_int g) 255) with (Ok (byte_float g)).
  change (truediv (float_of_int b) 255) with (Ok (byte_float b)).
  cbn [mbind result_bind bind]. unfold colorsys.rgb_to_hsv.
  rewrite max3_bytes, min3_bytes by assumption.
  set (hi := Z.max (Z.max r g) b). set (lo := Z.min (Z.min r g) b).
  assert (Hhi : byte hi) by (unfold byte in *; lia).
  assert (Hlo : byte lo) by (unfold byte in *; lia).
  assert (Hle : lo <= hi) by lia.
  destruct (ordered_pair_spec lo hi Hlo Hhi) as (_ & -> & Hnz).
  unfold saturation. rewrite (Z.eqb_sym hi lo).
  destruct (Z.eqb_spec lo hi) as [Heq|Hne].
  - eexists. reflexivity.
  - destruct Hnz as [Hrange Hmax]; [lia|].
    unfold truediv. rewrite Hrange, Hmax. cbn [mbind result_bind bind].
    eexists. reflexivity.
Qed.

(** The rewriting branch of [recolor_pixel]. *)
Definition rewritten (th sb vb s v : float) : result (Z * Z * Z) :=
  new_h ← truediv th 360;
  let new_s := min2 1 (PrimFloat.mul s sb) in
  let new_v := min2 1 (PrimFloat.mul v vb) in
  '(nr, ng, nb) ← colorsys.hsv_to_rgb new_h new_s new_v;
  ir ← int_of_float (PrimFloat.mul nr 255);
  ig ← int_of_float (PrimFloat.mul ng 255);
  ib ← int_of_float (PrimFloat.mul nb 255);
  Ok (ir, ig, ib).

Lemma recolor_pixel_cases r g b a th sb vb h s v :
  pixel_hsv r g b = Ok (h, s, v) ->
  recolor_pixel r g b a th sb vb
  = if a <? 10 then Ok (r, g, b, a)
    else if in_blue_range (PrimFloat.mul h 360) s then
      c ← rewritten th sb vb s v; Ok (c.1.1, c.1.2, c.2, a)
    else Ok (r, g, b, a).
Proof.
  intros Hhsv. unfold recolor_pixel, rewritten. rewrite Hhsv.
  unfold mbind, result_bind, bind.
  destruct (a <? 10); [reflexivity|].
  destruct (in_blue_range _ _); [|reflexivity].
  destruct (truediv th 360) as [new_h|]; [|reflexivity].
  destruct (colorsys.hsv_to_rgb new_h _ _) as [[[nr ng] nb]|]; [|reflexivity].
  destruct (int_of_float (PrimFloat.mul nr 255)); [|reflexivity].
  destruct (int_of_float (PrimFloat.mul ng 255)); [|reflexivity].
  destruct (int_of_float (PrimFloat.mul nb 255)); reflexivity.
Qed.

Definition is_byte (v : Z) : bool := (0 <=? v) && (v <=? 255).

(** A pixel the recolorizer leaves alone, whatever its alpha. *)
Definition left_alone (r g b : Z) : bool :=
  match pixel_hsv r g b with
  | Ok (h, s, _) => negb (in_blue_range (PrimFloat.mul h 360) s)
  | Raise _ => false
  end.

(** For one pair of extreme channels: if the saturation passes the floor,
    the rewritten colour is made of bytes and is left alone afterwards. *)
Definition settles (c : config) (hi lo : Z) : bool :=
  if PrimFloat.ltb 0.15 (saturation hi lo) then
    match rewritten (target_hue c) (sat_boost c) (val_boost c)
            (saturation hi lo) (byte_float hi) with
    | Ok (r', g', b') =>
        is_byte r' && is_byte g' && is_byte b' && left_alone r' g' b'
    | Raise _ => false
    end
  else true.

Definition settles_everywhere (c : config) : bool :=
  all_bytes (fun hi => all_bytes (fun lo => settles c hi lo)).

Lemma shipped_targets_settle :
  forallb (fun t => settles_everywhere t.2) RECOLOR_TARGETS = true.
Proof. vm_compute. reflexivity. Qed.

Lemma is_byte_spec v : is_byte v = true -> byte v.
Proof. unfold is_byte, byte. lia. Qed.

Lemma left_alone_spec r g b a th sb vb :
  left_alone r g b = true ->
  recolor_pixel r g b a th sb vb = Ok (r, g, b, a).
Proof.
  unfold left_alone. intros Hleft.
  destruct (pixel_hsv r g b) as [[[h s] v]|] eqn:Hhsv; [|discriminate].
  rewrite (recolor_pixel_cases _ _ _ _ _ _ _ _ _ _ Hhsv).
  apply negb_true_iff in Hleft. rewrite Hleft.
  now destruct (a <? 10).
Qed.

(** The target configurations the script ships. *)
Definition shipped (c : config) : Prop := c ∈ RECOLOR_TARGETS.*2.

Lemma shipped_settles c : shipped c -> settles_everywhere c = true.
Proof.
  unfold shipped. intros Hc.
  apply list_elem_of_fmap in Hc as (t & -> & Ht).
  pose proof shipped_targets_settle as Hall.
  rewrite forallb_forall in Hall. apply Hall. now apply list_elem_of_In.
Qed.

Lemma unsaturated_grey : PrimFloat.ltb 0.15 (saturation 0 0) = false.
Proof. reflexivity. Qed.

(** One pass over a byte pixel with a shipped target returns a byte pixel of
    the same alpha, and that pixel is a fixed point of the pass. *)
Lemma recolor_pixel_settles c r g b a :
  shipped c -> byte r -> byte g -> byte b ->
  exists r' g' b',
    recolor_pixel r g b a (target_hue c) (sat_boost c) (val_boost c)
    = Ok (r', g', b', a)
    /\ byte r' /\ byte g' /\ byte b'
    /\ recolor_pixel r' g' b' a (target_hue c) (sat_boost c) (val_boost c)
       = Ok (r', g', b', a).
Proof.
  intros Hc Hr Hg Hb.
  destruct (pixel_hsv_bytes r g b Hr Hg Hb) as [h Hhsv].
  set (hi := Z.max (Z.max r g) b) in *. set (lo := Z.min (Z.min r g) b) in *.
  pose proof (recolor_pixel_cases r g b a (target_hue c) (sat_boost c)
                (val_boost c) _ _ _ Hhsv) as Hcases.
  destruct (a <? 10) eqn:Ha.
  - exists r, g, b.
    repeat split; first [exact Hcases | apply Hr | apply Hg | apply Hb].
  - destruct (in_blue_range (PrimFloat.mul h 360) (saturation hi lo)) eqn:Hband.
    + assert (Hsat : PrimFloat.ltb 0.15 (saturation hi lo) = true).
      { unfold in_blue_range in Hband. now apply andb_prop in Hband as [_ ?]. }
      assert (Hhi : byte hi) by (unfold byte in *; lia).
      assert (Hlo : byte lo) by (unfold byte in *; lia).
      pose proof (all_bytes_spec _ (all_bytes_spec _ (shipped_settles c Hc) hi Hhi)
                    lo Hlo) as Hset.
      unfold settles in Hset. rewrite Hsat in Hset.
      destruct (rewritten _ _ _ _ _) as [[[r' g'] b']|]; [|discriminate].
      apply andb_prop in Hset as [Hset Hleft].
      apply andb_prop in Hset as [Hset Hb'].
      apply andb_prop in Hset as [Hr' Hg'].
      exists r', g', b'. split; [exact Hcases|].
      repeat split; try (apply is_byte_spec; assumption).
      now apply left_alone_spec.
    + exists r, g, b.
      repeat split; first [exact Hcases | apply Hr | apply Hg | apply Hb].
Qed.

(** *** Loops *)

Lemma for_each_app {A S : Type} (l1 l2 : list A) (body : S -> A -> result S) s :
  for_each (l1 ++ l2) body s = bind (for_each l1 body s) (for_each l2 body).
Proof.
  revert s. induction l1 as [|x l1 IH]; intros s; simpl; [reflexivity|].
  destruct (body s x); simpl; [apply IH | reflexivity].
Qed.

Lemma for_each_row {A B S : Type} (xs : list A) (y : B)
    (body : S -> A * B -> result S) s :
  for_each (x ← xs; [(x, y)]) body s = for_each xs (fun s x => body s (x, y)) s.
Proof.
  revert s. induction xs as [|x xs IH]; intros s; simpl; [reflexivity|].
  destruct (body s (x, y)); simpl; [apply IH | reflexivity].
Qed.

(** A loop nest visits the pairs of its two ranges row by row. *)
Lemma for_each_nested {A B S : Type} (ys : list B) (xs : list A)
    (body : S -> A * B -> result S) s :
  for_each ys (fun s y => for_each xs (fun s x => body s (x, y)) s) s
  = for_each (y ← ys; x ← xs; [(x, y)]) body s.
Proof.
  revert s. induction ys as [|y ys IH]; intros s; [reflexivity|].
  cbn [for_each]. change (y0 ← y :: ys; x ← xs; [(x, y0)])
    with ((x ← xs; [(x, y)]) ++ (y0 ← ys; x ← xs; [(x, y0)])).
  rewrite for_each_app, for_each_row.
  destruct (for_each xs _ s); simpl; [apply IH | reflexivity].
Qed.

Lemma elem_of_coordinates img x y :
  (x, y) ∈ coordinates img <-> inside img x y = true.
Proof.
  unfold coordinates, inside, range. rewrite list_elem_of_bind. split.
  - intros (y' & Hx & Hy). apply list_elem_of_bind in Hx as (x' & Hxy & Hx).
    apply list_elem_of_singleton in Hxy. injection Hxy as -> ->.
    apply elem_of_seqZ in Hx, Hy. lia.
  - intros H. exists y. split.
    + apply list_elem_of_bind. exists x. split; [apply list_elem_of_singleton; reflexivity|].
      apply elem_of_seqZ. lia.
    + apply elem_of_seqZ. lia.
Qed.

Lemma NoDup_row (xs : list Z) (y : Z) : NoDup xs -> NoDup (x ← xs; [(x, y)]).
Proof.
  induction 1 as [|x xs Hx Hxs IH]; [constructor|].
  change (NoDup ((x, y) :: (x' ← xs; [(x', y)]))). constructor; [|exact IH].
  rewrite list_elem_of_bind. intros (x' & Hxy & Hx').
  apply list_elem_of_singleton in Hxy. injection Hxy as ->. contradiction.
Qed.

Lemma NoDup_grid (ys xs : list Z) :
  NoDup ys -> NoDup xs -> NoDup (y ← ys; x ← xs; [(x, y)]).
Proof.
  intros Hys Hxs. induction Hys as [|y ys Hy Hys IH]; [constructor|].
  change (NoDup ((x ← xs; [(x, y)]) ++ (y0 ← ys; x ← xs; [(x, y0)]))).
  apply NoDup_app. split; [now apply NoDup_row|]. split; [|exact IH].
  intros [x' y'] Hrow Hrest.
  apply list_elem_of_bind in Hrow as (x1 & Hxy & _).
  apply list_elem_of_singleton in Hxy. injection Hxy as -> ->.
  apply list_elem_of_bind in Hrest as (y2 & Hin & Hy2).
  apply list_elem_of_bind in Hin as (x2 & Hxy & _).
  apply list_elem_of_singleton in Hxy. injection Hxy as -> ->. contradiction.
Qed.

Lemma NoDup_coordinates img : NoDup (coordinates img).
Proof. apply NoDup_grid; apply NoDup_seqZ. Qed.

(** *** recolor_image *)

(** The body of the loops of [recolor_image]. *)
Definition recolor_step (th sb vb : float) (img : image) (p : Z * Z)
  : result image :=
  let '(r, g, b, a) := getpixel img p.1 p.2 in
  q ← recolor_pixel r g b a th sb vb;
  Ok (putpixel img p.1 p.2 q).

Lemma recolor_image_flat img th sb vb :
  recolor_image img th sb vb
  = for_each (coordinates (convert_RGBA img)) (recolor_step th sb vb)
      (convert_RGBA img).
Proof.
  unfold recolor_image, coordinates.
  rewrite <- (for_each_nested (range (height (convert_RGBA img)))
                (range (width (convert_RGBA img))) (recolor_step th sb vb)).
  reflexivity.
Qed.

Definition bytes_pixel (p : pixel) : Prop :=
  byte (red p) /\ byte (green p) /\ byte (blue p) /\ byte (alpha p).

(** The pixel one pass writes in place of [p]. *)
Definition recolored (c : config) (p : pixel) : pixel :=
  match recolor_pixel (red p) (green p) (blue p) (alpha p)
          (target_hue c) (sat_boost c) (val_boost c) with
  | Ok q => q
  | Raise _ => p
  end.

Lemma recolored_settles c p :
  shipped c -> bytes_pixel p ->
  recolor_pixel (red p) (green p) (blue p) (alpha p)
    (target_hue c) (sat_boost c) (val_boost c) = Ok (recolored c p)
  /\ bytes_pixel (recolored c p)
  /\ recolored c (recolored c p) = recolored c p.
Proof.
  intros Hc (Hr & Hg & Hb & Ha).
  destruct (recolor_pixel_settles c (red p) (green p) (blue p) (alpha p) Hc Hr Hg Hb)
    as (r' & g' & b' & Hone & Hr' & Hg' & Hb' & Htwo).
  assert (Hq : recolored c p = (r', g', b', alpha p)).
  { unfold recolored. now rewrite Hone. }
  rewrite Hq. split; [exact Hone|].
  split; [unfold bytes_pixel; cbn [red green blue alpha fst snd]; auto|].
  unfold recolored at 1. cbn [red green blue alpha fst snd].
  now rewrite Htwo.
Qed.

Lemma clip8_byte v : byte v -> clip8 v = v.
Proof. unfold byte, clip8. lia. Qed.

Lemma for_each_recolor_step c pts img :
  shipped c -> NoDup pts ->
  (forall p, p ∈ pts -> bytes_pixel (getpixel img p.1 p.2)) ->
  exists img',
    for_each pts (recolor_step (target_hue c) (sat_boost c) (val_boost c)) img
    = Ok img'
    /\ im_mode img' = im_mode img /\ size img' = size img
    /\ (forall p, p ∈ pts ->
          getpixel img' p.1 p.2 = recolored c (getpixel img p.1 p.2))
    /\ (forall p, p ∉ pts -> getpixel img' p.1 p.2 = getpixel img p.1 p.2).
Proof.
  intros Hc. revert img.
  induction pts as [|[x y] pts IH]; intros img Hnd Hbytes.
  - exists img. repeat split; try reflexivity. intros p Hp. inversion Hp.
  - apply NoDup_cons in Hnd as [Hfresh Hnd].
    destruct (recolored_settles c (getpixel img x y) Hc) as (Hq & Hqb & _).
    { apply (Hbytes (x, y)). left. }
    set (q := recolored c (getpixel img x y)) in *.
    assert (Hstep : recolor_step (target_hue c) (sat_boost c) (val_boost c) img (x, y)
                    = Ok (putpixel img x y q)).
    { unfold recolor_step. cbn [fst snd].
      destruct (getpixel img x y) as [[[r g] b] a]. cbn in Hq. now rewrite Hq. }
    assert (Hput : forall x' y', getpixel (putpixel img x y q) x' y'
                   = if (x' =? x) && (y' =? y) then q else getpixel img x' y').
    { intros x' y'. unfold putpixel. destruct q as [[[r g] b] a].
      destruct Hqb as (Hr & Hg & Hb & Ha). cbn in Hr, Hg, Hb, Ha.
      cbn [getpixel]. now rewrite !clip8_byte. }
    assert (Hother : forall p, p ∈ pts ->
              getpixel (putpixel img x y q) p.1 p.2 = getpixel img p.1 p.2).
    { intros [x' y'] Hp. rewrite Hput. cbn [fst snd].
      destruct ((x' =? x) && (y' =? y)) eqn:E; [|reflexivity].
      apply andb_prop in E as [Ex Ey]. apply Z.eqb_eq in Ex, Ey. subst.
      contradiction. }
    destruct (IH (putpixel img x y q) Hnd) as (img' & Hrun & Hmode & Hsize & Hin & Hout).
    { intros p Hp. rewrite (Hother p Hp). apply Hbytes. now right. }
    exists img'. cbn [for_each]. rewrite Hstep. cbn [bind].
    split; [exact Hrun|]. split; [rewrite Hmode; now destruct q as [[[? ?] ?] ?]|].
    split; [rewrite Hsize; now destruct q as [[[? ?] ?] ?]|]. split.
    + intros p Hp. apply elem_of_cons in Hp as [->|Hp].
      * rewrite Hout by exact Hfresh. cbn [fst snd]. rewrite Hput.
        now rewrite !Z.eqb_refl.
      * rewrite (Hin p Hp). now rewrite (Hother p Hp).
    + intros [x' y'] Hp. apply not_elem_of_cons in Hp as [Hne Hp].
      rewrite (Hout _ Hp). rewrite Hput. cbn [fst snd].
      destruct ((x' =? x) && (y' =? y)) eqn:E; [|reflexivity].
      apply andb_prop in E as [Ex Ey]. apply Z.eqb_eq in Ex, Ey. subst.
      contradiction.
Qed.

Lemma convert_RGBA_bytes img x y :
  bytes_pixel (getpixel img x y) -> bytes_pixel (getpixel (convert_RGBA img) x y).
Proof.
  unfold convert_RGBA, bytes_pixel, byte. cbn [getpixel].
  destruct (getpixel img x y) as [[[r g] b] a]. cbn [red green blue alpha fst snd].
  destruct (im_mode img); cbn [red green blue alpha fst snd]; lia.
Qed.

Lemma convert_RGBA_again img x y :
  im_mode img = RGBA -> getpixel (convert_RGBA img) x y = getpixel img x y.
Proof.
  intros Hm. unfold convert_RGBA. cbn [getpixel]. rewrite Hm.
  now destruct (getpixel img x y) as [[[r g] b] a].
Qed.

(** One pass over an image of byte pixels with a shipped target returns the
    image whose every pixel is the recolored pixel of the converted input. *)
Lemma recolor_image_pointwise c img :
  shipped c ->
  (forall x y, inside img x y = true -> bytes_pixel (getpixel img x y)) ->
  exists out,
    recolor_image img (target_hue c) (sat_boost c) (val_boost c) = Ok out
    /\ im_mode out = RGBA /\ size out = size img
    /\ (forall x y, inside img x y = true ->
          getpixel out x y = recolored c (getpixel (convert_RGBA img) x y)).
Proof.
  intros Hc Hbytes. rewrite recolor_image_flat.
  destruct (for_each_recolor_step c (coordinates (convert_RGBA img))
              (convert_RGBA img) Hc (NoDup_coordinates _))
    as (out & Hrun & Hmode & Hsize & Hin & _).
  { intros [x y] Hp. apply elem_of_coordinates in Hp.
    apply convert_RGBA_bytes, Hbytes. exact Hp. }
  exists out. split; [exact Hrun|]. split; [exact Hmode|]. split; [exact Hsize|].
  intros x y Hxy. apply (Hin (x, y)). now apply elem_of_coordinates.
Qed.

(** *** The claims about the recolorizer *)

(** [hue_deg] is not within [BLUE_HUE_MIN, BLUE_HUE_MAX]. *)
Definition outside_band (hue_deg : float) : bool :=
  negb (PrimFloat.leb (float_of_int BLUE_HUE_MIN) hue_deg
        && PrimFloat.leb hue_deg (float_of_int BLUE_HUE_MAX)).

(** C4. Every byte pixel has a hue and a saturation, and when its alpha is
    below 10, or its hue in degrees is outside [170, 260], or its saturation
    does not exceed 0.15, [recolor_pixel] returns the very same (r, g, b, a),
    whatever the target hue and the two multipliers. *)
Theorem recolor_pixel_pass_through (r g b a : Z) (th sb vb : float) :
  byte r -> byte g -> byte b ->
  exists h s v,
    pixel_hsv r g b = Ok (h, s, v)
    /\ (a < 10 \/ outside_band (PrimFloat.mul h 360) = true
        \/ PrimFloat.ltb 0.15 s = false ->
        recolor_pixel r g b a th sb vb = Ok (r, g, b, a)).
Proof.
  intros Hr Hg Hb. destruct (pixel_hsv_bytes r g b Hr Hg Hb) as [h Hhsv].
  eexists h, _, _. split; [exact Hhsv|]. intros Hpass.
  rewrite (recolor_pixel_cases _ _ _ _ _ _ _ _ _ _ Hhsv).
  destruct (Z.ltb_spec a 10) as [Ha|Ha]; [reflexivity|].
  destruct Hpass as [Hlow | [Hhue | Hsat]]; [lia | |].
  - unfold outside_band in Hhue. apply negb_true_iff in Hhue.
    unfold in_blue_range. now rewrite Hhue.
  - unfold in_blue_range. rewrite Hsat. now rewrite andb_false_r.
Qed.

(** An orange pixel (hue 20 degrees) passes through the red target. *)
Lemma recolor_pixel_pass_through_witness :
  exists h s v,
    pixel_hsv 240 100 30 = Ok (h, s, v)
    /\ (255 < 10 \/ outside_band (PrimFloat.mul h 360) = true
        \/ PrimFloat.ltb 0.15 s = false ->
        recolor_pixel 240 100 30 255 12 1.1 0.95 = Ok (240, 100, 30, 255)).
Proof.
  apply (recolor_pixel_pass_through 240 100 30 255 12 1.1 0.95);
    unfold byte; lia.
Defined.

(** C10. Whatever the pixel, the target hue and the multipliers, a pixel
    [recolor_pixel] returns carries the input's alpha; and for every byte
    pixel and every shipped target it does return one. *)
Theorem recolor_pixel_keeps_alpha (r g b a : Z) (th sb vb : float) :
  (forall out, recolor_pixel r g b a th sb vb = Ok out -> alpha out = a)
  /\ (byte r -> byte g -> byte b -> shipped (Config th sb vb) ->
      exists r' g' b', recolor_pixel r g b a th sb vb = Ok (r', g', b', a)).
Proof.
  split.
  - unfold recolor_pixel, mbind, result_bind, bind. intros out.
    destruct (a <? 10); [intros [= <-]; reflexivity|].
    destruct (pixel_hsv r g b) as [[[h s] v]|]; [|discriminate].
    destruct (in_blue_range _ _); [|intros [= <-]; reflexivity].
    destruct (truediv th 360) as [new_h|]; [|discriminate].
    destruct (colorsys.hsv_to_rgb new_h _ _) as [[[nr ng] nb]|]; [|discriminate].
    destruct (int_of_float (PrimFloat.mul nr 255)); [|discriminate].
    destruct (int_of_float (PrimFloat.mul ng 255)); [|discriminate].
    destruct (int_of_float (PrimFloat.mul nb 255)); [|discriminate].
    intros [= <-]. reflexivity.
  - intros Hr Hg Hb Hc.
    destruct (recolor_pixel_settles _ r g b a Hc Hr Hg Hb)
      as (r' & g' & b' & Hone & _).
    exists r', g', b'. exact Hone.
Qed.

(** C5, as amended. With a shipped target (red or orange), a second pass over
    an image of byte pixels changes nothing: both passes return, every pixel
    of the first result is a fixed point of the per-pixel step, and the second
    result shows the first one's pixels. *)
Theorem recolor_image_twice (c : config) (img : image) :
  shipped c -> bytes_image img ->
  exists once twice,
    recolor_image img (target_hue c) (sat_boost c) (val_boost c) = Ok once
    /\ recolor_image once (target_hue c) (sat_boost c) (val_boost c) = Ok twice
    /\ same_image twice once
    /\ (forall x y, inside once x y = true ->
          recolored c (getpixel once x y) = getpixel once x y).
Proof.
  intros Hc Hbytes.
  destruct (recolor_image_pointwise c img Hc Hbytes)
    as (once & Hone & Hmode & Hsize & Hpx).
  assert (Hin : forall x y, inside once x y = inside img x y).
  { intros x y. unfold inside. injection Hsize as -> ->. reflexivity. }
  assert (Hsettled : forall x y, inside once x y = true ->
            bytes_pixel (getpixel once x y)
            /\ recolored c (getpixel once x y) = getpixel once x y).
  { intros x y Hxy. rewrite Hin in Hxy. rewrite (Hpx x y Hxy).
    destruct (recolored_settles c (getpixel (convert_RGBA img) x y) Hc)
      as (_ & Hb & Hfix); [|now split].
    apply convert_RGBA_bytes, Hbytes, Hxy. }
  destruct (recolor_image_pointwise c once Hc) as (twice & Htwo & Hmode2 & Hsize2 & Hpx2).
  { intros x y Hxy. apply Hsettled, Hxy. }
  exists once, twice. split; [exact Hone|]. split; [exact Htwo|]. split.
  - split; [congruence|]. split; [exact Hsize2|].
    intros x y Hxy.
    assert (Hxy' : inside once x y = true).
    { unfold inside in *. injection Hsize2 as <- <-. exact Hxy. }
    rewrite (Hpx2 x y Hxy'), (convert_RGBA_again once x y Hmode).
    apply Hsettled, Hxy'.
  - intros x y Hxy. apply Hsettled, Hxy.
Qed.

(** A single opaque blue pixel. *)
Definition blue_dot : image := Image RGBA 1 1 (fun _ _ => (30, 60, 200, 255)).

Lemma recolor_image_twice_witness :
  exists once twice,
    recolor_image blue_dot 12 1.1 0.95 = Ok once
    /\ recolor_image once 12 1.1 0.95 = Ok twice
    /\ same_image twice once
    /\ (forall x y, inside once x y = true ->
          recolored (Config 12 1.1 0.95) (getpixel once x y) = getpixel once x y).
Proof.
  apply (recolor_image_twice (Config 12 1.1 0.95) blue_dot).
  - unfold shipped. vm_compute. left.
  - intros x y Hxy. vm_compute. intuition discriminate.
Defined.

(** A single opaque, nearly black blue pixel. *)
Definition dark_dot : image := Image RGBA 1 1 (fun _ _ => (0, 0, 2, 255)).

(** C5, as stated, fails: the target hue 165 lies outside [170, 260], the
    first pass turns the pixel (0, 0, 2) into (0, 1, 1), whose hue is 180, and
    the second pass rewrites it again, to (0, 0, 0). *)
Lemma recolor_image_twice_counterexample :
  outside_band 165 = true
  /\ exists once twice,
       recolor_image dark_dot 165 1.1 0.95 = Ok once
       /\ recolor_image once 165 1.1 0.95 = Ok twice
       /\ getpixel once 0 0 = (0, 1, 1, 255)
       /\ getpixel twice 0 0 = (0, 0, 0, 255)
       /\ ~ same_image twice once.
Proof.
  split; [reflexivity|].
  eexists _, _. split; [vm_compute; reflexivity|].
  split; [vm_compute; reflexivity|].
  split; [reflexivity|]. split; [reflexivity|].
  intros (_ & _ & Hpx). specialize (Hpx 0 0 eq_refl). discriminate Hpx.
Qed.

End Recolor.

(** ** Binary64 arithmetic: when a product is finite *)

Section FloatBounds.

Lemma digits2_pos_size p : digits2_pos p = Pos.size p.
Proof. induction p; simpl; congruence. Qed.

(** A positive number lies between the powers of two its digits name. *)
Lemma Zdigits2_bounds m :
  0 < m -> 2 ^ (Zdigits2 m - 1) <= m < 2 ^ Zdigits2 m.
Proof.
  destruct m as [|p|p]; try lia. intros _. simpl Zdigits2.
  rewrite digits2_pos_size.
  pose proof (Pos.size_gt p) as Hgt. pose proof (Pos.size_le p) as Hle.
  apply Pos2Z.pos_lt_pos in Hgt. apply Pos2Z.pos_le_pos in Hle.
  rewrite Pos2Z.inj_pow in Hgt, Hle.
  replace (2 ^ Z.pos (Pos.size p)) with (2 * 2 ^ (Z.pos (Pos.size p) - 1)) in Hle.
  - lia.
  - rewrite <- Z.pow_succ_r by lia. f_equal. lia.
Qed.

Lemma Zdigits2_nonneg m : 0 <= Zdigits2 m.
Proof. destruct m; simpl; lia. Qed.

Lemma Zdigits2_below m k : 0 <= m < 2 ^ k -> 0 <= k -> Zdigits2 m <= k.
Proof.
  intros [Hm Hlt] Hk. destruct (Z.eq_dec m 0) as [->|Hne]; [simpl; lia|].
  destruct (Zdigits2_bounds m) as [Hlo _]; [lia|].
  destruct (Z.le_gt_cases (Zdigits2 m) k) as [|Hgt]; [assumption|].
  assert (2 ^ k <= 2 ^ (Zdigits2 m - 1)) by (apply Z.pow_le_mono_r; lia). lia.
Qed.

Lemma Zdigits2_le m n : 0 <= m <= n -> Zdigits2 m <= Zdigits2 n.
Proof.
  intros [Hm Hmn]. destruct (Z.eq_dec n 0) as [->|Hn].
  - replace m with 0 by lia. lia.
  - apply Zdigits2_below; [|apply Zdigits2_nonneg].
    destruct (Zdigits2_bounds n); lia.
Qed.

Lemma Zdigits2_succ m : 0 <= m -> Zdigits2 (m + 1) <= Zdigits2 m + 1.
Proof.
  intros Hm. apply Zdigits2_below; [|pose proof (Zdigits2_nonneg m); lia].
  destruct (Z.eq_dec m 0) as [->|Hne]; [simpl; lia|].
  destruct (Zdigits2_bounds m) as [_ Hhi]; [lia|].
  rewrite Z.pow_add_r by (try apply Zdigits2_nonneg; lia).
  change (2 ^ 1) with 2. lia.
Qed.

Lemma Zdigits2_mul m n :
  0 < m -> 0 < n -> Zdigits2 (m * n) <= Zdigits2 m + Zdigits2 n.
Proof.
  intros Hm Hn. pose proof (Zdigits2_nonneg m). pose proof (Zdigits2_nonneg n).
  apply Zdigits2_below; [|lia]. rewrite Z.pow_add_r by assumption.
  destruct (Zdigits2_bounds m Hm) as [_ Hm']. destruct (Zdigits2_bounds n Hn) as [_ Hn'].
  nia.
Qed.

Lemma iter_pos_invariant {A : Type} (f : A -> A) (P : A -> Prop) :
  (forall x, P x -> P (f x)) -> forall p x, P x -> P (SpecFloat.iter_pos f p x).
Proof.
  intros Hf. induction p as [p IH|p IH|]; intros x Hx; simpl; auto.
Qed.

Lemma shr_1_shrinks M mrs :
  0 <= shr_m mrs <= M -> 0 <= shr_m (shr_1 mrs) <= M.
Proof.
  destruct mrs as [m r s]. simpl. destruct m as [|[p|p|]|[p|p|]]; simpl; lia.
Qed.

(** Shifting a mantissa to its canonical exponent keeps it non-negative and
    no larger, and moves the exponent up to [fexp] at most. *)
Lemma shr_fexp_bounds m e l :
  0 <= m ->
  let '(mrs, e') := shr_fexp prec emax m e l in
  0 <= shr_m mrs <= m
  /\ e' = Z.max e (fexp prec emax (Zdigits2 m + e)).
Proof.
  intros Hm. unfold shr_fexp, shr.
  assert (Hrec : shr_m (shr_record_of_loc m l) = m) by (destruct l as [|[]]; reflexivity).
  destruct (fexp prec emax (Zdigits2 m + e) - e) as [|p|p] eqn:Hshift.
  - rewrite Hrec. lia.
  - split; [|lia].
    apply (iter_pos_invariant shr_1 (fun mrs => 0 <= shr_m mrs <= m)).
    + intros x. apply shr_1_shrinks.
    + rewrite Hrec. lia.
  - rewrite Hrec. lia.
Qed.

Lemma round_nearest_even_bounds m l :
  m <= round_nearest_even m l <= m + 1.
Proof.
  unfold round_nearest_even. destruct l as [|[]]; try lia.
  destruct (Z.even m); lia.
Qed.

(** Rounding a non-negative mantissa of at most [D] digits at an exponent of
    at most [E] stays finite as long as both are far from the top. *)
Lemma binary_round_aux_finite s m e l D E :
  0 <= m -> Zdigits2 m <= D -> e <= E ->
  Z.max (-1074) (Z.max E (D + E - 53)) + Z.max 0 (D - 52) <= 971 ->
  binary_round_aux prec emax s m e l = S754_zero s
  \/ exists m' e',
       binary_round_aux prec emax s m e l = S754_finite s m' e'
       /\ e <= e' <= Z.max (-1074) (Z.max E (D + E - 53)) + Z.max 0 (D - 52).
Proof.
  intros Hm HD HE Hfar. unfold binary_round_aux.
  pose proof (shr_fexp_bounds m e l Hm) as H1.
  destruct (shr_fexp prec emax m e l) as [mrs1 e1]. destruct H1 as [Hm1 He1].
  pose proof (round_nearest_even_bounds (shr_m mrs1) (loc_of_shr_record mrs1)) as Hr.
  set (mr := round_nearest_even (shr_m mrs1) (loc_of_shr_record mrs1)) in *.
  assert (Hmr : 0 <= mr) by lia.
  pose proof (shr_fexp_bounds mr e1 loc_Exact Hmr) as H2.
  destruct (shr_fexp prec emax mr e1 loc_Exact) as [mrs2 e2]. destruct H2 as [Hm2 He2].
  assert (Hdr : Zdigits2 mr <= D + 1).
  { transitivity (Zdigits2 (m + 1)); [apply Zdigits2_le; lia|].
    pose proof (Zdigits2_succ m Hm). lia. }
  pose proof (Zdigits2_nonneg m). pose proof (Zdigits2_nonneg mr).
  unfold fexp, SpecFloat.emin, prec, emax in *.
  destruct (shr_m mrs2) as [|p|p] eqn:Hp; [now left | | lia].
  right. exists p, e2.
  destruct (Z.leb_spec e2 (1024 - 53)) as [Hle|Hgt]; [split; [reflexivity | lia] | lia].
Qed.

Lemma pos_iter_xO p d : Z.pos (Pos.iter xO p d) = Z.pos p * 2 ^ Z.pos d.
Proof.
  induction d as [|d IH] using Pos.peano_ind.
  - simpl. lia.
  - rewrite Pos.iter_succ, Pos2Z.inj_xO, IH, Pos2Z.inj_succ.
    rewrite Z.pow_succ_r by lia. lia.
Qed.

Lemma shl_align_spec mx ex ex' :
  let '(mz, ez) := shl_align mx ex ex' in
  ez = Z.min ex ex' /\ Z.pos mz = Z.pos mx * 2 ^ (ex - ez).
Proof.
  unfold shl_align. destruct (ex' - ex) as [|d|d] eqn:Hd.
  - replace (Z.min ex ex') with ex by lia. rewrite Z.sub_diag. simpl. lia.
  - replace (Z.min ex ex') with ex by lia. rewrite Z.sub_diag. simpl. lia.
  - split; [lia|]. rewrite pos_iter_xO. f_equal. f_equal. lia.
Qed.

(** A valid finite float has at most 53 digits, at an exponent of at least
    [emin]. *)
Lemma valid_finite x s m e :
  Prim2SF x = S754_finite s m e ->
  Zdigits2 (Z.pos m) <= 53 /\ -1074 <= e <= 971.
Proof.
  intros Hx. pose proof (Prim2SF_valid x) as Hv. rewrite Hx in Hv.
  unfold SpecFloat.valid_binary, bounded, canonical_mantissa in Hv.
  apply andb_prop in Hv as [Hc He]. apply Z.eqb_eq in Hc. apply Z.leb_le in He.
  unfold fexp, SpecFloat.emin, prec, emax in *. simpl Zdigits2. lia.
Qed.

(** [float(w)] for a machine-size natural number: zero or a positive float of
    moderate exponent. *)
Lemma float_of_int_finite w :
  0 <= w < 2 ^ 62 ->
  Prim2SF (float_of_int w) = S754_zero false
  \/ exists m e, Prim2SF (float_of_int w) = S754_finite false m e /\ -52 <= e <= 19.
Proof.
  intros Hw. unfold float_of_int.
  destruct (Z.ltb_spec w 0) as [|_]; [lia|].
  rewrite FloatAxioms.of_uint63_spec, Uint63.of_Z_spec.
  rewrite Z.mod_small by (change wB with (2 ^ 63); split; [lia|];
    apply Z.lt_trans with (2 ^ 62); [lia | reflexivity]).
  destruct w as [|p|p]; [now left | | lia].
  unfold binary_normalize, binary_round.
  assert (Hd : Zdigits2 (Z.pos p) <= 62) by (apply Zdigits2_below; lia).
  assert (Hd1 : 1 <= Zdigits2 (Z.pos p)) by (simpl; lia).
  change (Z.pos (digits2_pos p)) with (Zdigits2 (Z.pos p)).
  pose proof (shl_align_spec p 0 (fexp prec emax (Zdigits2 (Z.pos p) + 0))) as Hal.
  destruct (shl_align p 0 _) as [mz ez]. destruct Hal as [Hez Hmz].
  assert (Hez' : -52 <= ez <= 0 /\ Zdigits2 (Z.pos p) + (0 - ez) <= 62).
  { unfold fexp, SpecFloat.emin, prec, emax in Hez. lia. }
  assert (Hdz : Zdigits2 (Z.pos mz) <= 62).
  { apply Zdigits2_below; [|lia]. rewrite Hmz. split; [lia|].
    destruct (Zdigits2_bounds (Z.pos p)) as [_ Hhi]; [lia|].
    apply Z.lt_le_trans with (2 ^ Zdigits2 (Z.pos p) * 2 ^ (0 - ez)).
    - apply Z.mul_lt_mono_pos_r; [apply Z.pow_pos_nonneg; lia | exact Hhi].
    - rewrite <- Z.pow_add_r by lia. apply Z.pow_le_mono_r; lia. }
  destruct (binary_round_aux_finite false (Z.pos mz) ez loc_Exact 62 0)
    as [Hzero | (m' & e' & Hfin & He')]; try lia.
  - left. exact Hzero.
  - right. exists m', e'. split; [exact Hfin | lia].
Qed.

(** A factor in (0, 1] is a positive finite float of exponent at most -52. *)
Lemma unit_factor_finite f :
  PrimFloat.ltb 0 f = true -> PrimFloat.leb f 1 = true ->
  exists m e, Prim2SF f = S754_finite false m e /\ e <= -52.
Proof.
  rewrite FloatAxioms.ltb_spec, FloatAxioms.leb_spec.
  change (Prim2SF 0) with (S754_zero false).
  change (Prim2SF 1) with (S754_finite false 4503599627370496 (-52)).
  unfold SFltb, SFleb, SFcompare.
  destruct (Prim2SF f) as [s|s| |s m e]; try discriminate.
  - destruct s; discriminate.
  - destruct s; [discriminate|]. intros _ Hle. exists m, e. split; [reflexivity|].
    destruct (Z.compare_spec e (-52)); [lia | lia | discriminate].
Qed.

(** [int(w * f)] returns a natural number for a machine-size natural [w] and
    a factor [f] in (0, 1]. *)
Lemma scaled_size_returns w f :
  0 <= w < 2 ^ 62 ->
  PrimFloat.ltb 0 f = true -> PrimFloat.leb f 1 = true ->
  exists k, int_of_float (PrimFloat.mul (float_of_int w) f) = Ok k /\ 0 <= k.
Proof.
  intros Hw Hpos Hle. unfold int_of_float. rewrite FloatAxioms.mul_spec.
  destruct (unit_factor_finite f Hpos Hle) as (my & ey & Hf & Hey). rewrite Hf.
  destruct (valid_finite f _ _ _ Hf) as [Hdy Hey'].
  destruct (float_of_int_finite w Hw) as [Hx | (mx & ex & Hx & Hex)]; rewrite Hx.
  - exists 0. split; [reflexivity | lia].
  - destruct (valid_finite _ _ _ _ Hx) as [Hdx _].
    unfold SF64mul, SFmul. cbn [xorb].
    destruct (binary_round_aux_finite false (Z.pos (mx * my)) (ex + ey) loc_Exact
                106 (-33)) as [Hzero | (m' & e' & Hfin & _)]; try lia.
    + pose proof (Zdigits2_mul (Z.pos mx) (Z.pos my) ltac:(lia) ltac:(lia)) as Hmul.
      rewrite Pos2Z.inj_mul. lia.
    + rewrite Hzero. exists 0. split; [reflexivity | lia].
    + rewrite Hfin. eexists. split; [reflexivity|].
      apply Z.shiftl_nonneg. lia.
Qed.

End FloatBounds.

(** ** The pixelizer *)

Section Pixelate.
Import PIL pixelate_sprites.
Context `{Extern}.

(** [Image.merge('RGB', (r, g, b))] of the bands of [img]. *)
Definition colour_part (img : image) : image :=
  Image RGB (width img) (height img)
    (fun x y => (red (getpixel img x y), green (getpixel img x y),
                 blue (getpixel img x y), 255)).

Lemma same_size_refl img : same_size img img = true.
Proof. unfold same_size. now rewrite !Z.eqb_refl. Qed.

Lemma merge_RGB_bands img :
  merge_RGB (band img red) (band img green) (band img blue) = Ok (colour_part img).
Proof.
  unfold merge_RGB, is_L, band, same_size. cbn [im_mode width height].
  rewrite !Z.eqb_refl. reflexivity.
Qed.

(** A resize to a positive size returns an image of that size and of the
    mode of its input. *)
Lemma resize_returns img w h f :
  1 <= w -> 1 <= h ->
  exists out, resize img w h f = Ok out /\ size out = (w, h)
              /\ im_mode out = im_mode img.
Proof.
  intros Hw Hh. unfold resize.
  destruct ((width img =? w) && (height img =? h)) eqn:Hsame.
  - apply andb_prop in Hsame as [Hw' Hh']. apply Z.eqb_eq in Hw', Hh'.
    exists img. unfold size. now rewrite Hw', Hh'.
  - destruct (Z.ltb_spec w 1); [lia|]. destruct (Z.ltb_spec h 1); [lia|].
    eexists. split; [reflexivity|]. split; reflexivity.
Qed.

(** C6. For an image of positive (machine-size) dimensions (w, h) and a
    factor in (0, 1], both [int(w * factor)] and [int(h * factor)] return;
    [pixelate] returns an image of size (w, h) and of the input's mode; and
    for an "RGBA" input the colour part and the alpha band are each resized to
    (max(1, int(w*f)), max(1, int(h*f))) and back to (w, h) on their own, the
    result showing the colour of the one and the alpha of the other. *)
Theorem pixelate_keeps_size (img : image) (factor : float) :
  1 <= width img < 2 ^ 62 -> 1 <= height img < 2 ^ 62 ->
  PrimFloat.ltb 0 factor = true -> PrimFloat.leb factor 1 = true ->
  exists sw sh out,
    int_of_float (PrimFloat.mul (float_of_int (width img)) factor) = Ok sw
    /\ int_of_float (PrimFloat.mul (float_of_int (height img)) factor) = Ok sh
    /\ pixelate img factor = Ok out
    /\ size out = size img /\ im_mode out = im_mode img
    /\ (im_mode img = RGBA ->
        exists small_rgb pixel_rgb small_a pixel_a,
          resize (colour_part img) (Z.max 1 sw) (Z.max 1 sh) NEAREST = Ok small_rgb
          /\ size small_rgb = (Z.max 1 sw, Z.max 1 sh)
          /\ resize small_rgb (width img) (height img) NEAREST = Ok pixel_rgb
          /\ resize (band img alpha) (Z.max 1 sw) (Z.max 1 sh) NEAREST = Ok small_a
          /\ size small_a = (Z.max 1 sw, Z.max 1 sh)
          /\ resize small_a (width img) (height img) NEAREST = Ok pixel_a
          /\ forall x y,
               getpixel out x y
               = (red (getpixel pixel_rgb x y), green (getpixel pixel_rgb x y),
                  blue (getpixel pixel_rgb x y), red (getpixel pixel_a x y))).
Proof.
  intros Hw Hh Hpos Hle.
  destruct (scaled_size_returns (width img) factor ltac:(lia) Hpos Hle) as (sw & Hsw & _).
  destruct (scaled_size_returns (height img) factor ltac:(lia) Hpos Hle) as (sh & Hsh & _).
  exists sw, sh. unfold pixelate. cbn [size]. rewrite Hsw, Hsh.
  cbn [mbind result_bind bind].
  destruct (im_mode img) eqn:Hmode.
  - (* "L" *)
    rewrite bool_decide_eq_false_2 by discriminate.
    destruct (resize_returns img (Z.max 1 sw) (Z.max 1 sh) NEAREST)
      as (small & Hs & _ & Hms); [lia | lia |].
    destruct (resize_returns small (width img) (height img) NEAREST)
      as (out & Ho & Hso & Hmo); [lia | lia |].
    exists out. rewrite Hs. cbn [mbind result_bind bind]. rewrite Ho.
    repeat split; try assumption; try congruence.
  - (* "RGB" *)
    rewrite bool_decide_eq_false_2 by discriminate.
    destruct (resize_returns img (Z.max 1 sw) (Z.max 1 sh) NEAREST)
      as (small & Hs & _ & Hms); [lia | lia |].
    destruct (resize_returns small (width img) (height img) NEAREST)
      as (out & Ho & Hso & Hmo); [lia | lia |].
    exists out. rewrite Hs. cbn [mbind result_bind bind]. rewrite Ho.
    repeat split; try assumption; try congruence.
  - (* "RGBA" *)
    rewrite bool_decide_eq_true_2 by reflexivity.
    cbn [split]. rewrite merge_RGB_bands. cbn [mbind result_bind bind].
    destruct (resize_returns (colour_part img) (Z.max 1 sw) (Z.max 1 sh) NEAREST)
      as (small_rgb & Hsr & Hsrs & _); [lia | lia |].
    destruct (resize_returns small_rgb (width img) (height img) NEAREST)
      as (pixel_rgb & Hpr & Hprs & _); [lia | lia |].
    destruct (resize_returns (band img alpha) (Z.max 1 sw) (Z.max 1 sh) NEAREST)
      as (small_a & Hsa & Hsas & Hsam); [lia | lia |].
    destruct (resize_returns small_a (width img) (height img) NEAREST)
      as (pixel_a & Hpa & Hpas & Hpam); [lia | lia |].
    rewrite Hsr. cbn [mbind result_bind bind]. rewrite Hpr. cbn [mbind result_bind bind]. rewrite Hsa. cbn [mbind result_bind bind].
    rewrite Hpa. cbn [mbind result_bind bind split_RGB].
    injection Hprs as Hprw Hprh. injection Hpas as Hpaw Hpah.
    assert (HaL : is_L pixel_a = true).
    { unfold is_L. apply bool_decide_eq_true_2. rewrite Hpam, Hsam. reflexivity. }
    unfold merge_RGBA, is_L, same_size. cbn [band im_mode width height].
    fold (is_L pixel_a). rewrite HaL, Hprw, Hprh, Hpaw, Hpah, !Z.eqb_refl.
    cbn [andb bool_decide decide_rel mode_eq_dec].
    eexists. split; [reflexivity|]. split; [reflexivity|].
    split; [reflexivity|]. split; [reflexivity|]. split; [reflexivity|].
    intros _. exists small_rgb, pixel_rgb, small_a, pixel_a.
    repeat split; try assumption.
Qed.

(** C7. For an "RGBA" image and a positive colour limit N, when the median-cut
    quantizer returns a palette of at most N entries with every index inside
    it, [quantize_colors] returns an "RGBA" image of the same size whose alpha
    is the input's alpha at every pixel and whose colours are drawn from at
    most N representatives. *)
Theorem quantize_colors_keeps_alpha (img : image) (max_colors : Z)
    (q : quantization) :
  im_mode img = RGBA -> 0 < max_colors ->
  median_cut (colour_part img) max_colors = Ok q ->
  (Z.of_nat (length (palette q)) <= max_colors) ->
  (forall x y, (index_at q x y < length (palette q))%nat) ->
  exists out colours,
    quantize_colors img max_colors = Ok out
    /\ im_mode out = RGBA /\ size out = size img
    /\ Z.of_nat (length colours) <= max_colors
    /\ forall x y,
         alpha (getpixel out x y) = alpha (getpixel img x y)
         /\ (red (getpixel out x y), green (getpixel out x y),
             blue (getpixel out x y)) ∈ colours.
Proof.
  intros Hmode Hpos Hq Hlen Hidx. unfold quantize_colors.
  rewrite Hmode. rewrite bool_decide_eq_true_2 by reflexivity.
  destruct (Z.leb_spec max_colors 0) as [|_]; [lia|].
  cbn [negb orb split]. rewrite merge_RGB_bands.
  cbn [mbind result_bind bind]. rewrite Hq. cbn [mbind result_bind bind].
  unfold split_RGB, merge_RGBA, is_L, same_size, palette_to_RGB, band.
  cbn [im_mode width height]. rewrite !Z.eqb_refl.
  cbn [andb bool_decide decide_rel mode_eq_dec].
  eexists _, (palette q). split; [reflexivity|]. split; [reflexivity|].
  split; [reflexivity|]. split; [exact Hlen|].
  intros x y. cbn [getpixel red green blue alpha fst snd]. split; [reflexivity|].
  specialize (Hidx x y).
  destruct (nth_lookup_or_length (palette q) (index_at q x y) (0, 0, 0))
    as [Hnth | Hlong]; [|lia].
  apply list_elem_of_lookup_2 in Hnth.
  destruct (nth (index_at q x y) (palette q) (0, 0, 0)) as [[r g] b].
  exact Hnth.
Qed.

End Pixelate.

(** A 4 x 6 sprite with a gradient and a transparent left column. *)
Definition sample_sprite : PIL.image :=
  PIL.Image PIL.RGBA 4 6 (fun x y => (40 * x, 30 * y, 200, if x =? 0 then 0 else 255)).

Lemma pixelate_keeps_size_witness :
  exists sw sh out,
    int_of_float (PrimFloat.mul (float_of_int 4) 0.5) = Ok sw
    /\ int_of_float (PrimFloat.mul (float_of_int 6) 0.5) = Ok sh
    /\ pixelate_sprites.pixelate (H := Reference.extern) sample_sprite 0.5 = Ok out
    /\ PIL.size out = (4, 6) /\ PIL.im_mode out = PIL.RGBA.
Proof.
  destruct (pixelate_keeps_size (H := Reference.extern) sample_sprite 0.5)
    as (sw & sh & out & Hsw & Hsh & Hout & Hsize & Hmode & _);
    [simpl; lia | simpl; lia | reflexivity | reflexivity |].
  exists sw, sh, out. repeat split; assumption.
Defined.

Lemma quantize_colors_keeps_alpha_witness :
  exists out colours,
    pixelate_sprites.quantize_colors (H := Reference.extern) sample_sprite 32 = Ok out
    /\ PIL.im_mode out = PIL.RGBA /\ PIL.size out = PIL.size sample_sprite
    /\ Z.of_nat (length colours) <= 32
    /\ forall x y,
         PIL.alpha (PIL.getpixel out x y) = PIL.alpha (PIL.getpixel sample_sprite x y)
         /\ (PIL.red (PIL.getpixel out x y), PIL.green (PIL.getpixel out x y),
             PIL.blue (PIL.getpixel out x y)) ∈ colours.
Proof.
  apply (quantize_colors_keeps_alpha (H := Reference.extern) sample_sprite 32
           (PIL.Quantization [(0, 0, 200)] (fun _ _ => 0%nat))).
  - reflexivity.
  - lia.
  - reflexivity.
  - simpl. lia.
  - intros x y. simpl. lia.
Defined.

(** ** The sheet assemblers *)

(** *** A grid of slots filled row by row *)

Section Grid.
Import PIL.

Variables (fw fh cols : Z).
Hypothesis (Hfw : 1 <= fw) (Hfh : 1 <= fh) (Hcols : 0 <= cols).

(** What slot (row, col) receives: a frame of the slot's size, or nothing. *)
Variable content : Z -> Z -> option image.
Hypothesis content_size :
  forall r c frame, content r c = Some frame -> size frame = (fw, fh).

(** Whether the frame is pasted through its own alpha. *)
Variable masked : bool.

Definition place (sheet frame : image) (x0 y0 : Z) : image :=
  paste sheet frame x0 y0 (if masked then Some frame else None).

(** The pixel a slot shows at (x, y) of the slot. *)
Definition shown (frame : option image) (x y : Z) : pixel :=
  match frame with
  | None => (0, 0, 0, 0)
  | Some f =>
      if masked then
        blend_pixel (alpha (getpixel f x y)) (0, 0, 0, 0) (getpixel f x y)
      else getpixel f x y
  end.

(** One round of the inner loop, on the sheet and the missing counter. *)
Definition fill (st : image * Z) (r c : Z) : image * Z :=
  match content r c with
  | Some frame => (place st.1 frame (c * fw) (r * fh), st.2)
  | None => (st.1, st.2 + 1)
  end.

(** The slots visited before slot (r0, c0). *)
Definition slots_before (r0 c0 : Z) : list (Z * Z) :=
  (r ← seqZ 0 r0; c ← seqZ 0 cols; [(r, c)]) ++ (c ← seqZ 0 c0; [(r0, c)]).

Definition is_absent (slot : Z * Z) : bool :=
  match content slot.1 slot.2 with
  | None => true
  | Some _ => false
  end.

Definition missing_before (r0 c0 : Z) : Z :=
  Z.of_nat (length (List.filter is_absent (slots_before r0 c0))).

Definition filled (r0 c0 r c : Z) : bool :=
  (r <? r0) || ((r =? r0) && (c <? c0)).

(** The loop invariant: the slots visited so far show their frames, the
    others are transparent, and the counter counts the absent ones. *)
Definition grid_inv (sheet0 : image) (r0 c0 : Z) (st : image * Z) : Prop :=
  im_mode st.1 = im_mode sheet0 /\ size st.1 = size sheet0
  /\ st.2 = missing_before r0 c0
  /\ forall r c x y,
       0 <= r -> 0 <= c < cols -> 0 <= x < fw -> 0 <= y < fh ->
       getpixel st.1 (c * fw + x) (r * fh + y)
       = if filled r0 c0 r c then shown (content r c) x y else (0, 0, 0, 0).

Lemma slot_offset c c0 x w :
  1 <= w -> 0 <= x < w -> (0 <= c * w + x - c0 * w < w <-> c = c0).
Proof. intros Hw Hx. split; [nia | intros ->; lia]. Qed.

Lemma inside_slot frame r c r0 c0 x y :
  size frame = (fw, fh) -> 0 <= x < fw -> 0 <= y < fh ->
  inside frame (c * fw + x - c0 * fw) (r * fh + y - r0 * fh) = true
  <-> c = c0 /\ r = r0.
Proof.
  intros [= Hw Hh] Hx Hy. unfold inside. rewrite Hw, Hh.
  pose proof (slot_offset c c0 x fw Hfw Hx). pose proof (slot_offset r r0 y fh Hfh Hy).
  rewrite !andb_true_iff, !Z.leb_le, !Z.ltb_lt. tauto.
Qed.

Lemma slots_before_next r0 c0 :
  0 <= c0 -> slots_before r0 (c0 + 1) = slots_before r0 c0 ++ [(r0, c0)].
Proof.
  intros Hc0. unfold slots_before.
  rewrite (seqZ_app 0 c0 1) by lia. rewrite bind_app, <- app_assoc. reflexivity.
Qed.

Lemma slots_before_row r0 :
  0 <= r0 -> slots_before (r0 + 1) 0 = slots_before r0 cols.
Proof.
  intros Hr0. unfold slots_before.
  rewrite (seqZ_app 0 r0 1) by lia. rewrite bind_app.
  change (seqZ 0 0) with (@nil Z). change (seqZ (0 + r0) 1) with [0 + r0].
  change ([] ≫= (λ c : Z, [(r0 + 1, c)])) with (@nil (Z * Z)).
  rewrite app_nil_r, bind_singleton. reflexivity.
Qed.

Lemma missing_before_next r0 c0 :
  0 <= c0 ->
  missing_before r0 (c0 + 1)
  = missing_before r0 c0 + (if is_absent (r0, c0) then 1 else 0).
Proof.
  intros Hc0. unfold missing_before. rewrite slots_before_next by assumption.
  rewrite List.filter_app, length_app. cbn [List.filter].
  destruct (is_absent (r0, c0)); cbn [length]; lia.
Qed.

Lemma fill_inv sheet0 r0 c0 st :
  0 <= r0 -> 0 <= c0 < cols ->
  grid_inv sheet0 r0 c0 st -> grid_inv sheet0 r0 (c0 + 1) (fill st r0 c0).
Proof.
  intros Hr0 Hc0 (Hmode & Hsize & Hmiss & Hpx). unfold fill.
  assert (Hfilled : forall r c, 0 <= r -> 0 <= c ->
            filled r0 (c0 + 1) r c
            = if (r =? r0) && (c =? c0) then true else filled r0 c0 r c).
  { intros r c Hr Hc. unfold filled.
    destruct (Z.eqb_spec r r0), (Z.eqb_spec c c0), (Z.ltb_spec r r0),
      (Z.ltb_spec c (c0 + 1)), (Z.ltb_spec c c0); cbn; try reflexivity; lia. }
  assert (Hfresh : filled r0 c0 r0 c0 = false).
  { unfold filled. rewrite !Z.ltb_irrefl. now rewrite andb_false_r. }
  destruct (content r0 c0) as [frame|] eqn:Hcontent.
  - pose proof (content_size _ _ _ Hcontent) as Hfsize.
    split; [exact Hmode|]. split; [exact Hsize|]. split.
    { rewrite missing_before_next by lia. unfold is_absent. cbn [fst snd].
      rewrite Hcontent. cbn [fst snd]. lia. }
    intros r c x y Hr Hc Hx Hy. rewrite Hfilled by lia.
    unfold place, paste. cbn [fst getpixel].
    destruct (inside frame (c * fw + x - c0 * fw) (r * fh + y - r0 * fh)) eqn:Hin.
    + apply inside_slot in Hin as [-> ->]; try assumption.
      rewrite !Z.eqb_refl. cbn [andb].
      replace (c0 * fw + x - c0 * fw) with x by lia.
      replace (r0 * fh + y - r0 * fh) with y by lia.
      rewrite Hcontent. unfold shown.
      destruct masked; [|reflexivity].
      rewrite (Hpx r0 c0 x y) by lia. now rewrite Hfresh.
    + assert (Hne : (r =? r0) && (c =? c0) = false).
      { apply not_true_iff_false. intros Heq.
        apply andb_prop in Heq as [Hr' Hc']. apply Z.eqb_eq in Hr', Hc'. subst.
        apply not_true_iff_false in Hin. apply Hin.
        apply inside_slot; auto. }
      rewrite Hne. apply Hpx; assumption.
  - split; [exact Hmode|]. split; [exact Hsize|]. split.
    { rewrite missing_before_next by lia. unfold is_absent. cbn [fst snd].
      rewrite Hcontent. cbn [snd]. lia. }
    intros r c x y Hr Hc Hx Hy. rewrite Hfilled by lia. cbn [fst].
    rewrite (Hpx r c x y) by assumption.
    destruct ((r =? r0) && (c =? c0)) eqn:Heq; [|reflexivity].
    apply andb_prop in Heq as [Hr' Hc']. apply Z.eqb_eq in Hr', Hc'. subst.
    rewrite Hfresh, Hcontent. reflexivity.
Qed.

Lemma grid_inv_start sheet0 :
  getpixel sheet0 = (fun _ _ => (0, 0, 0, 0)) -> grid_inv sheet0 0 0 (sheet0, 0).
Proof.
  intros Hblank. split; [reflexivity|]. split; [reflexivity|]. split; [reflexivity|].
  intros r c x y Hr Hc _ _. cbn [fst]. rewrite Hblank. unfold filled.
  destruct (Z.ltb_spec r 0); [lia|]. destruct (Z.ltb_spec c 0); [lia|].
  now rewrite andb_false_r.
Qed.

Lemma grid_inv_next_row sheet0 r st :
  0 <= r -> grid_inv sheet0 r cols st -> grid_inv sheet0 (r + 1) 0 st.
Proof.
  intros Hr (Hmode & Hsize & Hmiss & Hpx).
  split; [exact Hmode|]. split; [exact Hsize|]. split.
  - unfold missing_before. rewrite slots_before_row by assumption. exact Hmiss.
  - intros r' c x y Hr' Hc Hx Hy. rewrite (Hpx r' c x y) by assumption.
    replace (filled (r + 1) 0 r' c) with (filled r cols r' c); [reflexivity|].
    unfold filled.
    destruct (Z.ltb_spec r' r), (Z.ltb_spec r' (r + 1)), (Z.eqb_spec r' r),
      (Z.eqb_spec r' (r + 1)), (Z.ltb_spec c cols), (Z.ltb_spec c 0);
      cbn; try reflexivity; lia.
Qed.

(** A row of the grid: the inner loop, when every round of it is a [fill]. *)
Lemma row_loop sheet0 r (body : image * Z -> Z -> result (image * Z)) st :
  0 <= r ->
  (forall st c, 0 <= c < cols -> body st c = Ok (fill st r c)) ->
  grid_inv sheet0 r 0 st ->
  exists st', for_each (range cols) body st = Ok st' /\ grid_inv sheet0 (r + 1) 0 st'.
Proof.
  intros Hr Hbody Hinv.
  assert (Hseg : forall n c0 st,
            0 <= c0 -> c0 + Z.of_nat n <= cols -> grid_inv sheet0 r c0 st ->
            exists st', for_each (seqZ c0 (Z.of_nat n)) body st = Ok st'
                        /\ grid_inv sheet0 r (c0 + Z.of_nat n) st').
  { induction n as [|n IH]; intros c0 st0 Hc0 Hn Hst.
    - exists st0. split; [reflexivity|]. now rewrite Z.add_0_r.
    - rewrite seqZ_cons by lia. cbn [for_each]. rewrite Hbody by lia. cbn [bind].
      destruct (IH (Z.succ c0) (fill st0 r c0)) as (st' & Hrun & Hst'); [lia | lia | |].
      { apply fill_inv; [assumption | lia | assumption]. }
      exists st'. replace (Z.pred (Z.of_nat (S n))) with (Z.of_nat n) by lia.
      split; [exact Hrun|].
      replace (c0 + Z.of_nat (S n)) with (Z.succ c0 + Z.of_nat n) by lia. exact Hst'. }
  destruct (Hseg (Z.to_nat cols) 0 st) as (st' & Hrun & Hst'); [lia | lia | assumption |].
  rewrite Z2Nat.id in Hrun, Hst' by assumption.
  exists st'. split; [exact Hrun|]. now apply grid_inv_next_row.
Qed.

End Grid.

(** *** The two assemblers fill the grid *)

Section Sheets.
Import PIL.
Context `{Extern}.

Abbreviation DIRECTIONS := build_sprite_sheets.DIRECTIONS.

(** The frame an assembler pastes for an opened file: converted, and resized
    when its size is not the canonical one. *)
Definition fitted (opened : image) (fw fh : Z) : image :=
  let frame := convert_RGBA opened in
  if bool_decide (size frame = (fw, fh)) then frame
  else Image RGBA fw fh (resample NEAREST frame fw fh).

Lemma fitted_returns opened fw fh :
  1 <= fw -> 1 <= fh ->
  (if bool_decide (size (convert_RGBA opened) = (fw, fh))
   then Ok (convert_RGBA opened)
   else resize (convert_RGBA opened) fw fh NEAREST) = Ok (fitted opened fw fh)
  /\ size (fitted opened fw fh) = (fw, fh).
Proof.
  intros Hfw Hfh. unfold fitted. cbn zeta.
  destruct (bool_decide (size (convert_RGBA opened) = (fw, fh))) eqn:Hsame.
  - apply bool_decide_eq_true_1 in Hsame. now split.
  - apply bool_decide_eq_false_1 in Hsame. unfold resize.
    destruct ((width (convert_RGBA opened) =? fw)
              && (height (convert_RGBA opened) =? fh)) eqn:Heq.
    + exfalso. apply Hsame. apply andb_prop in Heq as [Hw Hh].
      apply Z.eqb_eq in Hw, Hh. unfold size. now rewrite Hw, Hh.
    + destruct (Z.ltb_spec fw 1); [lia|]. destruct (Z.ltb_spec fh 1); [lia|].
      now split.
Qed.

(** The direction of row [r] of a sheet. *)
Definition direction_of (r : Z) : string := nth (Z.to_nat r) DIRECTIONS "".

(** The frame the directory holds for a direction and a column, if any. *)
Definition frame_at (fs : filesystem) (path : string -> Z -> string)
    (fw fh : Z) (direction : string) (col : Z) : option image :=
  file ← fs !! path direction col;
  opened ← decoded file;
  Some (fitted opened fw fh).

(** What the directory holds for slot (r, c). *)
Definition slot_content (fs : filesystem) (path : string -> Z -> string)
    (fw fh r c : Z) : option image :=
  frame_at fs path fw fh (direction_of r) c.

(** Every frame file that is present is a readable image. *)
Definition decodable (fs : filesystem) (path : string -> Z -> string)
    (cols : Z) : Prop :=
  forall direction col file,
    direction ∈ DIRECTIONS -> 0 <= col < cols ->
    fs !! path direction col = Some file -> is_Some (decoded file).

(** The number of frame files that are not there. *)
Definition missing_frames (fs : filesystem) (path : string -> Z -> string)
    (cols : Z) : Z :=
  Z.of_nat (length (List.filter
    (fun slot : string * Z => negb (exists_ fs (path slot.1 slot.2)))
    (direction ← DIRECTIONS; col ← range cols; [(direction, col)]))).

Lemma slot_content_size fs path fw fh :
  1 <= fw -> 1 <= fh ->
  forall r c frame, slot_content fs path fw fh r c = Some frame ->
                    size frame = (fw, fh).
Proof.
  intros Hfw Hfh r c frame. unfold slot_content, frame_at.
  destruct (fs !! path (direction_of r) c) as [file|]; [|discriminate].
  cbn. destruct (decoded file) as [opened|]; [|discriminate]. cbn.
  intros [= <-]. now apply fitted_returns.
Qed.

Lemma missing_row fs path fw fh cols r (l : list Z) :
  decodable fs path cols -> direction_of r ∈ DIRECTIONS ->
  (forall c, c ∈ l -> 0 <= c < cols) ->
  length (List.filter (is_absent (slot_content fs path fw fh)) (c ← l; [(r, c)]))
  = length (List.filter
      (fun slot : string * Z => negb (exists_ fs (path slot.1 slot.2)))
      (c ← l; [(direction_of r, c)])).
Proof.
  intros Hdec Hdir. induction l as [|c l IH]; intros Hl; [reflexivity|].
  change (c0 ← c :: l; [(r, c0)]) with ((r, c) :: (c0 ← l; [(r, c0)])).
  change (c0 ← c :: l; [(direction_of r, c0)])
    with ((direction_of r, c) :: (c0 ← l; [(direction_of r, c0)])).
  cbn [List.filter fst snd].
  assert (Hsame : is_absent (slot_content fs path fw fh) (r, c)
                  = negb (exists_ fs (path (direction_of r) c))).
  { unfold is_absent, slot_content, frame_at, exists_. cbn [fst snd].
    destruct (fs !! path (direction_of r) c) as [file|] eqn:Hfile.
    - rewrite bool_decide_eq_true_2 by (now eexists).
      destruct (Hdec (direction_of r) c file Hdir) as [opened Hopened];
        [apply Hl; left | assumption |].
      cbn. rewrite Hopened. reflexivity.
    - rewrite bool_decide_eq_false_2; [reflexivity|].
      intros [? ?]; discriminate. }
  rewrite Hsame.
  destruct (negb _); cbn [length]; rewrite IH by (intros; apply Hl; now right);
    reflexivity.
Qed.

Lemma missing_grid fs path fw fh cols :
  0 <= cols -> decodable fs path cols ->
  missing_before cols (slot_content fs path fw fh) 4 0 = missing_frames fs path cols.
Proof.
  intros Hcols Hdec. unfold missing_before, missing_frames, slots_before. f_equal.
  change (seqZ 0 4) with [0; 1; 2; 3]. change (seqZ 0 0) with (@nil Z).
  change DIRECTIONS with [direction_of 0; direction_of 1; direction_of 2; direction_of 3].
  rewrite !bind_cons. change ([] ≫= (λ c : Z, [(4, c)])) with (@nil (Z * Z)).
  change (([] : list Z) ≫= (λ r : Z, seqZ 0 cols ≫= λ c : Z, [(r, c)]))
    with (@nil (Z * Z)).
  change (([] : list string)
          ≫= (λ direction : string, range cols ≫= λ col : Z, [(direction, col)]))
    with (@nil (string * Z)).
  rewrite !app_nil_r, !List.filter_app, !length_app.
  assert (Hrange : forall c, c ∈ seqZ 0 cols -> 0 <= c < cols).
  { intros c Hc. apply elem_of_seqZ in Hc. lia. }
  assert (Hdirs : forall r, r ∈ [0; 1; 2; 3] -> direction_of r ∈ DIRECTIONS).
  { intros r Hr. repeat (apply elem_of_cons in Hr as [->|Hr]);
      [apply list_elem_of_In; vm_compute; tauto .. | inversion Hr]. }
  rewrite !(missing_row fs path fw fh cols _ (seqZ 0 cols) Hdec)
    by first [exact Hrange | apply Hdirs, list_elem_of_In; vm_compute; tauto].
  reflexivity.
Qed.

(** A finished sheet: its size, its counter, and what every slot shows. *)
Definition laid_out (fs : filesystem) (path : string -> Z -> string)
    (fw fh cols : Z) (masked : bool) (sheet : image) (missing : Z) : Prop :=
  im_mode sheet = RGBA
  /\ size sheet = (cols * fw, 4 * fh)
  /\ missing = missing_frames fs path cols
  /\ forall row direction col x y,
       (row, direction) ∈ enumerate DIRECTIONS ->
       0 <= col < cols -> 0 <= x < fw -> 0 <= y < fh ->
       getpixel sheet (col * fw + x) (row * fh + y)
       = shown masked (frame_at fs path fw fh direction col) x y.

Lemma grid_laid_out fs path fw fh cols masked sheet missing :
  0 <= cols -> decodable fs path cols ->
  grid_inv fw fh cols (slot_content fs path fw fh) masked
    (new RGBA (cols * fw) (4 * fh) (0, 0, 0, 0)) 4 0 (sheet, missing) ->
  laid_out fs path fw fh cols masked sheet missing.
Proof.
  intros Hcols Hdec (Hmode & Hsize & Hmiss & Hpx). cbn [fst snd] in *.
  split; [exact Hmode|]. split; [exact Hsize|]. split.
  - rewrite Hmiss. now apply missing_grid.
  - intros row direction col x y Hrow Hcol Hx Hy.
    assert (Hrd : 0 <= row < 4 /\ direction = direction_of row).
    { apply list_elem_of_In in Hrow. vm_compute in Hrow.
      repeat (destruct Hrow as [[= <- <-]|Hrow]; [split; [lia | reflexivity]|]).
      contradiction. }
    destruct Hrd as [Hr ->]. rewrite (Hpx row col x y) by lia.
    unfold filled. destruct (Z.ltb_spec row 4); [reflexivity | lia].
Qed.

(** The inner loop body of [build_sheet]. *)
Definition build_round (fs : filesystem) (kind subject : string) (fw fh : Z)
    (row : Z) (direction : string) : image * Z -> Z -> result (image * Z) :=
  fun '(sheet, missing) col =>
    let frame_path := build_sprite_sheets.frame_name kind subject direction col in
    if exists_ fs frame_path then
      opened ← open fs frame_path;
      let frame := convert_RGBA opened in
      frame ←
        (if bool_decide (size frame = (fw, fh)) then Ok frame
         else resize frame fw fh NEAREST);
      Ok (paste sheet frame (col * fw) (row * fh) (Some frame), missing)
    else Ok (sheet, missing + 1).

Lemma build_round_fill fs kind subject fw fh cols row st col :
  1 <= fw -> 1 <= fh ->
  decodable fs (build_sprite_sheets.frame_name kind subject) cols ->
  direction_of row ∈ DIRECTIONS -> 0 <= col < cols ->
  build_round fs kind subject fw fh row (direction_of row) st col
  = Ok (fill fw fh
          (slot_content fs (build_sprite_sheets.frame_name kind subject) fw fh)
          true st row col).
Proof.
  intros Hfw Hfh Hdec Hdir Hcol. destruct st as [sheet missing].
  unfold build_round, fill, slot_content, frame_at, exists_, open. cbn [fst snd].
  destruct (fs !! build_sprite_sheets.frame_name kind subject (direction_of row) col)
    as [file|] eqn:Hfile.
  - rewrite bool_decide_eq_true_2 by (now eexists).
    destruct (Hdec _ _ _ Hdir Hcol Hfile) as [opened Hopened].
    rewrite Hopened. cbn [mbind result_bind bind option_bind]. rewrite Hopened.
    destruct (fitted_returns opened fw fh Hfw Hfh) as [-> _]. reflexivity.
  - rewrite bool_decide_eq_false_2; [reflexivity|]. intros [? ?]; discriminate.
Qed.

(** The line [build_sheet] prints for a finished sheet. *)
Definition done_line (kind subject : string) (sheet_w sheet_h missing : Z)
  : string :=
  "  [DONE] " +:+ build_sprite_sheets.sheet_name kind subject +:+ "  "
  +:+ pretty sheet_w +:+ "x" +:+ pretty sheet_h +:+ "  "
  +:+ (if 0 <? missing then "(" +:+ pretty missing +:+ " missing)" else "OK").

(** When the test frame opens, [build_sheet] writes a sheet laid out on the
    test frame's size and reports the number of missing frame files. *)
Lemma build_sheet_laid_out kind frames_per_dir subject fs out sample :
  open fs (build_sprite_sheets.frame_name kind subject "front" 0) = Ok sample ->
  1 <= width sample -> 1 <= height sample -> 0 <= frames_per_dir ->
  decodable fs (build_sprite_sheets.frame_name kind subject) frames_per_dir ->
  exists sheet missing,
    build_sprite_sheets.build_sheet kind frames_per_dir subject (fs, out)
    = Ok (save sheet (build_sprite_sheets.sheet_name kind subject) fs,
          print (done_line kind subject (width sample * frames_per_dir)
                   (height sample * 4) missing) out)
    /\ laid_out fs (build_sprite_sheets.frame_name kind subject)
         (width sample) (height sample) frames_per_dir true sheet missing.
Proof.
  intros Hopen Hfw Hfh Hcols Hdec.
  set (fw := width sample) in *. set (fh := height sample) in *.
  set (path := build_sprite_sheets.frame_name kind subject) in *.
  set (content := slot_content fs path fw fh).
  set (sheet0 := new RGBA (frames_per_dir * fw) (4 * fh) (0, 0, 0, 0)).
  assert (Hsize : forall r c frame, content r c = Some frame -> size frame = (fw, fh))
    by (apply slot_content_size; assumption).
  assert (Hrow : forall r st, 0 <= r -> direction_of r ∈ DIRECTIONS ->
            grid_inv fw fh frames_per_dir content true sheet0 r 0 st ->
            exists st',
              for_each (range frames_per_dir)
                (build_round fs kind subject fw fh r (direction_of r)) st = Ok st'
              /\ grid_inv fw fh frames_per_dir content true sheet0 (r + 1) 0 st').
  { intros r st Hr Hdir Hinv.
    apply (row_loop fw fh frames_per_dir Hfw Hfh Hcols content Hsize true sheet0 r);
      try assumption.
    intros st0 c Hc. now apply (build_round_fill fs kind subject fw fh frames_per_dir). }
  assert (Hdirs : forall r, r ∈ [0; 1; 2; 3] -> direction_of r ∈ DIRECTIONS).
  { intros r Hr. repeat (apply elem_of_cons in Hr as [->|Hr]);
      [apply list_elem_of_In; vm_compute; tauto .. | inversion Hr]. }
  destruct (Hrow 0 (sheet0, 0)) as (st1 & Hrun1 & Hinv1);
    [lia | apply Hdirs, list_elem_of_In; vm_compute; tauto
     | now apply grid_inv_start |].
  destruct (Hrow 1 st1) as (st2 & Hrun2 & Hinv2);
    [lia | apply Hdirs, list_elem_of_In; vm_compute; tauto | exact Hinv1 |].
  destruct (Hrow 2 st2) as (st3 & Hrun3 & Hinv3);
    [lia | apply Hdirs, list_elem_of_In; vm_compute; tauto | exact Hinv2 |].
  destruct (Hrow 3 st3) as ([sheet missing] & Hrun4 & Hinv4);
    [lia | apply Hdirs, list_elem_of_In; vm_compute; tauto | exact Hinv3 |].
  exists sheet, missing. split.
  - subst content sheet0 path fw fh. unfold build_sprite_sheets.build_sheet.
    assert (Hex : exists_ fs (build_sprite_sheets.frame_name kind subject "front" 0)
                  = true).
    { unfold exists_. apply bool_decide_eq_true_2. unfold open in Hopen.
      destruct (fs !! _); [now eexists | discriminate]. }
    rewrite Hex, Hopen. cbn [negb mbind result_bind bind size].
    change (enumerate build_sprite_sheets.DIRECTIONS)
      with [(0, direction_of 0); (1, direction_of 1); (2, direction_of 2);
            (3, direction_of 3)].
    change (Z.of_nat (length build_sprite_sheets.DIRECTIONS)) with 4.
    unfold done_line.
    replace (width sample * frames_per_dir) with (frames_per_dir * width sample)
      by lia.
    replace (height sample * 4) with (4 * height sample) by lia.
    cbn [for_each].
    change (fun '(sheet1, missing0) col => _)
      with (build_round fs kind subject (width sample) (height sample) 0
              (direction_of 0)) at 1.
    rewrite Hrun1. cbn [bind].
    change (fun '(sheet1, missing0) col => _)
      with (build_round fs kind subject (width sample) (height sample) 1
              (direction_of 1)) at 1.
    rewrite Hrun2. cbn [bind].
    change (fun '(sheet1, missing0) col => _)
      with (build_round fs kind subject (width sample) (height sample) 2
              (direction_of 2)) at 1.
    rewrite Hrun3. cbn [bind].
    change (fun '(sheet1, missing0) col => _)
      with (build_round fs kind subject (width sample) (height sample) 3
              (direction_of 3)) at 1.
    rewrite Hrun4. cbn [bind]. reflexivity.
  - apply grid_laid_out; assumption.
Qed.

(** The inner loop body of [rebuild_sheet]. *)
Definition rebuild_round (fs : filesystem) (color_name : string)
    (row_idx : Z) (direction : string) : image * Z -> Z -> result (image * Z) :=
  fun '(sheet, missing) frame =>
    let frame_path := recolor_sprites.frame_name color_name direction frame in
    if negb (exists_ fs frame_path) then Ok (sheet, missing + 1)
    else
      opened ← open fs frame_path;
      let frame_img := convert_RGBA opened in
      frame_img ←
        (if bool_decide (size frame_img = (48, 64)) then Ok frame_img
         else resize frame_img 48 64 NEAREST);
      Ok (paste sheet frame_img (frame * 48) (row_idx * 64) None, missing).

Lemma rebuild_round_fill fs color_name row st col :
  decodable fs (recolor_sprites.frame_name color_name) 3 ->
  direction_of row ∈ DIRECTIONS -> 0 <= col < 3 ->
  rebuild_round fs color_name row (direction_of row) st col
  = Ok (fill 48 64
          (slot_content fs (recolor_sprites.frame_name color_name) 48 64)
          false st row col).
Proof.
  intros Hdec Hdir Hcol. destruct st as [sheet missing].
  unfold rebuild_round, fill, slot_content, frame_at, exists_, open. cbn [fst snd].
  destruct (fs !! recolor_sprites.frame_name color_name (direction_of row) col)
    as [file|] eqn:Hfile.
  - rewrite bool_decide_eq_true_2 by (now eexists).
    destruct (Hdec _ _ _ Hdir Hcol Hfile) as [opened Hopened].
    rewrite Hopened. cbn [negb mbind result_bind bind option_bind]. rewrite Hopened.
    destruct (fitted_returns opened 48 64 ltac:(lia) ltac:(lia)) as [-> _].
    reflexivity.
  - rewrite bool_decide_eq_false_2; [reflexivity|]. intros [? ?]; discriminate.
Qed.

(** The line [rebuild_sheets] prints for a sheet. *)
Definition ok_line (color_name : string) (missing : Z) : string :=
  "  [OK] " +:+ ("char_" +:+ color_name +:+ "_sheet.png") +:+ " - " +:+ pretty 3
  +:+ "x" +:+ pretty 4 +:+ " grid (" +:+ pretty missing +:+ " frames missing)".

(** [rebuild_sheet] always writes a 3 x 4 sheet of 48 x 64 slots and reports
    the number of missing frame files. *)
Lemma rebuild_sheet_laid_out color_name fs out :
  decodable fs (recolor_sprites.frame_name color_name) 3 ->
  exists sheet missing,
    recolor_sprites.rebuild_sheet color_name (fs, out)
    = Ok (save sheet ("char_" +:+ color_name +:+ "_sheet.png") fs,
          print (ok_line color_name missing) out)
    /\ laid_out fs (recolor_sprites.frame_name color_name) 48 64 3 false
         sheet missing.
Proof.
  intros Hdec.
  set (path := recolor_sprites.frame_name color_name) in *.
  set (content := slot_content fs path 48 64).
  set (sheet0 := new RGBA (3 * 48) (4 * 64) (0, 0, 0, 0)).
  assert (Hsize : forall r c frame, content r c = Some frame -> size frame = (48, 64))
    by (apply slot_content_size; lia).
  assert (Hrow : forall r st, 0 <= r -> direction_of r ∈ DIRECTIONS ->
            grid_inv 48 64 3 content false sheet0 r 0 st ->
            exists st',
              for_each (range 3) (rebuild_round fs color_name r (direction_of r)) st
              = Ok st'
              /\ grid_inv 48 64 3 content false sheet0 (r + 1) 0 st').
  { intros r st Hr Hdir Hinv.
    apply (row_loop 48 64 3 ltac:(lia) ltac:(lia) ltac:(lia) content Hsize false
             sheet0 r); try assumption.
    intros st0 c Hc. now apply rebuild_round_fill. }
  assert (Hdirs : forall r, r ∈ [0; 1; 2; 3] -> direction_of r ∈ DIRECTIONS).
  { intros r Hr. repeat (apply elem_of_cons in Hr as [->|Hr]);
      [apply list_elem_of_In; vm_compute; tauto .. | inversion Hr]. }
  destruct (Hrow 0 (sheet0, 0)) as (st1 & Hrun1 & Hinv1);
    [lia | apply Hdirs, list_elem_of_In; vm_compute; tauto
     | now apply grid_inv_start |].
  destruct (Hrow 1 st1) as (st2 & Hrun2 & Hinv2);
    [lia | apply Hdirs, list_elem_of_In; vm_compute; tauto | exact Hinv1 |].
  destruct (Hrow 2 st2) as (st3 & Hrun3 & Hinv3);
    [lia | apply Hdirs, list_elem_of_In; vm_compute; tauto | exact Hinv2 |].
  destruct (Hrow 3 st3) as ([sheet missing] & Hrun4 & Hinv4);
    [lia | apply Hdirs, list_elem_of_In; vm_compute; tauto | exact Hinv3 |].
  exists sheet, missing. split.
  - subst content sheet0 path. unfold recolor_sprites.rebuild_sheet.
    change (enumerate ["front"; "left"; "right"; "back"]%string)
      with [(0, direction_of 0); (1, direction_of 1); (2, direction_of 2);
            (3, direction_of 3)].
    change (Z.of_nat (length recolor_sprites.DIRECTIONS)) with 4.
    change recolor_sprites.FRAMES_PER_DIR with 3.
    cbn [for_each mbind result_bind].
    change (fun '(sheet1, missing0) frame => _)
      with (rebuild_round fs color_name 0 (direction_of 0)) at 1.
    rewrite Hrun1. cbn [bind].
    change (fun '(sheet1, missing0) frame => _)
      with (rebuild_round fs color_name 1 (direction_of 1)) at 1.
    rewrite Hrun2. cbn [bind].
    change (fun '(sheet1, missing0) frame => _)
      with (rebuild_round fs color_name 2 (direction_of 2)) at 1.
    rewrite Hrun3. cbn [bind].
    change (fun '(sheet1, missing0) frame => _)
      with (rebuild_round fs color_name 3 (direction_of 3)) at 1.
    rewrite Hrun4. cbn [bind]. reflexivity.
  - apply (grid_laid_out fs path 48 64 3 false); [lia | assumption | assumption].
Qed.

End Sheets.

(** *** The claims about the sheet assemblers *)

Section SheetClaims.
Import PIL.
Context `{Extern}.

(** C1, as amended. [build_sheet], for a subject whose test frame (front, 0)
    opens with size (w, h), and [rebuild_sheet], for every colour, write a
    sheet of size (C * w, R * h) with R = 4 rows (for [rebuild_sheet] (w, h) is
    (48, 64) and C is 3); every frame file that is present is pasted at offset
    (col * w, row * h) (resized first when its size is not (w, h)); the
    counter equals the number of frame files that are missing; and every pixel
    of a missing slot is (0, 0, 0, 0). *)
Theorem sheets_laid_out :
  (forall kind frames_per_dir subject fs out sample,
     open fs (build_sprite_sheets.frame_name kind subject "front" 0) = Ok sample ->
     1 <= width sample -> 1 <= height sample -> 0 <= frames_per_dir ->
     decodable fs (build_sprite_sheets.frame_name kind subject) frames_per_dir ->
     exists sheet missing,
       build_sprite_sheets.build_sheet kind frames_per_dir subject (fs, out)
       = Ok (save sheet (build_sprite_sheets.sheet_name kind subject) fs,
             print (done_line kind subject (width sample * frames_per_dir)
                      (height sample * 4) missing) out)
       /\ laid_out fs (build_sprite_sheets.frame_name kind subject)
            (width sample) (height sample) frames_per_dir true sheet missing)
  /\ (forall color_name fs out,
        decodable fs (recolor_sprites.frame_name color_name) 3 ->
        exists sheet missing,
          recolor_sprites.rebuild_sheet color_name (fs, out)
          = Ok (save sheet ("char_" +:+ color_name +:+ "_sheet.png") fs,
                print (ok_line color_name missing) out)
          /\ laid_out fs (recolor_sprites.frame_name color_name) 48 64 3 false
               sheet missing).
Proof.
  split.
  - intros. now apply build_sheet_laid_out.
  - intros. now apply rebuild_sheet_laid_out.
Qed.

(** A slot whose frame file is missing is transparent throughout. *)
Lemma missing_slot_transparent fs path fw fh cols masked sheet missing
    row direction col x y :
  laid_out fs path fw fh cols masked sheet missing ->
  (row, direction) ∈ enumerate build_sprite_sheets.DIRECTIONS ->
  0 <= col < cols -> 0 <= x < fw -> 0 <= y < fh ->
  fs !! path direction col = None ->
  getpixel sheet (col * fw + x) (row * fh + y) = (0, 0, 0, 0).
Proof.
  intros (_ & _ & _ & Hpx) Hrow Hcol Hx Hy Hnone.
  rewrite (Hpx row direction col x y) by assumption.
  unfold frame_at. rewrite Hnone. reflexivity.
Qed.

(** A frame file of the canonical size is pasted as it is. *)
Lemma canonical_frame_pasted fs path fw fh cols masked sheet missing
    row direction col x y file opened :
  laid_out fs path fw fh cols masked sheet missing ->
  (row, direction) ∈ enumerate build_sprite_sheets.DIRECTIONS ->
  0 <= col < cols -> 0 <= x < fw -> 0 <= y < fh ->
  fs !! path direction col = Some file -> decoded file = Some opened ->
  size opened = (fw, fh) ->
  getpixel sheet (col * fw + x) (row * fh + y)
  = shown masked (Some (convert_RGBA opened)) x y.
Proof.
  intros (_ & _ & _ & Hpx) Hrow Hcol Hx Hy Hfile Hopened Hsize.
  rewrite (Hpx row direction col x y) by assumption.
  unfold frame_at. rewrite Hfile. cbn. rewrite Hopened. cbn.
  unfold fitted. rewrite bool_decide_eq_true_2; [reflexivity|].
  exact Hsize.
Qed.

(** The line [build_sheet] prints for a subject it skips. *)
Definition skip_line (kind subject : string) : string :=
  "  [SKIP] " +:+ kind +:+ "_" +:+ subject +:+ " - no frames found".

(** Without the test frame [build_sheet] prints the skip line and stops. *)
Lemma build_sheet_skips (kind : string) (frames_per_dir : Z) (subject : string)
    (fs : filesystem) (out : stdout) :
  fs !! build_sprite_sheets.frame_name kind subject "front" 0 = None ->
  build_sprite_sheets.build_sheet kind frames_per_dir subject (fs, out)
  = Ok (fs, print (skip_line kind subject) out).
Proof.
  intros Hnone. unfold build_sprite_sheets.build_sheet, exists_.
  rewrite Hnone. rewrite bool_decide_eq_false_2; [reflexivity|].
  intros [? ?]; discriminate.
Qed.

(** C9. When the test frame (front, 0) of a subject is absent, [build_sheet]
    (the body of both builders) returns the directory untouched and prints
    the skip line only: no sheet, no count.  When the test frame opens, the
    sheet file is written whichever other frame files are absent. *)
Theorem build_sheet_test_frame (kind : string) (frames_per_dir : Z)
    (subject : string) (fs : filesystem) (out : stdout) :
  (fs !! build_sprite_sheets.frame_name kind subject "front" 0 = None ->
   build_sprite_sheets.build_sheet kind frames_per_dir subject (fs, out)
   = Ok (fs, print (skip_line kind subject) out))
  /\ (forall sample,
        open fs (build_sprite_sheets.frame_name kind subject "front" 0) = Ok sample ->
        1 <= width sample -> 1 <= height sample -> 0 <= frames_per_dir ->
        decodable fs (build_sprite_sheets.frame_name kind subject) frames_per_dir ->
        exists sheet line,
          build_sprite_sheets.build_sheet kind frames_per_dir subject (fs, out)
          = Ok (<[build_sprite_sheets.sheet_name kind subject
                  := File (png_size sheet) (Some sheet)]> fs,
                print line out)).
Proof.
  split.
  - intros Hnone. unfold build_sprite_sheets.build_sheet, exists_.
    rewrite Hnone. rewrite bool_decide_eq_false_2; [reflexivity|].
    intros [? ?]; discriminate.
  - intros sample Hopen Hw Hh Hcols Hdec.
    destruct (build_sheet_laid_out kind frames_per_dir subject fs out sample)
      as (sheet & missing & Hrun & _); try assumption.
    exists sheet. eexists. exact Hrun.
Qed.

End SheetClaims.

(** *** The assemblers on concrete directories *)

(** An opaque 48 x 64 frame. *)
Definition opaque_frame : PIL.image :=
  PIL.Image PIL.RGBA 48 64 (fun x y => (4 * x, 3 * y, 100, 255)).

Definition frame_file : PIL.file := PIL.File 400 (Some opaque_frame).

(** The twelve frames of the red character, but for the test frame. *)
Definition red_without_test_frame : gmap string PIL.file :=
  delete (build_sprite_sheets.frame_name "char" "red" "front" 0)
    (list_to_map
       (direction ← build_sprite_sheets.DIRECTIONS; col ← range 3;
        [(build_sprite_sheets.frame_name "char" "red" direction col, frame_file)])).

(** C1, as stated, fails for [build_sheet]: one of the twelve frame files of
    the subject is missing, the test frame, and the builder reports no counter
    and writes no sheet; it prints the skip line and leaves the directory as
    it was. *)
Lemma build_sheet_counterexample :
  missing_frames red_without_test_frame
    (build_sprite_sheets.frame_name "char" "red") 3 = 1
  /\ build_sprite_sheets.build_sheet (H := Reference.extern) "char" 3 "red"
       (red_without_test_frame, [])
     = Ok (red_without_test_frame, [skip_line "char" "red"])
  /\ red_without_test_frame !! build_sprite_sheets.sheet_name "char" "red" = None.
Proof.
  split; [vm_compute; reflexivity|].
  split; [|vm_compute; reflexivity].
  apply (build_sheet_skips (H := Reference.extern) "char" 3 "red"
           red_without_test_frame []).
  vm_compute. reflexivity.
Qed.

(** A directory holding the test frame of the red character only. *)
Definition red_test_frame_only : gmap string PIL.file :=
  {[ build_sprite_sheets.frame_name "char" "red" "front" 0 := frame_file ]}.

Lemma sheets_laid_out_witness :
  exists sheet missing,
    build_sprite_sheets.build_sheet (H := Reference.extern) "char" 3 "red"
      (red_test_frame_only, [])
    = Ok (PIL.save (H := Reference.extern) sheet
            (build_sprite_sheets.sheet_name "char" "red") red_test_frame_only,
          print (done_line "char" "red" (48 * 3) (64 * 4) missing) [])
    /\ laid_out (H := Reference.extern) red_test_frame_only
         (build_sprite_sheets.frame_name "char" "red") 48 64 3 true sheet missing.
Proof.
  apply (proj1 (sheets_laid_out (H := Reference.extern)) "char" 3 "red"
           red_test_frame_only [] opaque_frame).
  - vm_compute. reflexivity.
  - simpl. lia.
  - simpl. lia.
  - lia.
  - intros direction col file _ _ Hfile. unfold red_test_frame_only in Hfile.
    apply lookup_singleton_Some in Hfile as [_ <-]. now eexists.
Defined.

Lemma build_sheet_test_frame_witness :
  build_sprite_sheets.build_sheet (H := Reference.extern) "char" 3 "red"
    (red_without_test_frame, [])
  = Ok (red_without_test_frame, print (skip_line "char" "red") []).
Proof.
  apply (proj1 (build_sheet_test_frame (H := Reference.extern) "char" 3 "red"
                  red_without_test_frame [])).
  vm_compute. reflexivity.
Defined.

(** ** The normalizer *)

Section Normalizer.
Import PIL.
Context `{Extern}.

(** A fully transparent "RGBA" image has no bounding box. *)
Lemma getbbox_transparent img :
  im_mode img = RGBA ->
  (forall x y, inside img x y = true -> alpha (getpixel img x y) = 0) ->
  getbbox img = None.
Proof.
  intros Hmode Hclear. unfold getbbox. rewrite Hmode.
  assert (Hnone : forall l, (forall c, c ∈ l -> inside img c.1 c.2 = true) ->
            List.filter (fun c => is_content RGBA (getpixel img c.1 c.2)) l = []).
  { induction l as [|c l IH]; intros Hl; [reflexivity|]. cbn [List.filter].
    cbn [is_content]. rewrite Hclear by (apply Hl; left).
    cbn [Z.eqb negb]. apply IH. intros; apply Hl; now right. }
  rewrite Hnone; [reflexivity|].
  intros [x y] Hc. now apply elem_of_coordinates.
Qed.

(** [process_sprite] of process_all_sprites.py gives its skip signal only for
    an image of width or height 0: a transparent image of positive size is
    never skipped. *)
Lemma process_sprite_skip src target_w target_h use_lanczos fs fs' :
  process_all_sprites.process_sprite src target_w target_h use_lanczos fs
  = Ok (false, fs') ->
  exists data cut opened,
    fs !! src = Some data /\ remove data = Ok cut /\ decoded cut = Some opened
    /\ let img := convert_RGBA opened in
       let img := match getbbox img with Some box => crop img box | None => img end in
       width img = 0 \/ height img = 0.
Proof.
  unfold process_all_sprites.process_sprite, process_all_sprites.read, open_bytes.
  unfold mbind, result_bind, bind.
  destruct (fs !! src) as [data|]; [|intros ?; discriminate].
  destruct (remove data) as [cut|] eqn:Hcut; [|intros ?; discriminate].
  destruct (decoded cut) as [opened|] eqn:Hopened; [|intros ?; discriminate].
  set (img := match getbbox (convert_RGBA opened) with
              | Some box => crop (convert_RGBA opened) box
              | None => convert_RGBA opened
              end).
  destruct ((width img =? 0) || (height img =? 0)) eqn:Hzero.
  - intros _. exists data, cut, opened.
    split; [reflexivity|]. split; [exact Hcut|]. split; [exact Hopened|].
    cbv zeta. fold img.
    apply orb_prop in Hzero as [Hz|Hz]; apply Z.eqb_eq in Hz; [now left | now right].
  - destruct (int_truediv target_w (width img)); [|intros ?; discriminate].
    destruct (int_truediv target_h (height img)); [|intros ?; discriminate].
    destruct (int_of_float _); [|intros ?; discriminate].
    destruct (int_of_float _); [|intros ?; discriminate].
    destruct (resize _ _ _ _); intros ?; discriminate.
Qed.

(** [process_sprite] of process_all_sprites.py never gives its skip signal for
    a fully transparent cutout of positive size. *)
Lemma transparent_cutout_not_skipped src target_w target_h use_lanczos fs fs'
    data cut opened :
  fs !! src = Some data -> remove data = Ok cut -> decoded cut = Some opened ->
  1 <= width opened -> 1 <= height opened ->
  (forall x y, inside opened x y = true ->
               alpha (getpixel (convert_RGBA opened) x y) = 0) ->
  process_all_sprites.process_sprite src target_w target_h use_lanczos fs
  <> Ok (false, fs').
Proof.
  intros Hdata Hcut Hopened Hw Hh Hclear Hskip.
  apply process_sprite_skip in Hskip
    as (data' & cut' & opened' & Hdata' & Hcut' & Hopened' & Hzero).
  rewrite Hdata in Hdata'. injection Hdata' as <-.
  rewrite Hcut in Hcut'. injection Hcut' as <-.
  rewrite Hopened in Hopened'. injection Hopened' as <-.
  cbv zeta in Hzero.
  rewrite (getbbox_transparent (convert_RGBA opened)) in Hzero;
    [cbn in Hzero; lia | reflexivity | exact Hclear].
Qed.

(** [img] after [bbox = img.getbbox()] and [if bbox: img = img.crop(bbox)]:
    the cutout cropped to its content. *)
Definition cropped (opened : image) : image :=
  let img := convert_RGBA opened in
  match getbbox img with
  | Some box => crop img box
  | None => img
  end.

(** [int(side * min(target_w / img.width, target_h / img.height))] *)
Definition scaled_side (target_w target_h : Z) (img : image) (side : Z) : result Z :=
  rw ← int_truediv target_w (width img);
  rh ← int_truediv target_h (height img);
  int_of_float (PrimFloat.mul (float_of_int side) (min2 rw rh)).

(** The transparent canvas with [content] pasted through its own alpha,
    centred horizontally and resting on the bottom edge. *)
Definition anchored (target_w target_h : Z) (content : image) : image :=
  paste (new RGBA target_w target_h (0, 0, 0, 0)) content
    ((target_w - width content) `div` 2) (target_h - height content)
    (Some content).

(** A pixel of the canvas: the content's pixel over transparent black inside
    the box of the content, transparent black outside. *)
Lemma anchored_pixel target_w target_h content x y :
  getpixel (anchored target_w target_h content) x y
  = let x0 := (target_w - width content) `div` 2 in
    let y0 := target_h - height content in
    if inside content (x - x0) (y - y0) then
      blend_pixel (alpha (getpixel content (x - x0) (y - y0))) (0, 0, 0, 0)
        (getpixel content (x - x0) (y - y0))
    else (0, 0, 0, 0).
Proof. reflexivity. Qed.

Lemma resize_sides img w h f content :
  resize img w h f = Ok content -> width content = w /\ height content = h.
Proof.
  unfold resize. destruct ((width img =? w) && (height img =? h)) eqn:Hsame.
  - intros [= <-]. apply andb_prop in Hsame as [Hw Hh].
    now apply Z.eqb_eq in Hw, Hh.
  - destruct ((w <? 1) || (h <? 1)); [discriminate|]. now intros [= <-].
Qed.

(** The canvas of [process_sprite] of process_all_sprites.py, for a positive
    target size.  A call that reports success has read the file, stripped its
    background and decoded it; it has scaled both sides of the cutout cropped
    to its content by the smaller of [target_w / width] and
    [target_h / height], to at least 1; the content it pastes is that crop
    resized to those sides; and the file it leaves under [src] is the
    transparent "RGBA" canvas of the target size that shows the content,
    through the content's own alpha, in the box that is centred horizontally
    and rests on the bottom edge, and is transparent everywhere else. *)
Theorem process_sprite_canvas (src : string) (target_w target_h : Z)
    (use_lanczos : bool) (fs fs' : filesystem) :
  1 <= target_w -> 1 <= target_h ->
  process_all_sprites.process_sprite src target_w target_h use_lanczos fs
  = Ok (true, fs') ->
  exists data cut opened nw nh content,
    fs !! src = Some data /\ remove data = Ok cut /\ decoded cut = Some opened
    /\ scaled_side target_w target_h (cropped opened) (width (cropped opened))
       = Ok nw
    /\ scaled_side target_w target_h (cropped opened) (height (cropped opened))
       = Ok nh
    /\ resize (cropped opened) (Z.max 1 nw) (Z.max 1 nh)
         (if use_lanczos then LANCZOS else NEAREST) = Ok content
    /\ size content = (Z.max 1 nw, Z.max 1 nh)
    /\ fs' = save (anchored target_w target_h content) src fs
    /\ im_mode (anchored target_w target_h content) = RGBA
    /\ size (anchored target_w target_h content) = (target_w, target_h)
    /\ forall x y,
         getpixel (anchored target_w target_h content) x y
         = let x0 := (target_w - Z.max 1 nw) `div` 2 in
           let y0 := target_h - Z.max 1 nh in
           if (0 <=? x - x0) && (x - x0 <? Z.max 1 nw)
              && (0 <=? y - y0) && (y - y0 <? Z.max 1 nh)
           then blend_pixel (alpha (getpixel content (x - x0) (y - y0)))
                  (0, 0, 0, 0) (getpixel content (x - x0) (y - y0))
           else (0, 0, 0, 0).
Proof.
  intros _ _.
  unfold process_all_sprites.process_sprite, process_all_sprites.read, open_bytes.
  unfold mbind, result_bind, bind.
  destruct (fs !! src) as [data|]; [|discriminate].
  destruct (remove data) as [cut|] eqn:Hcut; [|discriminate].
  destruct (decoded cut) as [opened|] eqn:Hopened; [|discriminate].
  fold (cropped opened).
  destruct ((width (cropped opened) =? 0) || (height (cropped opened) =? 0));
    [discriminate|].
  destruct (int_truediv target_w (width (cropped opened))) as [rw|] eqn:Hrw;
    [|discriminate].
  destruct (int_truediv target_h (height (cropped opened))) as [rh|] eqn:Hrh;
    [|discriminate].
  destruct (int_of_float (PrimFloat.mul (float_of_int (width (cropped opened)))
                            (min2 rw rh))) as [nw|] eqn:Hnw; [|discriminate].
  destruct (int_of_float (PrimFloat.mul (float_of_int (height (cropped opened)))
                            (min2 rw rh))) as [nh|] eqn:Hnh; [|discriminate].
  destruct (resize (cropped opened) (Z.max 1 nw) (Z.max 1 nh) _) as [content|]
    eqn:Hresize; [|discriminate].
  intros [= <-].
  destruct (resize_sides _ _ _ _ _ Hresize) as [Hcw Hch].
  exists data, cut, opened, nw, nh, content.
  split; [reflexivity|]. split; [exact Hcut|]. split; [exact Hopened|].
  split; [unfold scaled_side, mbind, result_bind, bind; now rewrite Hrw, Hrh|].
  split; [unfold scaled_side, mbind, result_bind, bind; now rewrite Hrw, Hrh|].
  split; [exact Hresize|].
  split; [unfold size; now rewrite Hcw, Hch|].
  split; [unfold anchored; now rewrite Hcw, Hch|].
  split; [reflexivity|]. split; [reflexivity|].
  intros x y. rewrite anchored_pixel. cbv zeta. unfold inside.
  now rewrite Hcw, Hch.
Qed.

End Normalizer.

(** *** The normalizer on concrete cutouts *)

(** What a call reported and what it left under [src]. *)
Definition signal {A : Type} (r : result (A * gmap string PIL.file)) : option A :=
  match r with
  | Ok (a, _) => Some a
  | Raise _ => None
  end.

Definition written_size (fs : gmap string PIL.file) (src : string)
  : option (Z * Z) :=
  file ← fs !! src; img ← PIL.decoded file; Some (PIL.size img).

Definition written {A : Type} (r : result (A * gmap string PIL.file))
    (src : string) : option (Z * Z) :=
  match r with
  | Ok (_, fs) => written_size fs src
  | Raise _ => None
  end.

(** A fully transparent 2 x 2 cutout. *)
Definition blank_cutout : PIL.image :=
  PIL.Image PIL.RGBA 2 2 (fun _ _ => (0, 0, 0, 0)).

Definition blank_directory : gmap string PIL.file :=
  {[ "char_blue_front_0.png"%string := PIL.File 90 (Some blank_cutout) ]}.

Definition blank_building_directory : gmap string PIL.file :=
  {[ "building_well.png"%string := PIL.File 90 (Some blank_cutout) ]}.

(** C3 fails on the code: for a fully transparent cutout (no bounding box)
    [process_sprite] of process_all_sprites.py reports success and overwrites
    the source file with a 48 x 64 canvas; it does not skip.  Nor does
    [process_sprite] of process_building_sprites.py, which writes a 96 x 96
    canvas. *)
Lemma process_sprite_blank_cutout :
  PIL.getbbox blank_cutout = None
  /\ signal (process_all_sprites.process_sprite (H := Reference.extern)
               "char_blue_front_0.png" 48 64 false blank_directory) = Some true
  /\ written (process_all_sprites.process_sprite (H := Reference.extern)
                "char_blue_front_0.png" 48 64 false blank_directory)
       "char_blue_front_0.png" = Some (48, 64)
  /\ written_size blank_directory "char_blue_front_0.png" = Some (2, 2)
  /\ (process_building_sprites.process_sprite (H := Reference.extern)
        "building_well" (blank_building_directory, [])).2 = Ok ()
  /\ written_size
       (process_building_sprites.process_sprite (H := Reference.extern)
          "building_well" (blank_building_directory, [])).1.1 "building_well.png"
     = Some (96, 96).
Proof. repeat split; vm_compute; reflexivity. Qed.

Lemma transparent_cutout_not_skipped_witness :
  process_all_sprites.process_sprite (H := Reference.extern)
    "char_blue_front_0.png" 48 64 false blank_directory
  <> Ok (false, blank_directory).
Proof.
  apply (transparent_cutout_not_skipped (H := Reference.extern)
           "char_blue_front_0.png" 48 64 false blank_directory blank_directory
           (PIL.File 90 (Some blank_cutout)) (PIL.File 90 (Some blank_cutout))
           blank_cutout).
  - unfold blank_directory. apply lookup_singleton_eq.
  - reflexivity.
  - reflexivity.
  - cbn. lia.
  - cbn. lia.
  - intros x y _. reflexivity.
Defined.

(** A cutout whose content is one opaque row of 200 pixels. *)
Definition sliver_cutout : PIL.image :=
  PIL.Image PIL.RGBA 200 1 (fun _ _ => (120, 80, 40, 255)).

Definition sliver_directory : gmap string PIL.file :=
  {[ "building_well.png"%string := PIL.File 700 (Some sliver_cutout) ]}.

(** C2 fails on the code of process_building_sprites.py: for a 200 x 1 content
    and the 96 x 96 target the scaled height is [int(1 * 0.48) = 0], the
    resize raises and no canvas is written, while [process_sprite] of
    process_all_sprites.py, which takes [max(1, ...)], writes the canvas. *)
Lemma process_sprite_sliver_cutout :
  PIL.getbbox sliver_cutout = Some (0, 0, 200, 1)
  /\ (rw ← int_truediv 96 200; rh ← int_truediv 96 1;
      int_of_float (PrimFloat.mul (float_of_int 1) (min2 rw rh))) = Ok 0
  /\ (process_building_sprites.process_sprite (H := Reference.extern)
        "building_well" (sliver_directory, [])).2 = Raise ValueError
  /\ written_size
       (process_building_sprites.process_sprite (H := Reference.extern)
          "building_well" (sliver_directory, [])).1.1 "building_well.png"
     = Some (200, 1)
  /\ signal (process_all_sprites.process_sprite (H := Reference.extern)
               "building_well.png" 96 96 true sliver_directory) = Some true
  /\ written (process_all_sprites.process_sprite (H := Reference.extern)
                "building_well.png" 96 96 true sliver_directory)
       "building_well.png" = Some (96, 96).
Proof. repeat split; vm_compute; reflexivity. Qed.

Lemma process_sprite_canvas_witness :
  exists data cut opened nw nh content,
    sliver_directory !! "building_well.png" = Some data
    /\ PIL.remove (Extern := Reference.extern) data = Ok cut
    /\ PIL.decoded cut = Some opened
    /\ scaled_side 96 96 (cropped opened) (PIL.width (cropped opened)) = Ok nw
    /\ scaled_side 96 96 (cropped opened) (PIL.height (cropped opened)) = Ok nh
    /\ PIL.resize (H := Reference.extern) (cropped opened) (Z.max 1 nw) (Z.max 1 nh)
         PIL.LANCZOS = Ok content
    /\ PIL.size content = (Z.max 1 nw, Z.max 1 nh)
    /\ written (process_all_sprites.process_sprite (H := Reference.extern)
                  "building_well.png" 96 96 true sliver_directory)
         "building_well.png" = Some (96, 96).
Proof.
  assert (Hsignal : signal (process_all_sprites.process_sprite
                              (H := Reference.extern)
                              "building_well.png" 96 96 true sliver_directory)
                    = Some true) by (vm_compute; reflexivity).
  destruct (process_all_sprites.process_sprite (H := Reference.extern)
              "building_well.png" 96 96 true sliver_directory)
    as [[reported fs']|] eqn:Hrun; [|discriminate].
  injection Hsignal as ->.
  destruct (process_sprite_canvas (H := Reference.extern) "building_well.png"
              96 96 true sliver_directory fs' ltac:(lia) ltac:(lia) Hrun)
    as (data & cut & opened & nw & nh & content & Hdata & Hcut & Hopened & Hnw
        & Hnh & Hresize & Hsize & -> & _ & _ & _).
  exists data, cut, opened, nw, nh, content.
  repeat (split; [assumption|]).
  unfold written, written_size, PIL.save. rewrite lookup_insert_eq.
  reflexivity.
Defined.

(** ** Error containment in the batch loops *)

Section Batches.
Import PIL process_all_sprites.
Context `{Extern}.

(** One round of the loops of [process_characters] and [process_animals]. *)
Definition visit (tw th : Z)
  : filesystem * stdout * Z -> string -> result (filesystem * stdout * Z) :=
  fun '(fs, out, count) src =>
    '(backed_up, fs) ← backup_file src fs;
    let status := if backed_up : bool then "NEW" else "UPDATE" in
    let out := print ("  [" +:+ status +:+ "] " +:+ src +:+ " ...") out in
    Ok (try_process_sprite src tw th false true (fs, out, count)).

(** Every file of the list is visited in turn: backed up, announced, and
    handed to the guarded call, whose state the next file starts from. *)
Inductive visited (tw th : Z)
  : list string -> filesystem * stdout * Z -> filesystem * stdout * Z -> Prop :=
| visited_nil st : visited tw th [] st st
| visited_cons src rest fs out count backed_up fs1 st' :
    backup_file src fs = Ok (backed_up, fs1) ->
    visited tw th rest
      (try_process_sprite src tw th false true
         (fs1, print ("  [" +:+ (if backed_up : bool then "NEW" else "UPDATE")
                      +:+ "] " +:+ src +:+ " ...") out, count)) st' ->
    visited tw th (src :: rest) (fs, out, count) st'.

(** The guarded call turns an exception into one line of output and leaves
    the directory and the count as they were. *)
Lemma try_process_sprite_raise src tw th use_lanczos count_ok fs out count e :
  process_sprite src tw th use_lanczos fs = Raise e ->
  try_process_sprite src tw th use_lanczos count_ok (fs, out, count)
  = (fs, print ("ERROR: " +:+ exn_name e) out, count).
Proof. intros Hraise. unfold try_process_sprite. now rewrite Hraise. Qed.

Lemma process_sprite_keeps_files src tw th use_lanczos fs b fs' name :
  process_sprite src tw th use_lanczos fs = Ok (b, fs') ->
  is_Some (fs !! name) -> is_Some (fs' !! name).
Proof.
  unfold process_sprite, mbind, result_bind, bind.
  destruct (read fs src); [|discriminate].
  destruct (remove _); [|discriminate].
  destruct (open_bytes _); [|discriminate].
  destruct (_ || _); [intros [= <- <-]; auto|].
  destruct (int_truediv tw _); [|discriminate].
  destruct (int_truediv th _); [|discriminate].
  destruct (int_of_float _); [|discriminate].
  destruct (int_of_float _); [|discriminate].
  destruct (resize _ _ _ _); [|discriminate].
  intros [= <- <-] Hname. unfold save.
  destruct (decide (src = name)) as [->|Hne].
  - rewrite lookup_insert_eq. now eexists.
  - now rewrite lookup_insert_ne.
Qed.

Lemma try_process_sprite_keeps_files src tw th use_lanczos count_ok fs out count name :
  is_Some (fs !! name) ->
  is_Some ((try_process_sprite src tw th use_lanczos count_ok (fs, out, count)).1.1
           !! name).
Proof.
  intros Hname. unfold try_process_sprite.
  destruct (process_sprite src tw th use_lanczos fs) as [[[] fs']|] eqn:Hrun;
    cbn [fst]; try assumption;
    eapply process_sprite_keeps_files; eassumption.
Qed.

(** The loop visits every listed file and never raises, provided the listed
    files exist. *)
Lemma visit_all tw th files st :
  (forall f, f ∈ files -> is_Some (st.1.1 !! f)) ->
  exists st', for_each files (visit tw th) st = Ok st' /\ visited tw th files st st'.
Proof.
  revert st. induction files as [|src rest IH]; intros [[fs out] count] Hfiles.
  - eexists. split; [reflexivity | constructor].
  - cbn [fst] in Hfiles.
    destruct (Hfiles src) as [file Hfile]; [left|].
    assert (Hbackup : exists backed_up fs1,
              backup_file src fs = Ok (backed_up, fs1)
              /\ forall name, is_Some (fs !! name) -> is_Some (fs1 !! name)).
    { unfold backup_file, copy2. destruct (negb _).
      - rewrite Hfile. cbn [mbind result_bind bind]. eexists _, _. split; [reflexivity|].
        intros name Hname. destruct (decide (backup_name src = name)) as [->|Hne].
        + rewrite lookup_insert_eq. now eexists.
        + now rewrite lookup_insert_ne.
      - eexists _, _. split; [reflexivity | auto]. }
    destruct Hbackup as (backed_up & fs1 & Hbackup & Hkeep).
    set (out1 := print ("  [" +:+ (if backed_up : bool then "NEW" else "UPDATE")
                        +:+ "] " +:+ src +:+ " ...") out).
    destruct (IH (try_process_sprite src tw th false true (fs1, out1, count)))
      as (st' & Hrun & Hvisited).
    { intros f Hf. apply try_process_sprite_keeps_files, Hkeep, Hfiles. now right. }
    exists st'. split.
    + cbn [for_each]. unfold visit at 1. cbv beta iota. rewrite Hbackup.
      cbn [mbind result_bind bind]. exact Hrun.
    + econstructor; eassumption.
Qed.

End Batches.

Section BatchClaims.
Import PIL process_all_sprites.
Context `{Extern}.

Lemma listed_files_exist (fs : filesystem) (files : list string) p :
  (forall f, f ∈ files -> is_Some (fs !! f)) ->
  forall f, f ∈ List.filter p files -> is_Some (fs !! f).
Proof.
  intros Hfiles f Hf. apply Hfiles.
  apply list_elem_of_In in Hf. apply List.filter_In in Hf as [Hf _].
  now apply list_elem_of_In.
Qed.

(** The loop of [process_characters]: when the listed files exist
    the batch returns, having visited every listed non-sheet file in order;
    and an exception that [process_sprite] raises on one file is caught:
    it adds one "ERROR" line to the output and leaves the directory and the
    count to the next file as they were. *)
Theorem process_characters_contains_errors (fs : filesystem) (out : stdout) :
  (forall f, f ∈ sorted_glob fs "char_*_*.png" -> is_Some (fs !! f)) ->
  (exists fs' out' count,
     process_characters (fs, out)
     = Ok (fs', print ("  Processed " +:+ pretty count +:+ " character sprites.") out',
           count)
     /\ visited 48 64
          (List.filter (fun f => negb (mentions_sheet (stem f)))
             (sorted_glob fs "char_*_*.png"))
          (fs, print "=== Processing Character Sprites ===" out, 0)
          (fs', out', count))
  /\ (forall src fs1 out1 count1 e,
        process_sprite src 48 64 false fs1 = Raise e ->
        try_process_sprite src 48 64 false true (fs1, out1, count1)
        = (fs1, print ("ERROR: " +:+ exn_name e) out1, count1)).
Proof.
  intros Hfiles. split.
  - destruct (visit_all 48 64
                (List.filter (fun f => negb (mentions_sheet (stem f)))
                   (sorted_glob fs "char_*_*.png"))
                (fs, print "=== Processing Character Sprites ===" out, 0))
      as ([[fs' out'] count] & Hrun & Hvisited).
    { now apply listed_files_exist. }
    exists fs', out', count. split; [|exact Hvisited].
    unfold process_characters, CHAR_SIZE. cbn [fst snd].
    change (fun '(fs0, out0, count0) src => _) with (visit 48 64) at 1.
    now rewrite Hrun.
  - intros src fs1 out1 count1 e. apply try_process_sprite_raise.
Qed.

(** The loop of [process_animals] contains errors the same way. *)
Lemma process_animals_contains_errors (fs : filesystem) (out : stdout) :
  (forall f, f ∈ sorted_glob fs "animal_*.png" -> is_Some (fs !! f)) ->
  (exists fs' out' count,
     process_animals (fs, out)
     = Ok (fs', print ("  Processed " +:+ pretty count +:+ " animal sprites.") out',
           count)
     /\ visited 48 48
          (List.filter (fun f => negb (mentions_sheet (stem f)))
             (sorted_glob fs "animal_*.png"))
          (fs, print "=== Processing Animal Sprites ===" out, 0)
          (fs', out', count))
  /\ (forall src fs1 out1 count1 e,
        process_sprite src 48 48 false fs1 = Raise e ->
        try_process_sprite src 48 48 false true (fs1, out1, count1)
        = (fs1, print ("ERROR: " +:+ exn_name e) out1, count1)).
Proof.
  intros Hfiles. split.
  - destruct (visit_all 48 48
                (List.filter (fun f => negb (mentions_sheet (stem f)))
                   (sorted_glob fs "animal_*.png"))
                (fs, print "=== Processing Animal Sprites ===" out, 0))
      as ([[fs' out'] count] & Hrun & Hvisited).
    { now apply listed_files_exist. }
    exists fs', out', count. split; [|exact Hvisited].
    unfold process_animals, ANIMAL_SIZE. cbn [fst snd].
    change (fun '(fs0, out0, count0) src => _) with (visit 48 48) at 1.
    now rewrite Hrun.
  - intros src fs1 out1 count1 e. apply try_process_sprite_raise.
Qed.

End BatchClaims.

(** A directory with one frame that does not decode and one that does. *)
Definition corrupt_frame : PIL.file := PIL.File 500 None.

Definition mixed_directory : PIL.filesystem :=
  {[ "char_blue_front_0.png" := corrupt_frame;
     "char_blue_front_1.png" := PIL.File 700 (Some sliver_cutout) ]}.

Lemma mixed_directory_listing :
  Reference.listing mixed_directory "char_*_*.png"
  = ["char_blue_front_0.png"; "char_blue_front_1.png"].
Proof. vm_compute. reflexivity. Qed.

Lemma mixed_directory_listed f :
  f ∈ Reference.listing mixed_directory "char_*_*.png" ->
  is_Some (mixed_directory !! f).
Proof.
  rewrite mixed_directory_listing. intros Hf.
  apply elem_of_cons in Hf as [->|Hf];
    [|apply elem_of_cons in Hf as [->|Hf]; [|now apply elem_of_nil in Hf]];
    vm_compute; eexists; reflexivity.
Qed.

(** The normalizer's loop logs the frame that does not decode and goes on to
    the next one. *)
Lemma process_characters_mixed_directory :
  (fs ← process_all_sprites.process_characters (H := Reference.extern)
          (mixed_directory, []);
   Ok (fs.1.2, fs.2))
  = Ok ([ "=== Processing Character Sprites ===";
          "  [NEW] char_blue_front_0.png ...";
          "ERROR: UnidentifiedImageError";
          "  [NEW] char_blue_front_1.png ...";
          "OK";
          "  Processed 1 character sprites." ]%string, 1).
Proof. vm_compute. reflexivity. Qed.

Lemma process_characters_contains_errors_witness :
  (exists fs' out' count,
     process_all_sprites.process_characters (H := Reference.extern)
       (mixed_directory, [])
     = Ok (fs', print ("  Processed " +:+ pretty count +:+ " character sprites.") out',
           count)
     /\ visited (H := Reference.extern) 48 64
          (List.filter (fun f => negb (process_all_sprites.mentions_sheet
                                         (process_all_sprites.stem f)))
             (Reference.listing mixed_directory "char_*_*.png"))
          (mixed_directory, print "=== Processing Character Sprites ===" [], 0)
          (fs', out', count)).
Proof.
  exact (proj1 (process_characters_contains_errors (H := Reference.extern)
                  mixed_directory [] mixed_directory_listed)).
Defined.

(** The recolorizer's loop has no handler: the frame that does not decode
    ends the batch, and the frame after it is never recoloured. *)
Lemma process_color_counterexample :
  recolor_sprites.process_color (H := Reference.extern) "red"
    (recolor_sprites.Config 12 1.1 0.95) (mixed_directory, [])
  = Raise UnidentifiedImageError.
Proof. vm_compute. reflexivity. Qed.

(** Nor has the loop of the sheet assembler. *)
Lemma build_sheet_corrupt_frame :
  build_sprite_sheets.build_sheet (H := Reference.extern) "char" 3 "blue"
    (mixed_directory, [])
  = Raise UnidentifiedImageError.
Proof. vm_compute. reflexivity. Qed.

(** * Further properties of the scripts *)

(** ** Loops that keep a relation or an invariant *)

Section Loops.
Context {A S : Type}.

(** A loop whose every round relates what is seen of the state before to
    what is seen of the state after by a preorder, relates its start to its
    end. *)
Lemma for_each_preserves {T : Type} (R : T -> T -> Prop) (view : S -> T)
    (xs : list A) (body : S -> A -> result S) (s s' : S) :
  (forall t, R t t) -> (forall a b c, R a b -> R b c -> R a c) ->
  (forall s x s', x ∈ xs -> body s x = Ok s' -> R (view s) (view s')) ->
  for_each xs body s = Ok s' -> R (view s) (view s').
Proof.
  intros Hrefl Htrans. revert s. induction xs as [|x xs IH]; intros s Hbody Hrun.
  - injection Hrun as <-. apply Hrefl.
  - cbn [for_each] in Hrun.
    destruct (body s x) as [s1|] eqn:Hstep; [|discriminate].
    apply (Htrans _ (view s1)).
    + eapply Hbody; [left | exact Hstep].
    + apply IH; [|exact Hrun]. intros s2 y s3 Hy. apply Hbody. now right.
Qed.

(** A loop whose every round returns from a state of the invariant, into
    the invariant, returns. *)
Lemma for_each_returns (I : S -> Prop) (xs : list A) (body : S -> A -> result S)
    (s : S) :
  I s ->
  (forall s x, x ∈ xs -> I s -> exists s', body s x = Ok s' /\ I s') ->
  exists s', for_each xs body s = Ok s' /\ I s'.
Proof.
  revert s. induction xs as [|x xs IH]; intros s Hs Hbody.
  - exists s. split; [reflexivity | exact Hs].
  - destruct (Hbody s x) as (s1 & Hstep & Hs1); [left | exact Hs |].
    destruct (IH s1 Hs1) as (s' & Hrun & Hs').
    { intros s2 y Hy. apply Hbody. now right. }
    exists s'. split; [|exact Hs']. cbn [for_each]. now rewrite Hstep.
Qed.

End Loops.

(** ** What a batch leaves alone *)

Section Directories.
Import PIL.

(** The files of a directory outside a set of paths are as they were. *)
Definition same_outside (written : string -> Prop) (fs fs' : filesystem) : Prop :=
  forall path, ~ written path -> fs' !! path = fs !! path.

Lemma same_outside_refl written fs : same_outside written fs fs.
Proof. intros path _. reflexivity. Qed.

Lemma same_outside_trans written fs1 fs2 fs3 :
  same_outside written fs1 fs2 -> same_outside written fs2 fs3 ->
  same_outside written fs1 fs3.
Proof.
  intros H12 H23 path Hpath. rewrite (H23 path Hpath). now apply H12.
Qed.

Lemma same_outside_save `{PIL.Extern} (written : string -> Prop) img path fs :
  written path -> same_outside written fs (PIL.save img path fs).
Proof.
  intros Hw other Hother. unfold PIL.save. apply lookup_insert_ne.
  intros <-. now apply Hother.
Qed.

End Directories.

Lemma length_append (s1 s2 : string) :
  String.length (s1 +:+ s2) = (String.length s1 + String.length s2)%nat.
Proof.
  induction s1 as [|c s1 IH]; [reflexivity|].
  change (S (String.length (s1 +:+ s2))
          = S (String.length s1 + String.length s2)%nat).
  now f_equal.
Qed.

(** ** More on the recolorizer *)

Section RecolorMore.
Import PIL recolor_sprites.

(** A grey pixel (black and white included) has saturation 0 and is
    returned as it is, whatever the target. *)
Theorem recolor_pixel_grey (v a : Z) (th sb vb : float) :
  byte v -> recolor_pixel v v v a th sb vb = Ok (v, v, v, a).
Proof.
  intros Hv. destruct (pixel_hsv_bytes v v v Hv Hv Hv) as [h Hhsv].
  rewrite (recolor_pixel_cases _ _ _ _ _ _ _ _ _ _ Hhsv).
  replace (Z.max (Z.max v v) v) with v by lia.
  replace (Z.min (Z.min v v) v) with v by lia.
  unfold saturation. rewrite Z.eqb_refl.
  unfold in_blue_range.
  change (PrimFloat.ltb 0.15 0) with false. rewrite andb_false_r.
  now destruct (a <? 10).
Qed.

(** With a shipped target, recolouring an image of byte pixels returns an
    "RGBA" image of the same size, of byte pixels, whose alpha is at every
    pixel the alpha of the converted input. *)
Theorem recolor_image_bytes (c : config) (img : image) :
  shipped c ->
  (forall x y, inside img x y = true -> bytes_pixel (getpixel img x y)) ->
  exists out,
    recolor_image img (target_hue c) (sat_boost c) (val_boost c) = Ok out
    /\ im_mode out = RGBA /\ size out = size img
    /\ forall x y, inside img x y = true ->
         bytes_pixel (getpixel out x y)
         /\ alpha (getpixel out x y) = alpha (getpixel (convert_RGBA img) x y).
Proof.
  intros Hc Hbytes.
  destruct (recolor_image_pointwise c img Hc Hbytes)
    as (out & Hrun & Hmode & Hsize & Hpx).
  exists out. split; [exact Hrun|]. split; [exact Hmode|]. split; [exact Hsize|].
  intros x y Hxy. rewrite (Hpx x y Hxy).
  set (p := getpixel (convert_RGBA img) x y).
  assert (Hp : bytes_pixel p) by (apply convert_RGBA_bytes, Hbytes, Hxy).
  destruct (recolored_settles c p Hc Hp) as (_ & Hq & _).
  split; [exact Hq|].
  destruct Hp as (Hr & Hg & Hb & _).
  destruct (recolor_pixel_settles c (red p) (green p) (blue p) (alpha p)
              Hc Hr Hg Hb) as (r' & g' & b' & Hone & _).
  unfold recolored. now rewrite Hone.
Qed.

End RecolorMore.

(** ** The recolouring batch *)

Section RecolorBatch.
Import PIL recolor_sprites.
Context `{Extern}.

(** One round of the loop nest of [process_color]. *)
Definition recolor_round (color_name : string) (cfg : config) (direction : string)
  : filesystem * stdout * Z * Z -> Z -> result (filesystem * stdout * Z * Z) :=
  fun '(fs, out, count, skipped) frame =>
    let src_path := frame_name "blue" direction frame in
    let dst_path := frame_name color_name direction frame in
    match fs !! src_path with
    | None =>
        Ok (fs, print ("  [SKIP] Source not found: " +:+ src_path) out,
            count, skipped + 1)
    | Some src =>
        if st_size src <? 300 then
          Ok (fs, print ("  [WARN] Blue source too small: " +:+ src_path
                         +:+ " (" +:+ pretty (st_size src) +:+ "B)") out,
              count, skipped + 1)
        else
          img ← open fs src_path;
          recolored ← recolor_image img (target_hue cfg) (sat_boost cfg)
                        (val_boost cfg);
          Ok (save recolored dst_path fs, out, count + 1, skipped)
    end.

Lemma process_color_rounds color_name cfg fs out :
  process_color color_name cfg (fs, out)
  = ('(fs', out', count, skipped) ←
       for_each DIRECTIONS (fun st direction =>
         for_each (range FRAMES_PER_DIR) (recolor_round color_name cfg direction) st)
         (fs, print ("=== Recoloring blue -> " +:+ color_name +:+ " ===") out, 0, 0);
     Ok (fs', print ("  Recolored " +:+ pretty count +:+ " frames, skipped "
                     +:+ pretty skipped) out', count)).
Proof. reflexivity. Qed.

(** The frame files of one colour. *)
Definition frame_of (color_name : string) (path : string) : Prop :=
  exists direction frame,
    direction ∈ DIRECTIONS /\ 0 <= frame < FRAMES_PER_DIR
    /\ path = frame_name color_name direction frame.

Lemma recolor_round_writes color_name cfg direction st frame st' :
  direction ∈ DIRECTIONS -> frame ∈ range FRAMES_PER_DIR ->
  recolor_round color_name cfg direction st frame = Ok st' ->
  same_outside (frame_of color_name) st.1.1.1 st'.1.1.1.
Proof.
  intros Hd Hf. destruct st as [[[fs out] count] skipped].
  unfold recolor_round. cbv zeta.
  destruct (fs !! frame_name "blue" direction frame) as [src|].
  - destruct (st_size src <? 300).
    + intros [= <-]. apply same_outside_refl.
    + unfold mbind, result_bind, bind.
      destruct (open fs _); [|discriminate].
      destruct (recolor_image _ _ _ _); [|discriminate].
      intros [= <-]. cbn [fst]. apply same_outside_save.
      exists direction, frame. split; [exact Hd|]. split; [|reflexivity].
      unfold range in Hf. apply elem_of_seqZ in Hf. lia.
  - intros [= <-]. apply same_outside_refl.
Qed.

(** [process_color] writes the frame files of the target colour and nothing
    else: every other path of the directory holds what it held. *)
Theorem process_color_writes (color_name : string) (cfg : config)
    (fs fs' : filesystem) (out out' : stdout) (count : Z) :
  process_color color_name cfg (fs, out) = Ok (fs', out', count) ->
  forall path, ~ frame_of color_name path -> fs' !! path = fs !! path.
Proof.
  rewrite process_color_rounds. unfold mbind at 1, result_bind, bind.
  destruct (for_each DIRECTIONS _ _) as [[[[fs1 out1] count1] skipped1]|] eqn:Hrun;
    [|discriminate].
  intros [= <- _ _].
  apply (for_each_preserves (same_outside (frame_of color_name))
           (fun st : filesystem * stdout * Z * Z => st.1.1.1)) in Hrun.
  - exact Hrun.
  - apply same_outside_refl.
  - apply same_outside_trans.
  - intros st direction st' Hd.
    apply (for_each_preserves (same_outside (frame_of color_name))
             (fun st : filesystem * stdout * Z * Z => st.1.1.1)).
    + apply same_outside_refl.
    + apply same_outside_trans.
    + intros st1 frame st2 Hf. now apply recolor_round_writes.
Qed.

(** The slots of the loop nest, in the order it visits them. *)
Definition blue_slots : list (Z * string) :=
  direction ← DIRECTIONS; frame ← range FRAMES_PER_DIR; [(frame, direction)].

(** A blue frame the loop recolours: present, and of 300 bytes at least. *)
Definition usable (fs : filesystem) (slot : Z * string) : bool :=
  match fs !! frame_name "blue" slot.2 slot.1 with
  | Some src => negb (st_size src <? 300)
  | None => false
  end.

Definition usable_count (fs : filesystem) (slots : list (Z * string)) : Z :=
  Z.of_nat (length (List.filter (usable fs) slots)).

(** No frame file of the colour is a blue source. *)
Definition apart_from_blue (color_name : string) : Prop :=
  forall slot, slot ∈ blue_slots ->
    ~ frame_of color_name (frame_name "blue" slot.2 slot.1).

Lemma blue_slots_spec slot :
  slot ∈ blue_slots <-> slot.2 ∈ DIRECTIONS /\ 0 <= slot.1 < FRAMES_PER_DIR.
Proof.
  destruct slot as [frame direction]. unfold blue_slots. cbn [fst snd].
  rewrite list_elem_of_bind. split.
  - intros (d & Hin & Hd). apply list_elem_of_bind in Hin as (f & Hin & Hf).
    apply list_elem_of_singleton in Hin. injection Hin as -> ->.
    split; [exact Hd|]. unfold range in Hf. apply elem_of_seqZ in Hf. lia.
  - intros [Hd Hf]. exists direction. split; [|exact Hd].
    apply list_elem_of_bind. exists frame. split; [now left|].
    unfold range. apply elem_of_seqZ. lia.
Qed.

Lemma recolor_rounds_count color_name cfg fs0 slots :
  apart_from_blue color_name ->
  (forall slot, slot ∈ slots -> slot ∈ blue_slots) ->
  forall fs out count skipped fs' out' count' skipped',
    (forall slot, slot ∈ blue_slots ->
       fs !! frame_name "blue" slot.2 slot.1
       = fs0 !! frame_name "blue" slot.2 slot.1) ->
    for_each slots (fun st slot => recolor_round color_name cfg slot.2 st slot.1)
      (fs, out, count, skipped) = Ok (fs', out', count', skipped') ->
    count' = count + usable_count fs0 slots
    /\ skipped' = skipped + (Z.of_nat (length slots) - usable_count fs0 slots).
Proof.
  intros Hapart. induction slots as [|slot slots IH];
    intros Hslots fs out count skipped fs' out' count' skipped' Hblue Hrun.
  - injection Hrun as _ _ <- <-. unfold usable_count. cbn. lia.
  - cbn [for_each] in Hrun.
    assert (Hslot : slot ∈ blue_slots) by (apply Hslots; left).
    assert (Hrest : forall s, s ∈ slots -> s ∈ blue_slots)
      by (intros; apply Hslots; now right).
    assert (Hfilter : forall u, usable fs0 slot = u ->
              usable_count fs0 (slot :: slots)
              = (if u then 1 else 0) + usable_count fs0 slots).
    { intros u <-. unfold usable_count. cbn [List.filter].
      destruct (usable fs0 slot); cbn [length]; lia. }
    unfold recolor_round at 1 in Hrun. cbv zeta in Hrun.
    destruct (fs !! frame_name "blue" slot.2 slot.1) as [src|] eqn:Hsrc.
    + destruct (st_size src <? 300) eqn:Hsmall.
      * rewrite (Hfilter false)
          by (unfold usable; now rewrite <- (Hblue slot Hslot), Hsrc, Hsmall).
        destruct (IH Hrest _ _ _ _ _ _ _ _ Hblue Hrun) as [-> ->].
        cbn [length]. lia.
      * rewrite (Hfilter true)
          by (unfold usable; now rewrite <- (Hblue slot Hslot), Hsrc, Hsmall).
        unfold mbind, result_bind, bind in Hrun.
        destruct (open fs _); [|discriminate].
        destruct (recolor_image _ _ _ _) as [recolored|]; [|discriminate].
        assert (Hblue' : forall s, s ∈ blue_slots ->
                  save recolored (frame_name color_name slot.2 slot.1) fs
                    !! frame_name "blue" s.2 s.1
                  = fs0 !! frame_name "blue" s.2 s.1).
        { intros s Hs. rewrite <- (Hblue s Hs). unfold save.
          apply lookup_insert_ne. intros Heq. apply (Hapart s Hs).
          apply blue_slots_spec in Hslot as [Hd Hf].
          exists slot.2, slot.1. split; [exact Hd|]. split; [exact Hf|].
          now rewrite <- Heq. }
        destruct (IH Hrest _ _ _ _ _ _ _ _ Hblue' Hrun) as [-> ->].
        cbn [length]. lia.
    + rewrite (Hfilter false)
        by (unfold usable; now rewrite <- (Hblue slot Hslot), Hsrc).
      destruct (IH Hrest _ _ _ _ _ _ _ _ Hblue Hrun) as [-> ->].
      cbn [length]. lia.
Qed.

(** When no frame file of the target colour is a blue source, the count
    [process_color] returns is the number of blue frames that are present
    with at least 300 bytes, and its last line reports that count and, as
    skipped, the rest of the twelve. *)
Theorem process_color_count (color_name : string) (cfg : config)
    (fs fs' : filesystem) (out out' : stdout) (count : Z) :
  apart_from_blue color_name ->
  process_color color_name cfg (fs, out) = Ok (fs', out', count) ->
  count = usable_count fs blue_slots
  /\ 0 <= count <= 12
  /\ last out' = Some ("  Recolored " +:+ pretty count +:+ " frames, skipped "
                       +:+ pretty (12 - count)).
Proof.
  intros Hapart. rewrite process_color_rounds.
  pose proof (for_each_nested DIRECTIONS (range FRAMES_PER_DIR)
                (fun st slot => recolor_round color_name cfg slot.2 st slot.1))
    as Hflat.
  cbn [fst snd] in Hflat. fold blue_slots in Hflat.
  unfold mbind at 1, result_bind, bind.
  destruct (for_each DIRECTIONS _ _) as [[[[fs1 out1] count1] skipped1]|] eqn:Hrun;
    [|discriminate].
  intros [= <- <- <-].
  rewrite Hflat in Hrun.
  apply (recolor_rounds_count color_name cfg fs) in Hrun as [Hcount Hskipped];
    [|exact Hapart | auto | reflexivity].
  assert (Hbound : 0 <= usable_count fs blue_slots <= 12).
  { unfold usable_count.
    pose proof (List.filter_length_le (usable fs) blue_slots) as Hle.
    change (length blue_slots) with 12%nat in Hle.
    apply Nat2Z.inj_le in Hle. change (Z.of_nat 12) with 12 in Hle.
    split; [apply Nat2Z.is_nonneg | exact Hle]. }
  change (Z.of_nat (length blue_slots)) with 12 in Hskipped.
  split; [lia|]. split; [lia|].
  assert (skipped1 = 12 - count1) as -> by lia.
  unfold print. now rewrite last_snoc.
Qed.

(** The colours the script ships are apart from blue. *)
Lemma shipped_apart_from_blue color_name :
  color_name ∈ RECOLOR_TARGETS.*1 -> apart_from_blue color_name.
Proof.
  intros Hc slot Hslot (direction & frame & Hd & Hf & Heq).
  assert (Hhead : forall color' rest rest',
            "char_blue" +:+ rest = "char_" +:+ color' +:+ rest' ->
            color' ∈ RECOLOR_TARGETS.*1 -> False).
  { intros color' rest rest' Hsame Hin. apply list_elem_of_In in Hin.
    cbn in Hin. destruct Hin as [<-|[<-|[]]]; discriminate Hsame. }
  apply (Hhead color_name
           ("_" +:+ slot.2 +:+ "_" +:+ pretty slot.1 +:+ ".png")
           ("_" +:+ direction +:+ "_" +:+ pretty frame +:+ ".png"));
    [|exact Hc].
  exact Heq.
Qed.

End RecolorBatch.

(** ** The sheet builder writes sheets only *)

Section SheetFiles.
Import PIL build_sprite_sheets.
Context `{Extern}.

Lemma build_sheet_writes kind frames_per_dir subject fs out fs' out' :
  build_sheet kind frames_per_dir subject (fs, out) = Ok (fs', out') ->
  same_outside (fun path => path = sheet_name kind subject) fs fs'.
Proof.
  unfold build_sheet. destruct (negb (exists_ fs _)).
  - intros [= <- _]. apply same_outside_refl.
  - unfold mbind, result_bind, bind.
    destruct (open fs _) as [sample|]; [|discriminate].
    destruct (size sample) as [fw fh].
    destruct (for_each _ _ _) as [[sheet missing]|]; [|discriminate].
    intros [= <- _]. now apply same_outside_save.
Qed.

(** The sheet files the two builders can write. *)
Definition sheet_names : list string :=
  (sheet_name "char" <$> CHAR_COLORS) ++ (sheet_name "animal" <$> ANIMALS).

Lemma build_sheets_write kind frames_per_dir subjects st st' :
  (forall subject, subject ∈ subjects -> sheet_name kind subject ∈ sheet_names) ->
  for_each subjects (fun st subject => build_sheet kind frames_per_dir subject st) st
  = Ok st' ->
  same_outside (fun path => path ∈ sheet_names) st.1 st'.1.
Proof.
  intros Hsubjects.
  apply (for_each_preserves (same_outside (fun path => path ∈ sheet_names))
           (fun st : filesystem * stdout => st.1)).
  - apply same_outside_refl.
  - apply same_outside_trans.
  - intros [fs1 out1] subject [fs2 out2] Hsubject Hstep.
    apply build_sheet_writes in Hstep. intros path Hpath. apply Hstep.
    intros ->. apply Hpath, Hsubjects, Hsubject.
Qed.

(** A run of the sheet builder that returns has written sheet files and
    nothing else: every frame file, and every other path that is not one of
    the fourteen sheet names, holds what it held. *)
Theorem sheet_builder_writes_sheets_only (fs fs' : filesystem) (out out' : stdout) :
  main (fs, out) = Ok (fs', out') ->
  forall path, path ∉ sheet_names -> fs' !! path = fs !! path.
Proof.
  unfold main, build_character_sheets, build_animal_sheets.
  unfold mbind, result_bind, bind.
  destruct (for_each CHAR_COLORS _ _) as [[fs1 out1]|] eqn:Hchars; [|discriminate].
  destruct (for_each ANIMALS _ _) as [[fs2 out2]|] eqn:Hanimals; [|discriminate].
  intros [= <- _].
  apply build_sheets_write in Hchars.
  - apply build_sheets_write in Hanimals.
    + cbn [fst] in *. intros path Hpath.
      rewrite (Hanimals path Hpath). now apply Hchars.
    + intros subject Hsubject. unfold sheet_names.
      apply elem_of_app. right. now apply list_elem_of_fmap_2.
  - intros subject Hsubject. unfold sheet_names.
    apply elem_of_app. left. now apply list_elem_of_fmap_2.
Qed.

End SheetFiles.

(** ** The normalizer's batches *)

Section NormalizerBatches.
Import PIL process_all_sprites.
Context `{Extern}.

(** Once a file has a backup, [backup_file] leaves the directory alone:
    whatever has become of the file itself, the first backup stays; and a
    backup that was made holds what the file held then. *)
Theorem backup_file_keeps_first (src : string) (fs fs1 fs2 : filesystem) (b : bool) :
  backup_file src fs = Ok (b, fs1) ->
  fs2 !! backup_name src = fs1 !! backup_name src ->
  backup_file src fs2 = Ok (false, fs2)
  /\ (fs !! backup_name src = None -> fs1 !! backup_name src = fs !! src).
Proof.
  unfold backup_file, copy2, exists_. intros Hfirst Hsame.
  assert (Hthere : is_Some (fs1 !! backup_name src)
                   /\ (fs !! backup_name src = None ->
                       fs1 !! backup_name src = fs !! src)).
  { destruct (decide (is_Some (fs !! backup_name src))) as [Hyes|Hno].
    - rewrite bool_decide_eq_true_2 in Hfirst by exact Hyes.
      injection Hfirst as _ <-. split; [exact Hyes|].
      intros Hnone. rewrite Hnone in Hyes. now destruct Hyes.
    - rewrite bool_decide_eq_false_2 in Hfirst by exact Hno.
      cbn [negb] in Hfirst. destruct (fs !! src) as [f|]; [|discriminate].
      cbn [mbind result_bind bind] in Hfirst. injection Hfirst as _ <-.
      rewrite lookup_insert_eq. split; [now eexists | reflexivity]. }
  destruct Hthere as [Hthere Hheld]. split; [|exact Hheld].
  rewrite bool_decide_eq_true_2; [reflexivity|]. now rewrite Hsame.
Qed.

(** [process_sprite] writes to [src] only. *)
Lemma process_sprite_writes src tw th use_lanczos fs b fs' :
  process_sprite src tw th use_lanczos fs = Ok (b, fs') ->
  same_outside (fun path => path = src) fs fs'.
Proof.
  unfold process_sprite, mbind, result_bind, bind.
  destruct (read fs src); [|discriminate].
  destruct (remove _); [|discriminate].
  destruct (open_bytes _); [|discriminate].
  destruct (_ || _); [intros [= _ <-]; apply same_outside_refl|].
  destruct (int_truediv tw _); [|discriminate].
  destruct (int_truediv th _); [|discriminate].
  destruct (int_of_float _); [|discriminate].
  destruct (int_of_float _); [|discriminate].
  destruct (resize _ _ _ _); [|discriminate].
  intros [= _ <-]. now apply same_outside_save.
Qed.

Lemma try_process_sprite_writes src tw th use_lanczos count_ok fs out count :
  same_outside (fun path => path = src) fs
    (try_process_sprite src tw th use_lanczos count_ok (fs, out, count)).1.1.
Proof.
  unfold try_process_sprite.
  destruct (process_sprite src tw th use_lanczos fs) as [[[] fs']|] eqn:Hrun;
    cbn [fst]; try apply same_outside_refl;
    eapply process_sprite_writes; eassumption.
Qed.

(** The guarded call adds one line to the output and at most one to the
    count. *)
Lemma try_process_sprite_log src tw th use_lanczos fs out count :
  let st' := try_process_sprite src tw th use_lanczos true (fs, out, count) in
  length st'.1.2 = S (length out) /\ count <= st'.2 <= count + 1.
Proof.
  cbv zeta. unfold try_process_sprite, print.
  destruct (process_sprite src tw th use_lanczos fs) as [[[] fs']|];
    cbn [fst snd]; rewrite length_app; cbn [length]; lia.
Qed.

(** What a visit of the listed files leaves behind. *)
Lemma visited_log tw th files st st' :
  visited tw th files st st' ->
  length st'.1.2 = (length st.1.2 + 2 * length files)%nat
  /\ st.2 <= st'.2 <= st.2 + Z.of_nat (length files).
Proof.
  induction 1 as [st|src rest fs out count backed_up fs1 st' Hbackup Hrest IH].
  - cbn [length]. lia.
  - cbn [fst snd] in *.
    set (out1 := print _ out) in *.
    destruct (try_process_sprite_log src tw th false fs1 out1 count) as [Hlen Hcount].
    cbv zeta in Hlen, Hcount.
    assert (Hout1 : length out1 = S (length out)).
    { unfold out1, print. rewrite length_app. cbn [length]. lia. }
    destruct IH as [IHlen IHcount]. cbn [length]. lia.
Qed.

Lemma visited_keeps tw th files st st' :
  visited tw th files st st' ->
  (forall path content, path ∉ files -> st.1.1 !! path = Some content ->
     st'.1.1 !! path = Some content)
  /\ (forall path, is_Some (st.1.1 !! path) -> is_Some (st'.1.1 !! path))
  /\ (forall f, f ∈ files -> is_Some (st'.1.1 !! backup_name f)).
Proof.
  induction 1 as [st|src rest fs out count backed_up fs1 st' Hbackup Hrest IH].
  - split; [auto|]. split; [auto|]. intros f Hf. inversion Hf.
  - cbn [fst snd] in *. set (out1 := print _ out) in *.
    destruct IH as (IHkeep & IHsome & IHbackup).
    pose proof (try_process_sprite_writes src tw th false true fs1 out1 count)
      as Hwrites.
    pose proof (fun path => try_process_sprite_keeps_files src tw th false true
                              fs1 out1 count path) as Hsome.
    assert (Hfirst : (forall path content, fs !! path = Some content ->
                        fs1 !! path = Some content)
                     /\ is_Some (fs1 !! backup_name src)).
    { unfold backup_file, copy2, exists_ in Hbackup.
      destruct (decide (is_Some (fs !! backup_name src))) as [Hyes|Hno].
      - rewrite bool_decide_eq_true_2 in Hbackup by exact Hyes.
        injection Hbackup as _ <-. split; [auto | exact Hyes].
      - rewrite bool_decide_eq_false_2 in Hbackup by exact Hno.
        cbn [negb] in Hbackup. destruct (fs !! src) as [f|]; [|discriminate].
        cbn [mbind result_bind bind] in Hbackup. injection Hbackup as _ <-.
        split; [|rewrite lookup_insert_eq; now eexists].
        intros path content Hpath. rewrite lookup_insert_ne; [exact Hpath|].
        intros <-. apply Hno. exists content. exact Hpath. }
    destruct Hfirst as [Hkept Hbacked].
    split; [|split].
    + intros path content Hpath Hcontent. apply IHkeep.
      * intros Hin. apply Hpath. now right.
      * rewrite Hwrites; [now apply Hkept|]. intros ->. apply Hpath. left.
    + intros path [content Hcontent]. apply IHsome, Hsome.
      exists content. now apply Hkept.
    + intros f Hf. apply elem_of_cons in Hf as [->|Hf]; [|now apply IHbackup].
      apply IHsome, Hsome, Hbacked.
Qed.

(** The listed files of [process_characters]. *)
Definition char_files (fs : filesystem) : list string :=
  List.filter (fun f => negb (mentions_sheet (stem f)))
    (sorted_glob fs "char_*_*.png").

Lemma process_characters_visited (fs : filesystem) (out : stdout) :
  (forall f, f ∈ sorted_glob fs "char_*_*.png" -> is_Some (fs !! f)) ->
  exists fs' out' count,
    process_characters (fs, out)
    = Ok (fs', print ("  Processed " +:+ pretty count +:+ " character sprites.") out',
          count)
    /\ visited 48 64 (char_files fs)
         (fs, print "=== Processing Character Sprites ===" out, 0)
         (fs', out', count).
Proof.
  intros Hfiles.
  destruct (visit_all 48 64 (char_files fs)
              (fs, print "=== Processing Character Sprites ===" out, 0))
    as ([[fs' out'] count] & Hrun & Hvisited).
  { intros f Hf. apply Hfiles. apply list_elem_of_In in Hf.
    apply List.filter_In in Hf as [Hf _]. now apply list_elem_of_In. }
  exists fs', out', count. split; [|exact Hvisited].
  unfold process_characters, CHAR_SIZE. cbn [fst snd].
  change (fun '(fs0, out0, count0) src => _) with (visit 48 64) at 1.
  fold (char_files fs). now rewrite Hrun.
Qed.

(** When the listed files exist, [process_characters] returns; it has
    printed its heading, two pieces per listed file (the status and one of
    OK, EMPTY and ERROR) and its summary; and the count it returns is at most
    the number of listed files. *)
Theorem process_characters_log (fs : filesystem) (out : stdout) :
  (forall f, f ∈ sorted_glob fs "char_*_*.png" -> is_Some (fs !! f)) ->
  exists fs' out' count,
    process_characters (fs, out) = Ok (fs', out', count)
    /\ length out' = (length out + 2 * length (char_files fs) + 2)%nat
    /\ last out' = Some ("  Processed " +:+ pretty count +:+ " character sprites.")
    /\ 0 <= count <= Z.of_nat (length (char_files fs)).
Proof.
  intros Hfiles.
  destruct (process_characters_visited fs out Hfiles)
    as (fs' & out' & count & Hrun & Hvisited).
  apply visited_log in Hvisited as [Hlen Hcount]. cbn [fst snd] in Hlen, Hcount.
  exists fs', (print ("  Processed " +:+ pretty count +:+ " character sprites.") out'),
    count.
  split; [exact Hrun|]. unfold print in *.
  split; [rewrite length_app in *; cbn [length] in *; lia|].
  split; [apply last_snoc | lia].
Qed.

(** When the listed files exist, [process_characters] changes no existing
    file other than the listed ones (an existing backup in particular) and
    removes none; and afterwards every listed file has a backup. *)
Theorem process_characters_keeps_files (fs : filesystem) (out : stdout) :
  (forall f, f ∈ sorted_glob fs "char_*_*.png" -> is_Some (fs !! f)) ->
  exists fs' out' count,
    process_characters (fs, out) = Ok (fs', out', count)
    /\ (forall path content, path ∉ char_files fs -> fs !! path = Some content ->
          fs' !! path = Some content)
    /\ (forall path, is_Some (fs !! path) -> is_Some (fs' !! path))
    /\ (forall f, f ∈ char_files fs -> is_Some (fs' !! backup_name f)).
Proof.
  intros Hfiles.
  destruct (process_characters_visited fs out Hfiles)
    as (fs' & out' & count & Hrun & Hvisited).
  apply visited_keeps in Hvisited. cbn [fst snd] in Hvisited.
  eexists _, _, _. split; [exact Hrun|]. exact Hvisited.
Qed.

(** One round of the loop of [process_buildings]. *)
Definition building_round
  : filesystem * stdout * Z -> string * (Z * Z) -> result (filesystem * stdout * Z) :=
  fun '(fs, out, count) '(name, (tw, th)) =>
    let src := name +:+ ".png" in
    if negb (exists_ fs src) then
      Ok (fs, print ("  [SKIP] " +:+ name +:+ ".png not found") out, count)
    else
      let orig := "originals_backup/" +:+ name +:+ "_original.png" in
      fs ← (if exists_ fs orig then copy2 orig src fs
            else '(_, fs) ← backup_file src fs; Ok fs);
      let out := print ("  [REMBG] " +:+ name +:+ ".png -> " +:+ pretty tw +:+ "x"
                        +:+ pretty th +:+ " ...") out in
      Ok (try_process_sprite src tw th true false (fs, out, count)).

Lemma process_buildings_rounds fs out :
  process_buildings (fs, out)
  = ('(fs', out', _) ←
       for_each BUILDING_SIZES building_round
         (fs, print "=== Processing Building Sprites ===" out, 0);
     Ok (fs', out')).
Proof. reflexivity. Qed.

(** [st'] has every file of [st]. *)
Definition keeps_files (fs fs' : filesystem) : Prop :=
  forall path, is_Some (fs !! path) -> is_Some (fs' !! path).

Lemma keeps_files_insert fs path f : keeps_files fs (<[path := f]> fs).
Proof.
  intros other Hother. destruct (decide (path = other)) as [<-|Hne].
  - rewrite lookup_insert_eq. now eexists.
  - now rewrite lookup_insert_ne.
Qed.

(** Every copy of a round is guarded by an existence test, and the call of
    [process_sprite] by its handler. *)
Lemma building_round_returns st building :
  exists st', building_round st building = Ok st' /\ keeps_files st.1.1 st'.1.1.
Proof.
  destruct st as [[fs out] count], building as [name [tw th]].
  unfold building_round. cbv zeta. unfold exists_. cbn [fst].
  destruct (decide (is_Some (fs !! (name +:+ ".png")))) as [[f Hsrc]|Hno].
  - rewrite (bool_decide_eq_true_2 (is_Some (fs !! (name +:+ ".png"))))
      by (now exists f).
    cbn [negb].
    assert (Hcopy : exists fs2,
              (if bool_decide (is_Some (fs !! ("originals_backup/" +:+ name
                                               +:+ "_original.png")))
               then copy2 ("originals_backup/" +:+ name +:+ "_original.png")
                      (name +:+ ".png") fs
               else '(_, fs) ← backup_file (name +:+ ".png") fs; Ok fs)
              = Ok fs2 /\ keeps_files fs fs2).
    { destruct (decide (is_Some (fs !! ("originals_backup/" +:+ name
                                        +:+ "_original.png"))))
        as [[g Horig]|Hnone].
      - rewrite bool_decide_eq_true_2 by (now exists g).
        unfold copy2. rewrite Horig. eexists. split; [reflexivity|].
        apply keeps_files_insert.
      - rewrite bool_decide_eq_false_2 by exact Hnone.
        unfold backup_file, copy2, exists_. rewrite Hsrc.
        destruct (negb _); cbn [mbind result_bind bind].
        + eexists. split; [reflexivity|]. apply keeps_files_insert.
        + eexists. split; [reflexivity|]. intros path Hpath. exact Hpath. }
    destruct Hcopy as (fs2 & -> & Hkeep2). cbn [mbind result_bind bind].
    eexists. split; [reflexivity|].
    intros path Hpath. apply try_process_sprite_keeps_files, Hkeep2, Hpath.
  - rewrite bool_decide_eq_false_2 by exact Hno. cbn [negb].
    eexists. split; [reflexivity|]. intros path Hpath. exact Hpath.
Qed.

Lemma building_rounds_return fs out :
  exists st',
    for_each BUILDING_SIZES building_round
      (fs, print "=== Processing Building Sprites ===" out, 0) = Ok st'
    /\ keeps_files fs st'.1.1.
Proof.
  apply (for_each_returns (fun st : filesystem * stdout * Z => keeps_files fs st.1.1)).
  - intros path Hpath. exact Hpath.
  - intros st building _ Hinv.
    destruct (building_round_returns st building) as (st' & Hstep & Hkeep).
    exists st'. split; [exact Hstep|].
    intros path Hpath. apply Hkeep, Hinv, Hpath.
Qed.

(** [process_buildings] returns on every directory, whatever it holds, and
    removes no file of it. *)
Theorem process_buildings_returns (fs : filesystem) (out : stdout) :
  exists fs' out',
    process_buildings (fs, out) = Ok (fs', out')
    /\ forall path, is_Some (fs !! path) -> is_Some (fs' !! path).
Proof.
  destruct (building_rounds_return fs out) as ([[fs' out'] count] & Hrun & Hkeep).
  exists fs', out'. split; [|exact Hkeep].
  rewrite process_buildings_rounds. now rewrite Hrun.
Qed.

(** The backup of a building is never the building's own file. *)
Lemma original_apart name :
  "originals_backup/" +:+ name +:+ "_original.png" <> name +:+ ".png".
Proof.
  intros Heq. apply (f_equal String.length) in Heq.
  rewrite !length_append in Heq. cbn in Heq. lia.
Qed.

(** Once a building has a backup, a round of [process_buildings] starts from
    the backup: its outcome does not depend on what the building's file
    holds at the time. *)
Theorem building_round_from_backup (name : string) (tw th : Z)
    (fs : filesystem) (out : stdout) (count : Z) (original current : file) :
  fs !! ("originals_backup/" +:+ name +:+ "_original.png") = Some original ->
  building_round (<[name +:+ ".png" := current]> fs, out, count) (name, (tw, th))
  = building_round (<[name +:+ ".png" := original]> fs, out, count) (name, (tw, th)).
Proof.
  intros Horiginal.
  assert (Hround : forall held,
            building_round (<[name +:+ ".png" := held]> fs, out, count)
              (name, (tw, th))
            = Ok (try_process_sprite (name +:+ ".png") tw th true false
                    (<[name +:+ ".png" := original]> fs,
                     print ("  [REMBG] " +:+ name +:+ ".png -> " +:+ pretty tw
                            +:+ "x" +:+ pretty th +:+ " ...") out, count))).
  { intros held. unfold building_round. cbv zeta. unfold exists_.
    rewrite bool_decide_eq_true_2 by (rewrite lookup_insert_eq; now eexists).
    cbn [negb].
    assert (Hthere : <[name +:+ ".png" := held]> fs
                       !! ("originals_backup/" +:+ name +:+ "_original.png")
                     = Some original).
    { rewrite lookup_insert_ne; [exact Horiginal|].
      intros Heq. symmetry in Heq. now apply original_apart in Heq. }
    rewrite bool_decide_eq_true_2 by (rewrite Hthere; now eexists).
    unfold copy2. rewrite Hthere. cbn [mbind result_bind bind].
    now rewrite insert_insert_eq. }
  now rewrite !Hround.
Qed.

Lemma process_animals_visited (fs : filesystem) (out : stdout) :
  (forall f, f ∈ sorted_glob fs "animal_*.png" -> is_Some (fs !! f)) ->
  exists fs' out' count,
    process_animals (fs, out) = Ok (fs', out', count) /\ keeps_files fs fs'.
Proof.
  intros Hfiles.
  destruct (visit_all 48 48
              (List.filter (fun f => negb (mentions_sheet (stem f)))
                 (sorted_glob fs "animal_*.png"))
              (fs, print "=== Processing Animal Sprites ===" out, 0))
    as ([[fs' out'] count] & Hrun & Hvisited).
  { intros f Hf. apply Hfiles. apply list_elem_of_In in Hf.
    apply List.filter_In in Hf as [Hf _]. now apply list_elem_of_In. }
  apply visited_keeps in Hvisited as (_ & Hsome & _). cbn [fst] in Hsome.
  eexists fs', _, count. split; [|exact Hsome].
  unfold process_animals, ANIMAL_SIZE. cbn [fst snd].
  change (fun '(fs0, out0, count0) src => _) with (visit 48 48) at 1.
  now rewrite Hrun.
Qed.

(** When [glob] lists files of the directory only, a whole run of the
    normalizer returns: no exception leaves [main], and no file is
    removed. *)
Theorem normalizer_returns (fs : filesystem) (out : stdout) :
  (forall fs pattern f, f ∈ sorted_glob fs pattern -> is_Some (fs !! f)) ->
  exists fs' out',
    main (fs, out) = Ok (fs', out')
    /\ forall path, is_Some (fs !! path) -> is_Some (fs' !! path).
Proof.
  intros Hglob. unfold main. rewrite process_buildings_rounds.
  destruct (building_rounds_return fs
              (print rule (print "  AIFarm Sprite Processor - rembg + resize"
                             (print rule out))))
    as ([[fs1 out1] count1] & -> & Hkeep1).
  cbn [mbind result_bind bind fst] in *.
  destruct (process_characters_visited fs1 out1 (Hglob fs1 _))
    as (fs2 & out2 & count2 & -> & Hvisited).
  apply visited_keeps in Hvisited as (_ & Hkeep2 & _). cbn [fst] in Hkeep2.
  cbn [mbind result_bind bind].
  match goal with
  | |- context [process_animals (fs2, ?summary)] =>
      destruct (process_animals_visited fs2 summary (Hglob fs2 _))
        as (fs3 & out3 & count3 & -> & Hkeep3)
  end.
  cbn [mbind result_bind bind].
  eexists _, _. split; [reflexivity|].
  intros path Hpath. apply Hkeep3, Hkeep2, Hkeep1, Hpath.
Qed.

End NormalizerBatches.

(** ** The pixelation pass keeps every sprite's dimensions *)

Section PixelateBatches.
Import PIL pixelate_sprites.
Context `{Extern}.

Lemma resize_size img w h f out :
  resize img w h f = Ok out -> size out = (w, h).
Proof.
  unfold resize. destruct ((width img =? w) && (height img =? h)) eqn:Hsame.
  - intros [= <-]. apply andb_prop in Hsame as [Hw Hh].
    apply Z.eqb_eq in Hw, Hh. unfold size. now rewrite Hw, Hh.
  - destruct ((w <? 1) || (h <? 1)); [discriminate|]. now intros [= <-].
Qed.

Lemma merge_RGBA_size r g b a out :
  merge_RGBA r g b a = Ok out -> size out = size r.
Proof.
  unfold merge_RGBA. destruct (_ && _); [|discriminate]. now intros [= <-].
Qed.

(** Whenever [pixelate] returns, for whatever mode and factor, its result
    has the size of its input. *)
Lemma pixelate_size img factor out :
  pixelate img factor = Ok out -> size out = size img.
Proof.
  unfold pixelate. cbn [size]. unfold mbind, result_bind, bind.
  destruct (int_of_float _) as [sw|]; [|discriminate].
  destruct (int_of_float _) as [sh|]; [|discriminate].
  destruct (bool_decide (im_mode img = RGBA)).
  - cbn [split].
    destruct (merge_RGB _ _ _) as [rgb|]; [|discriminate].
    destruct (resize rgb _ _ _) as [small_rgb|]; [|discriminate].
    destruct (resize small_rgb _ _ _) as [pixel_rgb|] eqn:Hrgb; [|discriminate].
    destruct (resize (band img alpha) _ _ _) as [small_a|]; [|discriminate].
    destruct (resize small_a _ _ _) as [pixel_a|]; [|discriminate].
    cbn [split_RGB]. intros Hout. apply merge_RGBA_size in Hout.
    apply resize_size in Hrgb. rewrite Hout. exact Hrgb.
  - destruct (resize img _ _ _) as [small|]; [|discriminate].
    apply resize_size.
Qed.

(** Whenever [quantize_colors] returns, its result has the size of its
    input. *)
Lemma quantize_colors_size img max_colors out :
  quantize_colors img max_colors = Ok out -> size out = size img.
Proof.
  unfold quantize_colors. destruct (_ || _); [now intros [= <-]|].
  cbn [split]. rewrite merge_RGB_bands. unfold mbind, result_bind, bind.
  destruct (median_cut _ max_colors) as [q|]; [|discriminate].
  cbn [split_RGB]. intros Hout. apply merge_RGBA_size in Hout.
  rewrite Hout. reflexivity.
Qed.

(** Every image file of [fs] is an image file of the same size in [fs']. *)
Definition keeps_sizes (fs fs' : filesystem) : Prop :=
  forall path dims, written_size fs path = Some dims ->
                    written_size fs' path = Some dims.

Lemma keeps_sizes_refl fs : keeps_sizes fs fs.
Proof. intros path dims Hdims. exact Hdims. Qed.

Lemma keeps_sizes_trans fs1 fs2 fs3 :
  keeps_sizes fs1 fs2 -> keeps_sizes fs2 fs3 -> keeps_sizes fs1 fs3.
Proof. intros H12 H23 path dims Hdims. apply H23, H12, Hdims. Qed.

Lemma pixelate_file_keeps_sizes path factor fs fs' :
  pixelate_file path factor fs = Ok fs' -> keeps_sizes fs fs'.
Proof.
  unfold pixelate_file, open, mbind, result_bind, bind.
  destruct (fs !! path) as [f|] eqn:Hfile; [|discriminate].
  destruct (decoded f) as [opened|] eqn:Hopened; [|discriminate].
  destruct (pixelate (convert_RGBA opened) factor) as [pixelated|] eqn:Hpix;
    [|discriminate].
  apply pixelate_size in Hpix.
  set (quantized := if 0 <? MAX_COLORS then quantize_colors pixelated MAX_COLORS
                    else Ok pixelated).
  assert (Hq : forall img, quantized = Ok img -> size img = size opened).
  { intros img. unfold quantized. destruct (0 <? MAX_COLORS).
    - intros Hq. apply quantize_colors_size in Hq. now rewrite Hq, Hpix.
    - intros [= <-]. exact Hpix. }
  destruct quantized as [img|]; [|discriminate].
  intros [= <-] other dims. unfold written_size, save.
  destruct (decide (path = other)) as [<-|Hne].
  - rewrite lookup_insert_eq, Hfile. cbn. rewrite Hopened. cbn.
    now rewrite (Hq img eq_refl).
  - now rewrite lookup_insert_ne.
Qed.

(** The pass writes to files that exist only. *)
Definition creates_none (fs fs' : filesystem) : Prop :=
  forall path, fs !! path = None -> fs' !! path = None.

Lemma pixelate_file_creates_none path factor fs fs' :
  pixelate_file path factor fs = Ok fs' -> creates_none fs fs'.
Proof.
  unfold pixelate_file, open, mbind, result_bind, bind.
  destruct (fs !! path) as [f|] eqn:Hfile; [|discriminate].
  destruct (decoded f); [|discriminate].
  destruct (pixelate _ _); [|discriminate].
  destruct (if 0 <? MAX_COLORS then _ else _); [|discriminate].
  intros [= <-] other Hother. unfold save.
  rewrite lookup_insert_ne; [exact Hother|]. intros <-. congruence.
Qed.

(** What every rewritten file keeps, the whole pass keeps. *)
Section Pass.
Variable R : filesystem -> filesystem -> Prop.
Hypothesis R_refl : forall fs, R fs fs.
Hypothesis R_trans : forall fs1 fs2 fs3, R fs1 fs2 -> R fs2 fs3 -> R fs1 fs3.
Hypothesis R_file :
  forall path factor fs fs', pixelate_file path factor fs = Ok fs' -> R fs fs'.

Lemma pixelate_frames_pass kind subject frames factor st st' :
  pixelate_frames kind subject frames factor st = Ok st' -> R st.1 st'.1.
Proof.
  unfold pixelate_frames.
  apply (for_each_preserves R (fun st : filesystem * Z => st.1));
    [exact R_refl | exact R_trans |].
  intros st1 direction st2 _.
  apply (for_each_preserves R (fun st : filesystem * Z => st.1));
    [exact R_refl | exact R_trans |].
  intros [fs1 count1] frame [fs2 count2] _. cbn [fst].
  destruct (negb _); [intros [= <- _]; apply R_refl|].
  unfold mbind, result_bind, bind.
  destruct (pixelate_file _ _ fs1) as [fs3|] eqn:Hfile; [|discriminate].
  intros [= <- _]. now apply R_file in Hfile.
Qed.

Lemma process_characters_pass fs out fs' out' :
  process_characters (fs, out) = Ok (fs', out') -> R fs fs'.
Proof.
  unfold process_characters. unfold mbind at 1, result_bind, bind.
  destruct (for_each CHAR_COLORS _ _) as [[[fs1 out1] count1]|] eqn:Hrun;
    [|discriminate].
  intros [= <- _].
  apply (for_each_preserves R (fun st : filesystem * stdout * Z => st.1.1)) in Hrun;
    [exact Hrun | exact R_refl | exact R_trans |].
  intros [[fs2 out2] count2] color [[fs3 out3] count3] _. cbn [fst].
  unfold mbind, result_bind, bind.
  destruct (pixelate_frames _ _ _ _ _) as [[fs4 count4]|] eqn:Hframes;
    [|discriminate].
  intros [= <- _ _]. now apply pixelate_frames_pass in Hframes.
Qed.

Lemma process_animals_pass fs out fs' out' :
  process_animals (fs, out) = Ok (fs', out') -> R fs fs'.
Proof.
  unfold process_animals. unfold mbind at 1, result_bind, bind.
  destruct (for_each ANIMALS _ _) as [[[fs1 out1] count1]|] eqn:Hrun;
    [|discriminate].
  intros [= <- _].
  apply (for_each_preserves R (fun st : filesystem * stdout * Z => st.1.1)) in Hrun;
    [exact Hrun | exact R_refl | exact R_trans |].
  intros [[fs2 out2] count2] animal [[fs3 out3] count3] _. cbn [fst].
  unfold mbind, result_bind, bind.
  destruct (pixelate_frames _ _ _ _ _) as [[fs4 count4]|] eqn:Hframes;
    [|discriminate].
  intros [= <- _ _]. now apply pixelate_frames_pass in Hframes.
Qed.

Lemma process_buildings_pass fs out fs' out' :
  process_buildings (fs, out) = Ok (fs', out') -> R fs fs'.
Proof.
  unfold process_buildings.
  apply (for_each_preserves R (fun st : filesystem * stdout => st.1));
    [exact R_refl | exact R_trans |].
  intros [fs1 out1] name [fs2 out2] _. cbn [fst].
  destruct (negb _); [intros [= <- _]; apply R_refl|].
  unfold mbind, result_bind, bind.
  destruct (pixelate_file _ _ fs1) as [fs3|] eqn:Hfile; [|discriminate].
  intros [= <- _]. now apply R_file in Hfile.
Qed.

Lemma main_pass fs out fs' out' :
  main (fs, out) = Ok (fs', out') -> R fs fs'.
Proof.
  unfold main. unfold mbind, result_bind, bind.
  destruct (process_characters _) as [[fs1 out1]|] eqn:Hchars; [|discriminate].
  destruct (process_animals _) as [[fs2 out2]|] eqn:Hanimals; [|discriminate].
  destruct (process_buildings _) as [[fs3 out3]|] eqn:Hbuildings; [|discriminate].
  intros [= <- _].
  apply process_characters_pass in Hchars.
  apply process_animals_pass in Hanimals.
  apply process_buildings_pass in Hbuildings.
  exact (R_trans _ _ _ Hchars (R_trans _ _ _ Hanimals Hbuildings)).
Qed.

End Pass.

(** A pixelation pass that returns has kept the dimensions of every image
    file of the directory (and so has removed none): pixelating and
    quantizing a frame never changes its size. *)
Theorem pixelation_keeps_sizes (fs fs' : filesystem) (out out' : stdout) :
  main (fs, out) = Ok (fs', out') ->
  forall path dims, written_size fs path = Some dims ->
                    written_size fs' path = Some dims.
Proof.
  apply (main_pass keeps_sizes keeps_sizes_refl keeps_sizes_trans).
  intros path factor. apply pixelate_file_keeps_sizes.
Qed.

(** A pixelation pass that returns has created no file: a frame or a
    building that is missing stays missing, and nothing is written beside
    the sprites. *)
Theorem pixelation_creates_no_file (fs fs' : filesystem) (out out' : stdout) :
  main (fs, out) = Ok (fs', out') ->
  forall path, fs !! path = None -> fs' !! path = None.
Proof.
  apply (main_pass creates_none).
  - intros fs0 path Hpath. exact Hpath.
  - intros fs1 fs2 fs3 H12 H23 path Hpath. apply H23, H12, Hpath.
  - intros path factor. apply pixelate_file_creates_none.
Qed.

End PixelateBatches.

(** ** The building processor backs up before it writes *)

Section BuildingBackup.
Import PIL process_building_sprites.
Context `{Extern}.

Lemma building_backup_held (name : string) (fs : filesystem) (out : stdout)
    (source : file) :
  fs !! (name +:+ ".png") = Some source ->
  (process_sprite name (fs, out)).1.1
    !! ("originals_backup/" +:+ name +:+ "_original.png")
  = Some (default source (fs !! ("originals_backup/" +:+ name +:+ "_original.png"))).
Proof.
  intros Hsource. unfold process_sprite. rewrite Hsource. cbv zeta.
  set (backup := "originals_backup/" +:+ name +:+ "_original.png").
  assert (Hbacked :
            (if negb (exists_ fs backup)
             then (<[backup := source]> fs,
                   print ("  [BACKUP] " +:+ name +:+ "_original.png") out)
             else (fs, out)).1 !! backup
            = Some (default source (fs !! backup))).
  { unfold exists_. destruct (decide (is_Some (fs !! backup))) as [[old Hold]|Hno].
    - rewrite bool_decide_eq_true_2 by (now exists old).
      cbn [negb fst]. now rewrite Hold.
    - rewrite bool_decide_eq_false_2 by exact Hno. cbn [negb fst].
      rewrite lookup_insert_eq.
      destruct (fs !! backup) as [old|] eqn:Hold; [|reflexivity].
      exfalso. apply Hno. now exists old. }
  destruct (if negb (exists_ fs backup) then _ else _) as [fs1 out1].
  cbn [fst] in Hbacked.
  destruct (building_size name) as [target_w target_h].
  match goal with
  | |- context [match ?rendered with Ok _ => _ | Raise _ => _ end] =>
      destruct rendered as [[[canvas new_w] new_h]|]
  end.
  - cbn [fst]. unfold save. rewrite lookup_insert_ne; [exact Hbacked|].
    intros Heq. symmetry in Heq. now apply original_apart in Heq.
  - exact Hbacked.
Qed.

(** For a building whose file exists, whether the processing succeeds or
    raises: the backup afterwards holds what it held before or, when there
    was none, the file as it was before the call; and no path other than the
    building's file and its backup has changed. *)
Theorem building_sprite_backs_up (name : string) (fs : filesystem) (out : stdout)
    (source : file) :
  fs !! (name +:+ ".png") = Some source ->
  (process_sprite name (fs, out)).1.1
    !! ("originals_backup/" +:+ name +:+ "_original.png")
  = Some (default source (fs !! ("originals_backup/" +:+ name +:+ "_original.png")))
  /\ forall path,
       path <> name +:+ ".png" ->
       path <> "originals_backup/" +:+ name +:+ "_original.png" ->
       (process_sprite name (fs, out)).1.1 !! path = fs !! path.
Proof.
  intros Hsource. split; [now apply building_backup_held|].
  intros path Hsrc Hbackup. unfold process_sprite. rewrite Hsource. cbv zeta.
  assert (Hfirst :
            (if negb (exists_ fs ("originals_backup/" +:+ name +:+ "_original.png"))
             then (<["originals_backup/" +:+ name +:+ "_original.png" := source]> fs,
                   print ("  [BACKUP] " +:+ name +:+ "_original.png") out)
             else (fs, out)).1 !! path = fs !! path).
  { destruct (negb _); cbn [fst]; [|reflexivity].
    apply lookup_insert_ne. congruence. }
  destruct (if negb _ then _ else _) as [fs1 out1]. cbn [fst] in Hfirst.
  destruct (building_size name) as [target_w target_h].
  match goal with
  | |- context [match ?rendered with Ok _ => _ | Raise _ => _ end] =>
      destruct rendered as [[[canvas new_w] new_h]|]
  end; cbn [fst]; [|exact Hfirst].
  unfold save. rewrite lookup_insert_ne; [exact Hfirst | congruence].
Qed.

(** The canvas of [process_sprite] of process_building_sprites.py.  When the
    call does not raise on a building whose file exists, it has stripped the
    background of the file and decoded it; it has scaled both sides of the
    cutout cropped to its content by the smaller of [target_w / width] and
    [target_h / height], (target_w, target_h) being the size the table gives
    the building; the content it pastes is that crop resized to those sides;
    and the file it leaves is the transparent "RGBA" canvas of the target size
    that shows the content, through the content's own alpha, in the box that
    is centred horizontally and rests on the bottom edge, and is transparent
    everywhere else. *)
Theorem building_sprite_canvas (name : string) (fs : filesystem) (out : stdout)
    (source : file) :
  fs !! (name +:+ ".png") = Some source ->
  (process_sprite name (fs, out)).2 = Ok () ->
  exists cut opened nw nh content,
    let target_w := (building_size name).1 in
    let target_h := (building_size name).2 in
    remove source = Ok cut /\ decoded cut = Some opened
    /\ scaled_side target_w target_h (cropped opened) (width (cropped opened))
       = Ok nw
    /\ scaled_side target_w target_h (cropped opened) (height (cropped opened))
       = Ok nh
    /\ resize (cropped opened) nw nh NEAREST = Ok content
    /\ size content = (nw, nh)
    /\ (process_sprite name (fs, out)).1.1 !! (name +:+ ".png")
       = Some (File (png_size (anchored target_w target_h content))
                 (Some (anchored target_w target_h content)))
    /\ im_mode (anchored target_w target_h content) = RGBA
    /\ size (anchored target_w target_h content) = building_size name
    /\ forall x y,
         getpixel (anchored target_w target_h content) x y
         = let x0 := (target_w - nw) `div` 2 in
           let y0 := target_h - nh in
           if (0 <=? x - x0) && (x - x0 <? nw) && (0 <=? y - y0) && (y - y0 <? nh)
           then blend_pixel (alpha (getpixel content (x - x0) (y - y0)))
                  (0, 0, 0, 0) (getpixel content (x - x0) (y - y0))
           else (0, 0, 0, 0).
Proof.
  intros Hsource. unfold process_sprite. rewrite Hsource. cbv zeta.
  destruct (if negb _ then _ else _) as [fs1 out1].
  destruct (building_size name) as [target_w target_h]. cbn [fst snd].
  unfold open_bytes, mbind, result_bind, bind.
  destruct (remove source) as [cut|] eqn:Hcut; [|discriminate].
  destruct (decoded cut) as [opened|] eqn:Hopened; [|discriminate].
  fold (cropped opened).
  destruct (int_truediv target_w (width (cropped opened))) as [rw|] eqn:Hrw;
    [|discriminate].
  destruct (int_truediv target_h (height (cropped opened))) as [rh|] eqn:Hrh;
    [|discriminate].
  destruct (int_of_float (PrimFloat.mul (float_of_int (width (cropped opened)))
                            (min2 rw rh))) as [nw|] eqn:Hnw; [|discriminate].
  destruct (int_of_float (PrimFloat.mul (float_of_int (height (cropped opened)))
                            (min2 rw rh))) as [nh|] eqn:Hnh; [|discriminate].
  destruct (resize (cropped opened) nw nh NEAREST) as [content|] eqn:Hresize;
    [|discriminate].
  intros _. cbn [fst snd].
  destruct (resize_sides _ _ _ _ _ Hresize) as [Hcw Hch].
  exists cut, opened, nw, nh, content. cbv zeta.
  split; [reflexivity|]. split; [exact Hopened|].
  split; [unfold scaled_side, mbind, result_bind, bind; now rewrite Hrw, Hrh|].
  split; [unfold scaled_side, mbind, result_bind, bind; now rewrite Hrw, Hrh|].
  split; [exact Hresize|].
  split; [unfold size; now rewrite Hcw, Hch|].
  split.
  { unfold save. rewrite lookup_insert_eq. unfold anchored.
    now rewrite Hcw, Hch. }
  split; [reflexivity|]. split; [reflexivity|].
  intros x y. rewrite anchored_pixel. cbv zeta. unfold inside.
  now rewrite Hcw, Hch.
Qed.

Lemma process_sprite_keeps name fs out :
  keeps_files fs (process_sprite name (fs, out)).1.1.
Proof.
  unfold process_sprite.
  destruct (fs !! (name +:+ ".png")) as [source|]; [|intros path Hpath; exact Hpath].
  cbv zeta.
  assert (Hbacked : keeps_files fs
            (if negb (exists_ fs ("originals_backup/" +:+ name +:+ "_original.png"))
             then (<["originals_backup/" +:+ name +:+ "_original.png" := source]> fs,
                   print ("  [BACKUP] " +:+ name +:+ "_original.png") out)
             else (fs, out)).1).
  { destruct (negb _); cbn [fst];
      [apply keeps_files_insert | intros path Hpath; exact Hpath]. }
  destruct (if negb _ then _ else _) as [fs1 out1]. cbn [fst] in Hbacked.
  destruct (building_size name) as [target_w target_h].
  match goal with
  | |- context [match ?rendered with Ok _ => _ | Raise _ => _ end] =>
      destruct rendered as [[[canvas new_w] new_h]|]
  end; cbn [fst]; [|exact Hbacked].
  intros path Hpath. unfold save. apply keeps_files_insert, Hbacked, Hpath.
Qed.

(** One round of the loop of [main]. *)
Definition building_step : filesystem * stdout -> string -> filesystem * stdout :=
  fun '(fs, out) name =>
    let out := print ("Processing: " +:+ name) out in
    match process_sprite name (fs, out) with
    | (fs, out, Ok _) => (fs, out)
    | (fs, out, Raise e) => (fs, print ("  [ERROR] " +:+ exn_name e) out)
    end.

Lemma main_steps fs out :
  main (fs, out)
  = let '(fs', out') :=
      foldl building_step (fs, print "=== Building Sprite Processor ===" out)
        (BUILDING_SIZES.*1) in
    (fs', print "=== Done! ===" out').
Proof. reflexivity. Qed.

Lemma building_step_directory st name :
  (building_step st name).1
  = (process_sprite name (st.1, print ("Processing: " +:+ name) st.2)).1.1.
Proof.
  destruct st as [fs out]. unfold building_step. cbn [fst snd].
  destruct (process_sprite name _) as [[fs1 out1] [[]|e]]; reflexivity.
Qed.

Lemma building_steps_back_up names st :
  keeps_files st.1 (foldl building_step st names).1
  /\ forall name, name ∈ names -> is_Some (st.1 !! (name +:+ ".png")) ->
       is_Some ((foldl building_step st names).1
                  !! ("originals_backup/" +:+ name +:+ "_original.png")).
Proof.
  revert st. induction names as [|first names IH]; intros st.
  - split; [intros path Hpath; exact Hpath|]. intros name Hname. inversion Hname.
  - cbn [foldl]. destruct (IH (building_step st first)) as [IHkeep IHbackup].
    assert (Hstep : keeps_files st.1 (building_step st first).1).
    { rewrite building_step_directory. apply process_sprite_keeps. }
    split.
    + intros path Hpath. apply IHkeep, Hstep, Hpath.
    + intros name Hname Hfile. apply elem_of_cons in Hname as [->|Hname].
      * apply IHkeep. rewrite building_step_directory.
        destruct Hfile as [source Hsource].
        rewrite (building_backup_held first st.1 _ source Hsource).
        now eexists.
      * apply IHbackup; [exact Hname|]. apply Hstep, Hfile.
Qed.

(** After a run of the building processor, every building of the table
    whose file was there has a backup, whether its processing succeeded or
    raised; and no file of the directory has been removed. *)
Theorem building_processor_backs_up (fs : filesystem) (out : stdout) :
  (forall path, is_Some (fs !! path) -> is_Some ((main (fs, out)).1 !! path))
  /\ forall name, name ∈ BUILDING_SIZES.*1 -> is_Some (fs !! (name +:+ ".png")) ->
       is_Some ((main (fs, out)).1
                  !! ("originals_backup/" +:+ name +:+ "_original.png")).
Proof.
  rewrite main_steps.
  destruct (building_steps_back_up (BUILDING_SIZES.*1)
              (fs, print "=== Building Sprite Processor ===" out))
    as [Hkeep Hbackup].
  destruct (foldl building_step _ _) as [fs' out']. cbn [fst] in *.
  split; [exact Hkeep | exact Hbackup].
Qed.

End BuildingBackup.

(** ** Rebuilding the sheets of the recoloured characters *)

Section Rebuild.
Import PIL recolor_sprites.
Context `{Extern}.

Lemma red_sheet_apart direction col :
  "char_red_sheet.png" <> frame_name "orange" direction col.
Proof. discriminate. Qed.

(** [rebuild_sheets] has no test frame: when the frame files that are
    present decode it writes the sheet of either colour, each of 144 x 256,
    and reports for each the number of its frame files that are missing. *)
Theorem rebuild_sheets_writes_both (fs : filesystem) (out : stdout) :
  decodable fs (frame_name "red") 3 -> decodable fs (frame_name "orange") 3 ->
  exists red_sheet orange_sheet,
    rebuild_sheets (fs, out)
    = Ok (save orange_sheet "char_orange_sheet.png"
            (save red_sheet "char_red_sheet.png" fs),
          print (ok_line "orange" (missing_frames fs (frame_name "orange") 3))
            (print (ok_line "red" (missing_frames fs (frame_name "red") 3))
               (print "=== Rebuilding sprite sheets ===" out)))
    /\ size red_sheet = (144, 256) /\ size orange_sheet = (144, 256).
Proof.
  intros Hred Horange. unfold rebuild_sheets.
  change (RECOLOR_TARGETS.*1) with ["red"; "orange"]%string. cbn [for_each].
  destruct (rebuild_sheet_laid_out "red" fs
              (print "=== Rebuilding sprite sheets ===" out) Hred)
    as (red_sheet & red_missing & -> & _ & Hred_size & -> & _).
  cbn [bind].
  set (fs1 := save red_sheet ("char_" +:+ "red" +:+ "_sheet.png") fs).
  assert (Hsame : forall direction col,
            fs1 !! frame_name "orange" direction col
            = fs !! frame_name "orange" direction col).
  { intros direction col. unfold fs1, save. apply lookup_insert_ne.
    apply red_sheet_apart. }
  destruct (rebuild_sheet_laid_out "orange" fs1
              (print (ok_line "red" (missing_frames fs (frame_name "red") 3))
                 (print "=== Rebuilding sprite sheets ===" out)))
    as (orange_sheet & orange_missing & -> & _ & Horange_size & -> & _).
  { intros direction col file Hd Hcol. rewrite Hsame. now apply Horange. }
  cbn [bind].
  exists red_sheet, orange_sheet. split; [|split; assumption].
  assert (Hmissing : missing_frames fs1 (frame_name "orange") 3
                     = missing_frames fs (frame_name "orange") 3).
  { unfold missing_frames. f_equal. f_equal.
    apply List.filter_ext. intros [direction col]. cbn [fst snd].
    unfold exists_. now rewrite Hsame. }
  rewrite Hmissing. reflexivity.
Qed.

End Rebuild.

(** ** Batches without a handler *)

Section Raising.
Context {A S : Type}.

(** A loop raises when one of its rounds raises from every state of an
    invariant that the rounds before it keep. *)
Lemma for_each_raises (I : S -> Prop) (xs : list A) (body : S -> A -> result S)
    (x : A) (s : S) :
  x ∈ xs -> I s ->
  (forall s y s', y ∈ xs -> I s -> body s y = Ok s' -> I s') ->
  (forall s, I s -> exists e, body s x = Raise e) ->
  exists e, for_each xs body s = Raise e.
Proof.
  intros Hx Hs Hkeep Hraise. revert s Hs.
  induction xs as [|y xs IH]; intros s Hs; [inversion Hx|].
  cbn [for_each]. destruct (body s y) as [s1|e] eqn:Hstep; [|now exists e].
  apply elem_of_cons in Hx as [->|Hx].
  - destruct (Hraise s Hs) as [e He]. congruence.
  - apply IH.
    + exact Hx.
    + intros s2 z s3 Hz. apply Hkeep. now right.
    + apply (Hkeep s y s1); [left | exact Hs | exact Hstep].
Qed.

End Raising.

Section Uncontained.
Import PIL.
Context `{Extern}.

(** A blue frame that is there, with 300 bytes or more, and does not decode
    makes its round of [process_color] raise. *)
Lemma recolor_round_raises color_name cfg fs out count skipped slot file :
  fs !! recolor_sprites.frame_name "blue" slot.2 slot.1 = Some file ->
  300 <= st_size file -> decoded file = None ->
  recolor_round color_name cfg slot.2 (fs, out, count, skipped) slot.1
  = Raise UnidentifiedImageError.
Proof.
  intros Hfile Hsize Hdecoded. unfold recolor_round. cbv zeta. rewrite Hfile.
  destruct (Z.ltb_spec (st_size file) 300) as [|_]; [lia|].
  unfold open. now rewrite Hfile, Hdecoded.
Qed.

(** When no frame file of the colour is a blue source, [process_color] raises
    as soon as one of the twelve blue frames is there with 300 bytes or more
    and does not decode. *)
Lemma process_color_raises color_name cfg fs out slot file :
  apart_from_blue color_name -> slot ∈ blue_slots ->
  fs !! recolor_sprites.frame_name "blue" slot.2 slot.1 = Some file ->
  300 <= st_size file -> decoded file = None ->
  exists e, recolor_sprites.process_color color_name cfg (fs, out) = Raise e.
Proof.
  intros Hapart Hslot Hfile Hsize Hdecoded. rewrite process_color_rounds.
  pose proof (for_each_nested recolor_sprites.DIRECTIONS
                (range recolor_sprites.FRAMES_PER_DIR)
                (fun st slot => recolor_round color_name cfg slot.2 st slot.1))
    as Hflat.
  cbn [fst snd] in Hflat. fold blue_slots in Hflat. rewrite Hflat.
  destruct (for_each_raises
              (fun st : filesystem * stdout * Z * Z =>
                 st.1.1.1 !! recolor_sprites.frame_name "blue" slot.2 slot.1
                 = Some file)
              blue_slots
              (fun st slot => recolor_round color_name cfg slot.2 st slot.1)
              slot
              (fs, print ("=== Recoloring blue -> " +:+ color_name +:+ " ===") out,
               0, 0))
    as [e He].
  - exact Hslot.
  - exact Hfile.
  - intros st other st' Hother Hinv Hstep. rewrite <- Hinv.
    apply blue_slots_spec in Hother as [Hd Hf].
    apply (recolor_round_writes color_name cfg other.2 st other.1 st').
    + exact Hd.
    + unfold range. apply elem_of_seqZ. lia.
    + exact Hstep.
    + now apply Hapart.
  - intros [[[fs1 out1] count1] skipped1] Hinv. cbn [fst] in Hinv.
    exists UnidentifiedImageError. now apply (recolor_round_raises _ _ _ _ _ _ _ file).
  - exists e. unfold mbind, result_bind, bind. now rewrite He.
Qed.

(** No frame file of a character is the sheet file of a character. *)
Lemma frames_are_no_sheets :
  forallb (fun color =>
    forallb (fun direction =>
      forallb (fun col =>
        forallb (fun subject =>
          negb (String.eqb (build_sprite_sheets.frame_name "char" color direction col)
                  (build_sprite_sheets.sheet_name "char" subject)))
          build_sprite_sheets.CHAR_COLORS)
        (range 3))
      build_sprite_sheets.DIRECTIONS)
    build_sprite_sheets.CHAR_COLORS = true.
Proof. vm_compute. reflexivity. Qed.

Lemma frame_is_no_sheet color direction col subject :
  color ∈ build_sprite_sheets.CHAR_COLORS ->
  direction ∈ build_sprite_sheets.DIRECTIONS -> 0 <= col < 3 ->
  subject ∈ build_sprite_sheets.CHAR_COLORS ->
  build_sprite_sheets.frame_name "char" color direction col
  <> build_sprite_sheets.sheet_name "char" subject.
Proof.
  intros Hcolor Hdirection Hcol Hsubject Heq.
  pose proof frames_are_no_sheets as Hall.
  rewrite forallb_forall in Hall.
  specialize (Hall color ltac:(now apply list_elem_of_In)).
  rewrite forallb_forall in Hall.
  specialize (Hall direction ltac:(now apply list_elem_of_In)).
  rewrite forallb_forall in Hall.
  specialize (Hall col ltac:(apply list_elem_of_In; unfold range;
                            apply elem_of_seqZ; lia)).
  rewrite forallb_forall in Hall.
  specialize (Hall subject ltac:(now apply list_elem_of_In)).
  apply negb_true_iff in Hall. apply String.eqb_neq in Hall. contradiction.
Qed.

(** The row of a direction. *)
Lemma direction_row direction :
  direction ∈ build_sprite_sheets.DIRECTIONS ->
  exists row, (row, direction) ∈ enumerate build_sprite_sheets.DIRECTIONS.
Proof.
  intros Hd. apply list_elem_of_In in Hd. cbn in Hd.
  destruct Hd as [<-|[<-|[<-|[<-|[]]]]];
    [exists 0 | exists 1 | exists 2 | exists 3];
    apply list_elem_of_In; vm_compute; tauto.
Qed.

(** For a subject whose test frame is there, [build_sheet] raises as soon
    as one of its frame files is there and does not decode. *)
Lemma build_sheet_raises kind frames_per_dir subject fs out direction col file :
  is_Some (fs !! build_sprite_sheets.frame_name kind subject "front" 0) ->
  direction ∈ build_sprite_sheets.DIRECTIONS -> 0 <= col < frames_per_dir ->
  fs !! build_sprite_sheets.frame_name kind subject direction col = Some file ->
  decoded file = None ->
  exists e,
    build_sprite_sheets.build_sheet kind frames_per_dir subject (fs, out) = Raise e.
Proof.
  intros Htest Hd Hcol Hfile Hdecoded. unfold build_sprite_sheets.build_sheet.
  unfold exists_ at 1. rewrite bool_decide_eq_true_2 by exact Htest. cbn [negb].
  unfold mbind at 1, result_bind, bind.
  destruct (open fs _) as [sample|e]; [|now exists e].
  destruct (size sample) as [fw fh]. cbv beta iota zeta.
  destruct (direction_row direction Hd) as [row Hrow].
  match goal with
  | |- context [for_each ?rows ?body ?start] =>
      destruct (for_each_raises (fun _ => True) rows body (row, direction) start)
        as [e He]
  end.
  - exact Hrow.
  - exact I.
  - auto.
  - intros st _. cbv beta iota.
    match goal with
    | |- context [for_each ?cols ?body ?start] =>
        destruct (for_each_raises (fun _ => True) cols body col start) as [e He]
    end.
    + unfold range. apply elem_of_seqZ. lia.
    + exact I.
    + auto.
    + intros [sheet missing] _. exists UnidentifiedImageError.
      unfold exists_. rewrite bool_decide_eq_true_2 by (rewrite Hfile; now eexists).
      unfold open. now rewrite Hfile, Hdecoded.
    + now exists e.
  - exists e. now rewrite He.
Qed.

(** [build_character_sheets] raises as soon as a colour whose test frame is
    there has a frame file that is there and does not decode. *)
Lemma build_character_sheets_raises fs out color direction col file :
  color ∈ build_sprite_sheets.CHAR_COLORS ->
  is_Some (fs !! build_sprite_sheets.frame_name "char" color "front" 0) ->
  direction ∈ build_sprite_sheets.DIRECTIONS -> 0 <= col < 3 ->
  fs !! build_sprite_sheets.frame_name "char" color direction col = Some file ->
  decoded file = None ->
  exists e, build_sprite_sheets.build_character_sheets (fs, out) = Raise e.
Proof.
  intros Hcolor Htest Hd Hcol Hfile Hdecoded.
  unfold build_sprite_sheets.build_character_sheets.
  apply (for_each_raises
           (fun st : filesystem * stdout =>
              st.1 !! build_sprite_sheets.frame_name "char" color "front" 0
              = fs !! build_sprite_sheets.frame_name "char" color "front" 0
              /\ st.1 !! build_sprite_sheets.frame_name "char" color direction col
                 = Some file)
           _ _ color).
  - exact Hcolor.
  - now split.
  - intros [fs1 out1] subject [fs2 out2] Hsubject [Hkept Hbad] Hstep.
    apply build_sheet_writes in Hstep. cbn [fst] in *.
    rewrite !Hstep; [now split | |].
    + apply frame_is_no_sheet; assumption.
    + apply frame_is_no_sheet; try assumption; [|lia].
      apply list_elem_of_In. vm_compute. tauto.
  - intros [fs1 out1] [Hkept Hbad]. cbn [fst] in *.
    apply (build_sheet_raises "char" 3 color fs1 out1 direction col file);
      try assumption.
    now rewrite Hkept.
Qed.

End Uncontained.

Section Containment.
Import PIL.
Context `{Extern}.

(** C8, as amended.  In the loop of [process_characters], the listed files
    existing, the batch returns having visited every listed file, and an
    exception of [process_sprite] on one file is caught: it adds one "ERROR"
    line and leaves the directory and the count to the next file.  The loops
    of [process_color] and [build_character_sheets] have no handler.
    [process_color], for a colour none of whose frame files is a blue source,
    raises whenever one of the twelve blue frames is there with 300 bytes or
    more and does not decode; [build_character_sheets] raises whenever a
    colour whose test frame is there has a frame file that is there and does
    not decode. *)
Theorem batch_error_containment :
  (forall (fs : filesystem) (out : stdout),
     (forall f, f ∈ sorted_glob fs "char_*_*.png" -> is_Some (fs !! f)) ->
     (exists fs' out' count,
        process_all_sprites.process_characters (fs, out)
        = Ok (fs', print ("  Processed " +:+ pretty count +:+ " character sprites.")
                     out', count)
        /\ visited 48 64
             (List.filter (fun f => negb (process_all_sprites.mentions_sheet
                                            (process_all_sprites.stem f)))
                (sorted_glob fs "char_*_*.png"))
             (fs, print "=== Processing Character Sprites ===" out, 0)
             (fs', out', count))
     /\ (forall src fs1 out1 count1 e,
           process_all_sprites.process_sprite src 48 64 false fs1 = Raise e ->
           process_all_sprites.try_process_sprite src 48 64 false true
             (fs1, out1, count1)
           = (fs1, print ("ERROR: " +:+ exn_name e) out1, count1)))
  /\ (forall (color_name : string) (cfg : recolor_sprites.config)
        (fs : filesystem) (out : stdout) (slot : Z * string) (file : file),
        apart_from_blue color_name -> slot ∈ blue_slots ->
        fs !! recolor_sprites.frame_name "blue" slot.2 slot.1 = Some file ->
        300 <= st_size file -> decoded file = None ->
        exists e, recolor_sprites.process_color color_name cfg (fs, out) = Raise e)
  /\ (forall (fs : filesystem) (out : stdout) (color direction : string) (col : Z)
        (file : file),
        color ∈ build_sprite_sheets.CHAR_COLORS ->
        is_Some (fs !! build_sprite_sheets.frame_name "char" color "front" 0) ->
        direction ∈ build_sprite_sheets.DIRECTIONS -> 0 <= col < 3 ->
        fs !! build_sprite_sheets.frame_name "char" color direction col = Some file ->
        decoded file = None ->
        exists e, build_sprite_sheets.build_character_sheets (fs, out) = Raise e).
Proof.
  split; [|split].
  - intros fs out Hfiles. now apply process_characters_contains_errors.
  - intros color_name cfg fs out slot file.
    now apply process_color_raises.
  - intros fs out color direction col file.
    now apply build_character_sheets_raises.
Qed.

End Containment.

(** ** The properties on concrete directories *)

(** The reference listing lists files of the directory only. *)
Lemma insort_elem (name other : string) (names : list string) :
  other ∈ Reference.insort name names -> other = name \/ other ∈ names.
Proof.
  induction names as [|first names IH]; cbn [Reference.insort].
  - intros Hin. apply list_elem_of_singleton in Hin. now left.
  - destruct (String.leb name first).
    + intros Hin. apply elem_of_cons in Hin as [->|Hin]; [now left | now right].
    + intros Hin. apply elem_of_cons in Hin as [->|Hin]; [right; left|].
      destruct (IH Hin) as [->|Hrest]; [now left | right; now right].
Qed.

Lemma sorted_elem (other : string) (names : list string) :
  other ∈ Reference.sorted names -> other ∈ names.
Proof.
  induction names as [|first names IH]; cbn; [auto|].
  intros Hin. apply insort_elem in Hin as [->|Hin]; [left | right; auto].
Qed.

Lemma listing_lists_files (fs : PIL.filesystem) (pattern f : string) :
  f ∈ Reference.listing fs pattern -> is_Some (fs !! f).
Proof.
  unfold Reference.listing. intros Hin. apply sorted_elem in Hin.
  apply list_elem_of_In in Hin. apply List.filter_In in Hin as [Hin _].
  apply list_elem_of_In in Hin. apply list_elem_of_fmap in Hin as ([k v] & -> & Hkv).
  apply elem_of_map_to_list in Hkv. cbn. now exists v.
Qed.

(** A directory with one animal frame. *)
Definition cow_directory : PIL.filesystem :=
  {[ "animal_cow_front_0.png" := frame_file ]}.

Lemma process_animals_contains_errors_witness :
  exists fs' out' count,
    process_all_sprites.process_animals (H := Reference.extern) (cow_directory, [])
    = Ok (fs', print ("  Processed " +:+ pretty count +:+ " animal sprites.") out',
          count)
    /\ visited (H := Reference.extern) 48 48
         (List.filter (fun f => negb (process_all_sprites.mentions_sheet
                                        (process_all_sprites.stem f)))
            (Reference.listing cow_directory "animal_*.png"))
         (cow_directory, print "=== Processing Animal Sprites ===" [], 0)
         (fs', out', count).
Proof.
  exact (proj1 (process_animals_contains_errors (H := Reference.extern)
                  cow_directory []
                  (listing_lists_files cow_directory "animal_*.png"))).
Defined.

Lemma recolor_pixel_grey_witness :
  recolor_sprites.recolor_pixel 128 128 128 255 12 1.1 0.95
  = Ok (128, 128, 128, 255).
Proof. apply recolor_pixel_grey. unfold PIL.byte. lia. Defined.

Lemma recolor_image_bytes_witness :
  exists out,
    recolor_sprites.recolor_image blue_dot 12 1.1 0.95 = Ok out
    /\ PIL.im_mode out = PIL.RGBA /\ PIL.size out = PIL.size blue_dot
    /\ forall x y, PIL.inside blue_dot x y = true ->
         bytes_pixel (PIL.getpixel out x y)
         /\ PIL.alpha (PIL.getpixel out x y)
            = PIL.alpha (PIL.getpixel (PIL.convert_RGBA blue_dot) x y).
Proof.
  apply (recolor_image_bytes (recolor_sprites.Config 12 1.1 0.95) blue_dot).
  - unfold shipped. vm_compute. left.
  - intros x y Hxy. vm_compute. intuition discriminate.
Defined.

(** A directory with one blue frame of 400 bytes. *)
Definition blue_directory : PIL.filesystem :=
  {[ "char_blue_front_0.png" := PIL.File 400 (Some blue_dot) ]}.

Lemma blue_frame_not_red :
  ~ frame_of "red" "char_blue_front_0.png".
Proof. intros (direction & frame & _ & _ & Heq). discriminate Heq. Qed.

Lemma process_color_writes_witness :
  match recolor_sprites.process_color (H := Reference.extern) "red"
          (recolor_sprites.Config 12 1.1 0.95) (blue_directory, []) with
  | Ok (fs', _, _) =>
      fs' !! "char_blue_front_0.png" = blue_directory !! "char_blue_front_0.png"
  | Raise _ => False
  end.
Proof.
  assert (Hok : returns (recolor_sprites.process_color (H := Reference.extern) "red"
                           (recolor_sprites.Config 12 1.1 0.95) (blue_directory, []))
                = true) by (vm_compute; reflexivity).
  destruct (recolor_sprites.process_color (H := Reference.extern) "red"
              (recolor_sprites.Config 12 1.1 0.95) (blue_directory, []))
    as [[[fs' out'] count]|] eqn:Hrun; [|discriminate Hok].
  exact (process_color_writes (H := Reference.extern) _ _ _ _ _ _ _ Hrun
           "char_blue_front_0.png" blue_frame_not_red).
Defined.

Lemma red_is_shipped : "red" ∈ recolor_sprites.RECOLOR_TARGETS.*1.
Proof. apply list_elem_of_In. cbn. tauto. Qed.

Lemma process_color_count_witness :
  match recolor_sprites.process_color (H := Reference.extern) "red"
          (recolor_sprites.Config 12 1.1 0.95) (blue_directory, []) with
  | Ok (_, out', count) =>
      count = usable_count blue_directory blue_slots
      /\ 0 <= count <= 12
      /\ last out' = Some ("  Recolored " +:+ pretty count +:+ " frames, skipped "
                           +:+ pretty (12 - count))
  | Raise _ => False
  end.
Proof.
  assert (Hok : returns (recolor_sprites.process_color (H := Reference.extern) "red"
                           (recolor_sprites.Config 12 1.1 0.95) (blue_directory, []))
                = true) by (vm_compute; reflexivity).
  destruct (recolor_sprites.process_color (H := Reference.extern) "red"
              (recolor_sprites.Config 12 1.1 0.95) (blue_directory, []))
    as [[[fs' out'] count]|] eqn:Hrun; [|discriminate Hok].
  exact (process_color_count (H := Reference.extern) _ _ _ _ _ _ _
           (shipped_apart_from_blue "red" red_is_shipped) Hrun).
Defined.

Lemma test_frame_is_no_sheet :
  build_sprite_sheets.frame_name "char" "red" "front" 0 ∉ sheet_names.
Proof.
  intros Hin. apply list_elem_of_In in Hin. vm_compute in Hin.
  repeat (destruct Hin as [Hin|Hin]; [discriminate Hin|]). exact Hin.
Qed.

Lemma sheet_builder_writes_sheets_only_witness :
  match build_sprite_sheets.main (H := Reference.extern) (red_test_frame_only, []) with
  | Ok (fs', _) =>
      fs' !! build_sprite_sheets.frame_name "char" "red" "front" 0
      = red_test_frame_only !! build_sprite_sheets.frame_name "char" "red" "front" 0
  | Raise _ => False
  end.
Proof.
  assert (Hok : returns (build_sprite_sheets.main (H := Reference.extern)
                           (red_test_frame_only, [])) = true)
    by (vm_compute; reflexivity).
  destruct (build_sprite_sheets.main (H := Reference.extern)
              (red_test_frame_only, []))
    as [[fs' out']|] eqn:Hrun; [|discriminate Hok].
  exact (sheet_builder_writes_sheets_only (H := Reference.extern) _ _ _ _ Hrun
           _ test_frame_is_no_sheet).
Defined.

(** The blank directory once its frame has been backed up. *)
Definition backed_up_directory : PIL.filesystem :=
  <[ process_all_sprites.backup_name "char_blue_front_0.png"
     := PIL.File 90 (Some blank_cutout) ]> blank_directory.

Lemma backup_file_keeps_first_witness :
  process_all_sprites.backup_file "char_blue_front_0.png" backed_up_directory
  = Ok (false, backed_up_directory).
Proof.
  apply (proj1 (backup_file_keeps_first "char_blue_front_0.png" blank_directory
                  backed_up_directory backed_up_directory true
                  ltac:(vm_compute; reflexivity) eq_refl)).
Defined.

Lemma process_characters_log_witness :
  exists fs' out' count,
    process_all_sprites.process_characters (H := Reference.extern)
      (mixed_directory, []) = Ok (fs', out', count)
    /\ length out'
       = (length (@nil string)
          + 2 * length (char_files (H := Reference.extern) mixed_directory) + 2)%nat
    /\ last out' = Some ("  Processed " +:+ pretty count +:+ " character sprites.")
    /\ 0 <= count
       <= Z.of_nat (length (char_files (H := Reference.extern) mixed_directory)).
Proof.
  exact (process_characters_log (H := Reference.extern) mixed_directory []
           mixed_directory_listed).
Defined.

Lemma process_characters_keeps_files_witness :
  exists fs' out' count,
    process_all_sprites.process_characters (H := Reference.extern)
      (mixed_directory, []) = Ok (fs', out', count)
    /\ (forall path content,
          path ∉ char_files (H := Reference.extern) mixed_directory ->
          mixed_directory !! path = Some content -> fs' !! path = Some content)
    /\ (forall path, is_Some (mixed_directory !! path) -> is_Some (fs' !! path))
    /\ (forall f, f ∈ char_files (H := Reference.extern) mixed_directory ->
          is_Some (fs' !! process_all_sprites.backup_name f)).
Proof.
  exact (process_characters_keeps_files (H := Reference.extern) mixed_directory []
           mixed_directory_listed).
Defined.

Lemma normalizer_returns_witness :
  exists fs' out',
    process_all_sprites.main (H := Reference.extern) (mixed_directory, [])
    = Ok (fs', out')
    /\ forall path, is_Some (mixed_directory !! path) -> is_Some (fs' !! path).
Proof.
  exact (normalizer_returns (H := Reference.extern) mixed_directory []
           listing_lists_files).
Defined.

(** A directory with one character frame, the sample sprite. *)
Definition sample_directory : PIL.filesystem :=
  {[ "char_blue_front_0.png" := PIL.File 400 (Some sample_sprite) ]}.

Lemma pixelation_keeps_sizes_witness :
  match pixelate_sprites.main (H := Reference.extern) (sample_directory, []) with
  | Ok (fs', _) => written_size fs' "char_blue_front_0.png" = Some (4, 6)
  | Raise _ => False
  end.
Proof.
  assert (Hok : returns (pixelate_sprites.main (H := Reference.extern)
                           (sample_directory, [])) = true)
    by (vm_compute; reflexivity).
  destruct (pixelate_sprites.main (H := Reference.extern) (sample_directory, []))
    as [[fs' out']|] eqn:Hrun; [|discriminate Hok].
  apply (pixelation_keeps_sizes (H := Reference.extern) _ _ _ _ Hrun).
  reflexivity.
Defined.

Lemma pixelation_creates_no_file_witness :
  match pixelate_sprites.main (H := Reference.extern) (sample_directory, []) with
  | Ok (fs', _) => fs' !! "char_blue_front_1.png" = None
  | Raise _ => False
  end.
Proof.
  assert (Hok : returns (pixelate_sprites.main (H := Reference.extern)
                           (sample_directory, [])) = true)
    by (vm_compute; reflexivity).
  destruct (pixelate_sprites.main (H := Reference.extern) (sample_directory, []))
    as [[fs' out']|] eqn:Hrun; [|discriminate Hok].
  apply (pixelation_creates_no_file (H := Reference.extern) _ _ _ _ Hrun).
  reflexivity.
Defined.

Lemma building_sprite_backs_up_witness :
  (process_building_sprites.process_sprite (H := Reference.extern)
     "building_well" (sliver_directory, [])).1.1
    !! "originals_backup/building_well_original.png"
  = Some (default (PIL.File 700 (Some sliver_cutout))
            (sliver_directory !! "originals_backup/building_well_original.png")).
Proof.
  apply (proj1 (building_sprite_backs_up (H := Reference.extern) "building_well"
                  sliver_directory [] (PIL.File 700 (Some sliver_cutout))
                  ltac:(unfold sliver_directory; apply lookup_singleton_eq))).
Defined.

Lemma empty_decodable color_name :
  decodable ∅ (recolor_sprites.frame_name color_name) 3.
Proof. intros direction col file _ _ Hfile. now rewrite lookup_empty in Hfile. Qed.

Lemma rebuild_sheets_writes_both_witness :
  exists red_sheet orange_sheet,
    recolor_sprites.rebuild_sheets (H := Reference.extern) (∅, [])
    = Ok (PIL.save (H := Reference.extern) orange_sheet "char_orange_sheet.png"
            (PIL.save (H := Reference.extern) red_sheet "char_red_sheet.png" ∅),
          print (ok_line "orange"
                   (missing_frames ∅ (recolor_sprites.frame_name "orange") 3))
            (print (ok_line "red"
                      (missing_frames ∅ (recolor_sprites.frame_name "red") 3))
               (print "=== Rebuilding sprite sheets ===" [])))
    /\ PIL.size red_sheet = (144, 256) /\ PIL.size orange_sheet = (144, 256).
Proof.
  exact (rebuild_sheets_writes_both (H := Reference.extern) ∅ []
           (empty_decodable "red") (empty_decodable "orange")).
Defined.

(** The well's directory with a backup of the well beside it. *)
Definition backed_up_well : PIL.filesystem :=
  {[ "originals_backup/building_well_original.png"
     := PIL.File 700 (Some sliver_cutout) ]}.

Lemma building_round_from_backup_witness :
  building_round (H := Reference.extern)
    (<["building_well.png" := PIL.File 90 (Some blank_cutout)]> backed_up_well, [], 0)
    ("building_well", (96, 96))
  = building_round (H := Reference.extern)
      (<["building_well.png" := PIL.File 700 (Some sliver_cutout)]> backed_up_well,
       [], 0)
      ("building_well", (96, 96)).
Proof.
  apply (building_round_from_backup (H := Reference.extern) "building_well" 96 96
           backed_up_well [] 0).
  unfold backed_up_well. apply lookup_singleton_eq.
Defined.

(** A directory with the well as an opaque 48 x 64 image. *)
Definition well_directory : PIL.filesystem :=
  {[ "building_well.png" := frame_file ]}.

Lemma building_sprite_canvas_witness :
  exists cut opened nw nh content,
    PIL.remove (Extern := Reference.extern) frame_file = Ok cut
    /\ PIL.decoded cut = Some opened
    /\ scaled_side 96 96 (cropped opened) (PIL.width (cropped opened)) = Ok nw
    /\ scaled_side 96 96 (cropped opened) (PIL.height (cropped opened)) = Ok nh
    /\ PIL.resize (H := Reference.extern) (cropped opened) nw nh PIL.NEAREST
       = Ok content
    /\ PIL.size content = (nw, nh)
    /\ (process_building_sprites.process_sprite (H := Reference.extern)
          "building_well" (well_directory, [])).1.1 !! "building_well.png"
       = Some (PIL.File (PIL.png_size (Extern := Reference.extern)
                           (anchored 96 96 content))
                 (Some (anchored 96 96 content)))
    /\ PIL.size (anchored 96 96 content) = (96, 96).
Proof.
  destruct (building_sprite_canvas (H := Reference.extern) "building_well"
              well_directory [] frame_file)
    as (cut & opened & nw & nh & content & Hcanvas).
  - unfold well_directory. apply lookup_singleton_eq.
  - vm_compute. reflexivity.
  - cbv zeta in Hcanvas.
    destruct Hcanvas as (Hcut & Hopened & Hnw & Hnh & Hresize & Hsize & Hfile
                         & _ & Hdims & _).
    exists cut, opened, nw, nh, content.
    repeat (split; [assumption|]). exact Hdims.
Defined.

Lemma batch_error_containment_witness :
  (exists fs' out' count,
     process_all_sprites.process_characters (H := Reference.extern)
       (mixed_directory, [])
     = Ok (fs', print ("  Processed " +:+ pretty count +:+ " character sprites.") out',
           count)
     /\ visited (H := Reference.extern) 48 64
          (List.filter (fun f => negb (process_all_sprites.mentions_sheet
                                         (process_all_sprites.stem f)))
             (Reference.listing mixed_directory "char_*_*.png"))
          (mixed_directory, print "=== Processing Character Sprites ===" [], 0)
          (fs', out', count))
  /\ (exists e,
        recolor_sprites.process_color (H := Reference.extern) "red"
          (recolor_sprites.Config 12 1.1 0.95) (mixed_directory, []) = Raise e)
  /\ (exists e,
        build_sprite_sheets.build_character_sheets (H := Reference.extern)
          (mixed_directory, []) = Raise e).
Proof.
  destruct (batch_error_containment (H := Reference.extern))
    as (Hchars & Hcolor & Hsheets).
  split; [exact (proj1 (Hchars mixed_directory [] mixed_directory_listed))|].
  split.
  - apply (Hcolor "red" _ mixed_directory [] (0, "front"%string) corrupt_frame).
    + apply shipped_apart_from_blue, red_is_shipped.
    + apply blue_slots_spec. split; [apply list_elem_of_In; vm_compute; tauto|].
      vm_compute. intuition discriminate.
    + vm_compute. reflexivity.
    + vm_compute. discriminate.
    + reflexivity.
  - apply (Hsheets mixed_directory [] "blue"%string "front"%string 0 corrupt_frame).
    + apply list_elem_of_In. vm_compute. tauto.
    + exists corrupt_frame. vm_compute. reflexivity.
    + apply list_elem_of_In. vm_compute. tauto.
    + lia.
    + vm_compute. reflexivity.
    + reflexivity.
Defined.
